(** * Monthly energy statistics: a shallow embedding of the fetch, persist
      and report pipeline

    The development follows [get_monthly_data.py] (class
    [MonthlyEnergyDataFetcher]) and the ratio computation of
    [analyse_monthly_data.py].

    Conventions of the embedding:
    - Python [int] is [Z]; Python [float] is modelled by exact rationals [Q],
      with the two-decimal rounding written out ([round2]);
    - [None] / [NaN] are [option];
    - a raised exception is the [Raise] branch of [result];
    - the SQLite database is a pair of tables, each a list of rows holding the
      columns the INSERT statements supply (the [id] and [created_at] columns
      are filled by the database itself and are not part of a row here);
    - the remote API is an arbitrary state-passing function [http_get]. *)

From Stdlib Require Import ZArith QArith Qround List String Ascii Bool Lia.
From Stdlib Require Import DecimalString Permutation.
Import ListNotations.

Local Open Scope string_scope.
Local Open Scope Z_scope.

(* ================================================================== *)
(** ** Exceptions and results *)

Inductive exn : Type :=
| IllegalMonthError (month : Z)   (* calendar.monthrange *)
| OverflowError                   (* date value out of range *)
| IndexError                      (* list / string index out of range *)
| ShapeError                      (* AttributeError, TypeError or KeyError
                                     raised by an accessor on a payload *)
| IntegrityError                  (* sqlite3: UNIQUE or NOT NULL violated *)
| ArgumentError.                  (* argparse: invalid choice *)

Inductive result (A : Type) : Type :=
| Ok (a : A)
| Raise (e : exn).

Arguments Ok {A} a.
Arguments Raise {A} e.

Definition bind {A B} (r : result A) (k : A -> result B) : result B :=
  match r with
  | Ok a => k a
  | Raise e => Raise e
  end.

Notation "'let*' x ':=' r 'in' k" := (bind r (fun x => k))
  (at level 10, x pattern, r at level 100, k at level 200).

Definition is_none {A} (o : option A) : bool :=
  match o with None => true | Some _ => false end.

(* ================================================================== *)
(** ** Period resolution: [calculate_month_dates] *)

Module Period.

Record datetime : Type := mk_datetime {
  dt_year : Z;
  dt_month : Z;
  dt_day : Z
}.

Definition MINYEAR : Z := 1.
Definition MAXYEAR : Z := 9999.

(** [calendar.isleap] *)
Definition isleap (year : Z) : bool :=
  (year mod 4 =? 0) && (negb (year mod 100 =? 0) || (year mod 400 =? 0)).

(** [calendar.mdays] *)
Definition mdays (month : Z) : Z :=
  match month with
  | 1 => 31 | 2 => 28 | 3 => 31 | 4 => 30 | 5 => 31 | 6 => 30
  | 7 => 31 | 8 => 31 | 9 => 30 | 10 => 31 | 11 => 30 | 12 => 31
  | _ => 0
  end.

Definition days_in_month (year month : Z) : Z :=
  mdays month + (if (month =? 2) && isleap year then 1 else 0).

(** [calendar.monthrange(year, month)[1]]: the number of days of the month;
    the weekday component of the pair is not used by the caller.  The
    function rejects a month outside 1..12 before anything else. *)
Definition monthrange (year month : Z) : result Z :=
  if negb ((1 <=? month) && (month <=? 12)) then Raise (IllegalMonthError month)
  else Ok (days_in_month year month).

Definition valid_datetime (d : datetime) : Prop :=
  MINYEAR <= dt_year d <= MAXYEAR /\
  1 <= dt_month d <= 12 /\
  1 <= dt_day d <= days_in_month (dt_year d) (dt_month d).

(** [d.replace(day=1)] *)
Definition replace_day (d : datetime) (day : Z) : datetime :=
  mk_datetime (dt_year d) (dt_month d) day.

(** [d - timedelta(days=1)] on a valid date *)
Definition minus_one_day (d : datetime) : result datetime :=
  if 1 <? dt_day d then Ok (mk_datetime (dt_year d) (dt_month d) (dt_day d - 1))
  else if 1 <? dt_month d then
    Ok (mk_datetime (dt_year d) (dt_month d - 1)
          (days_in_month (dt_year d) (dt_month d - 1)))
  else if MINYEAR <? dt_year d then Ok (mk_datetime (dt_year d - 1) 12 31)
  else Raise OverflowError.

(** The format specification [0Nd] of an f-string: sign-aware zero padding
    to [width] characters. *)
Definition digits_of (n : N) : string := NilZero.string_of_uint (N.to_uint n).

Fixpoint zeros (n : nat) : string :=
  match n with
  | O => ""
  | S n' => String "0" (zeros n')
  end.

Definition format_0d (width : nat) (z : Z) : string :=
  let sign := if z <? 0 then "-" else "" in
  let ds := digits_of (Z.abs_N z) in
  (sign ++ zeros (width - String.length sign - String.length ds) ++ ds)%string.

(** [f"{year:04d}-{month:02d}-{day:02d}"] *)
Definition iso_date (year month day : Z) : string :=
  (format_0d 4 year ++ "-" ++ format_0d 2 month ++ "-" ++ format_0d 2 day)%string.

(** [calculate_month_dates(year, month)]; [today] is [datetime.now()]. *)
Definition calculate_month_dates (today : datetime) (year month : option Z)
  : result (string * string * Z * Z) :=
  let* (year, month) :=
    match month with
    | None =>
        let first_day_current_month := replace_day today 1 in
        let* last_day_previous_month := minus_one_day first_day_current_month in
        let month := dt_month last_day_previous_month in
        if (month =? 12) && is_none year
        then Ok (Some (dt_year today - 1), month)
        else Ok (year, month)
    | Some month => Ok (year, month)
    end in
  let year := match year with None => dt_year today | Some y => y end in
  let first_day := 1 in
  let* last_day := monthrange year month in
  let start_date := iso_date year month first_day in
  let end_date := iso_date year month last_day in
  Ok (start_date, end_date, year, month).

(** [main]: the [--month] option is declared with [choices=range(1, 13)];
    argparse rejects any other integer before the fetcher is built. *)
Definition parse_month_argument (month : option Z) : result (option Z) :=
  match month with
  | None => Ok None
  | Some m => if (1 <=? m) && (m <? 13) then Ok (Some m) else Raise ArgumentError
  end.

(** The month immediately preceding month [m] of the calendar. *)
Definition previous_month (m : Z) : Z := if m =? 1 then 12 else m - 1.

(** The period a well-formed result describes. *)
Definition period_of (y m : Z) : string * string * Z * Z :=
  (iso_date y m 1, iso_date y m (days_in_month y m), y, m).

End Period.

(* ================================================================== *)
(** ** The OBIS catalogue: [MonthlyEnergyDataFetcher.__init__] *)

Module Catalog.

(** One entry of [config['obiscode']]: the list [code, category, description]. *)
Record obis_info : Type := mk_obis_info {
  info_code : string;
  info_category : string;
  info_description : string
}.

(** The parts of the YAML configuration the pipeline reads. *)
Record config : Type := mk_config {
  obiscode : list obis_info;
  consumers_names : list string;
  consumers_smartmeters : list string;
  producers_names : list string;
  producers_smartmeters : list string
}.

Record fetcher : Type := mk_fetcher {
  fetcher_config : config;
  consumption_codes : list obis_info;
  production_codes : list obis_info
}.

(** [s.split(sep)] for a one-character separator *)
Fixpoint split (sep : ascii) (s : string) : list string :=
  match s with
  | EmptyString => [EmptyString]
  | String c s' =>
      if Ascii.eqb c sep then EmptyString :: split sep s'
      else match split sep s' with
           | [] => [String c EmptyString]
           | h :: t => String c h :: t
           end
  end.

(** [l[i]] and [s[i]] for a non-negative index *)
Definition list_index {A} (l : list A) (i : nat) : result A :=
  match nth_error l i with
  | Some a => Ok a
  | None => Raise IndexError
  end.

Definition string_index (s : string) (i : nat) : result ascii :=
  match String.get i s with
  | Some c => Ok c
  | None => Raise IndexError
  end.

(** [obis_code.split(':')[1][0]] *)
Definition first_digit (obis_code : string) : result ascii :=
  let* segment := list_index (split ":" obis_code) 1 in
  string_index segment 0.

(** The loop over [config['obiscode']]; the two accumulators are
    [self.consumption_codes] and [self.production_codes]. *)
Fixpoint load_codes (entries consumption production : list obis_info)
  : result (list obis_info * list obis_info) :=
  match entries with
  | [] => Ok (consumption, production)
  | obis_info :: rest =>
      let obis_code := info_code obis_info in
      let* first_digit := first_digit obis_code in
      if Ascii.eqb first_digit "1" then
        load_codes rest (consumption ++ [obis_info]) production
      else if Ascii.eqb first_digit "2" then
        load_codes rest consumption (production ++ [obis_info])
      else load_codes rest consumption production
  end.

Definition init (cfg : config) : result fetcher :=
  let* (consumption, production) := load_codes (obiscode cfg) [] [] in
  Ok (mk_fetcher cfg consumption production).

(** *** The classification rule in the words of the specification *)

Inductive category : Type := Consumption | Production.

(** The character immediately after the first colon of a code. *)
Fixpoint char_after_first_colon (s : string) : option ascii :=
  match s with
  | EmptyString => None
  | String c s' =>
      if Ascii.eqb c ":" then
        match s' with
        | EmptyString => None
        | String d _ => Some d
        end
      else char_after_first_colon s'
  end.

Definition category_of_digit (d : ascii) : option category :=
  if Ascii.eqb d "1" then Some Consumption
  else if Ascii.eqb d "2" then Some Production
  else None.

Definition classify (obis_code : string) : option category :=
  match char_after_first_colon obis_code with
  | Some d => category_of_digit d
  | None => None
  end.

(** The list of the catalogue that holds the codes of a category. *)
Definition codes_for (f : fetcher) (c : category) : list obis_info :=
  match c with
  | Consumption => consumption_codes f
  | Production => production_codes f
  end.


End Catalog.

(* ================================================================== *)
(** ** Long-form records: the rows of the DataFrame of [fetch_all_data] *)

Record Row : Type := mk_Row {
  year : Z;
  month : Z;
  start_date : string;
  end_date : string;
  entity_type : string;
  entity_name : string;
  meter_id : string;
  obis_code : string;
  obis_category : string;
  obis_description : string;
  value : option Q;
  unit_ : option string;
  started_at : option string;
  ended_at : option string;
  calculated : option bool;
  type_ : option string;
  data_available : bool
}.

(** A DataFrame in long form is the list of its rows, in index order.  The
    frame has the columns of [Row] also when it has no row; the frame that
    [pd.DataFrame([])] builds from no row at all has no column and is not
    represented (a column lookup on it raises KeyError). *)
Definition DataFrame : Type := list Row.

(** *** DataFrame operations shared by the persistence and the reports *)

Module Frame.

(** Rounding to the nearest integer, ties to the even one. *)
Definition round_half_even (q : Q) : Z :=
  let f := Qfloor q in
  match ((q - inject_Z f) ?= (1 # 2))%Q with
  | Lt => f
  | Gt => f + 1
  | Eq => if Z.even f then f else f + 1
  end.

(** [round(q, 2)] and [Series.round(2)] on one value *)
Definition round2 (q : Q) : Q := Qmake (round_half_even (q * 100)) 100.

Definition round2_opt (v : option Q) : option Q :=
  match v with
  | Some q => Some (round2 q)
  | None => None
  end.

(** [Series.sum()]: missing values are skipped, the empty sum is 0. *)
Definition sum (vs : list (option Q)) : Q :=
  fold_left (fun acc v => match v with Some q => acc + q | None => acc end)%Q
    vs 0%Q.

Definition set_value (r : Row) (v : option Q) : Row :=
  mk_Row (year r) (month r) (start_date r) (end_date r) (entity_type r)
    (entity_name r) (meter_id r) (obis_code r) (obis_category r)
    (obis_description r) v (unit_ r) (started_at r) (ended_at r)
    (calculated r) (type_ r) (data_available r).

(** [df[df['data_available'] == True].copy()] followed by
    [df['value'] = df['value'].round(2)] *)
Definition with_data (df : DataFrame) : DataFrame :=
  map (fun r => set_value r (round2_opt (value r)))
    (filter data_available df).

(** Keys in order of first appearance. *)
Definition distinct {K} (eqb : K -> K -> bool) (ks : list K) : list K :=
  fold_left (fun acc k => if existsb (eqb k) acc then acc else (acc ++ [k])%list)
    ks [].

Fixpoint insert_sorted {K} (leb : K -> K -> bool) (k : K) (ks : list K) : list K :=
  match ks with
  | [] => [k]
  | h :: t => if leb k h then k :: h :: t else h :: insert_sorted leb k t
  end.

Definition sort {K} (leb : K -> K -> bool) (ks : list K) : list K :=
  fold_right (insert_sorted leb) [] ks.

(** [df.groupby(by)]: the groups in increasing key order, each with its rows
    in index order. *)
Definition groupby {K} (eqb leb : K -> K -> bool) (key : Row -> K)
    (df : DataFrame) : list (K * list Row) :=
  map (fun k => (k, filter (fun r => eqb (key r) k) df))
    (sort leb (distinct eqb (map key df))).

(** Keys made of three strings, compared as Python compares tuples. *)
Definition key3 : Type := string * string * string.

Definition key3_eqb (a b : key3) : bool :=
  let '(a1, a2, a3) := a in
  let '(b1, b2, b3) := b in
  String.eqb a1 b1 && String.eqb a2 b2 && String.eqb a3 b3.

Definition key3_leb (a b : key3) : bool :=
  let '(a1, a2, a3) := a in
  let '(b1, b2, b3) := b in
  match String.compare a1 b1 with
  | Lt => true
  | Gt => false
  | Eq =>
      match String.compare a2 b2 with
      | Lt => true
      | Gt => false
      | Eq => String.leb a3 b3
      end
  end.

End Frame.

(* ================================================================== *)
(** ** The metering client: [fetch_metering_data] *)

Module Client.

(** One element of [aggregatedTimeSeries]. *)
Record point : Type := mk_point {
  p_value : option Q;
  p_startedAt : option string;
  p_endedAt : option string;
  p_calculated : option bool;
  p_type : option string
}.

(** The value under the key [aggregatedTimeSeries] of a JSON object, by the
    way the accessors of the source treat it. *)
Inductive series : Type :=
| SeriesEmpty
    (* key absent, or a falsy value: null, [], 0, false, an empty string *)
| SeriesPoints (first : point) (rest : list point)
    (* a non-empty list whose first element is an object *)
| SeriesIllShaped.
    (* any other truthy value: len, [0] or .get raises *)

Record json_object : Type := mk_json_object {
  aggregatedTimeSeries : series;
  json_unit : option string
}.

Inductive payload : Type :=
| NotJson                       (* response.json() raises JSONDecodeError *)
| JsonNotObject                 (* valid JSON, not an object: .get raises *)
| JsonObject (data : json_object).

(** What [requests.get(url, headers, timeout=30)] does. *)
Inductive response : Type :=
| Timeout                                   (* requests.exceptions.Timeout *)
| RequestError                              (* another RequestException *)
| Response (status_code : Z) (body : payload).

(** The query string of one call. *)
Record request : Type := mk_request {
  rq_meter_id : string;
  rq_obisCode : string;
  rq_startDate : string;
  rq_endDate : string
}.

(** The [try] block of [fetch_metering_data] for each thing
    [requests.get] can do: [Ok None] is the Python [None], [Ok (Some data)]
    the returned dict; the [except] clauses catch the timeout, the request
    error and the JSON decoding error, nothing else. *)
Definition handle_response (response : response)
  : result (option json_object) :=
  match response with
  | Timeout => Ok None
  | RequestError => Ok None
  | Response status_code body =>
      if status_code =? 404 then Ok None
      else if negb (status_code =? 200) then Ok None
      else
        match body with
        | NotJson => Ok None
        | JsonNotObject => Raise ShapeError
        | JsonObject data =>
            match aggregatedTimeSeries data with
            | SeriesEmpty => Ok None
            | SeriesIllShaped => Raise ShapeError
            | SeriesPoints _ _ => Ok (Some data)
            end
        end
  end.

Section WithApi.

(** The remote service: a state [W] of the outside world and the effect of
    one GET on it. *)
Variable W : Type.
Variable http_get : request -> W -> response * W.

(** Computations that call the service and may raise. *)
Definition M (A : Type) : Type := W -> result A * W.

Definition ret {A} (a : A) : M A := fun w => (Ok a, w).

Definition bindM {A B} (m : M A) (k : A -> M B) : M B :=
  fun w =>
    match m w with
    | (Ok a, w') => k a w'
    | (Raise e, w') => (Raise e, w')
    end.

Definition lift {A} (r : result A) : M A := fun w => (r, w).

(** [fetch_metering_data(meter_id, obis_code, start_date, end_date)] *)
Definition fetch_metering_data (meter_id obis_code start_date end_date : string)
  : M (option json_object) :=
  fun w =>
    let (response, w') :=
      http_get (mk_request meter_id obis_code start_date end_date) w in
    (handle_response response, w').

End WithApi.

Arguments ret {W A} a.
Arguments bindM {W A B} m k.
Arguments lift {W A} r.

(** The responses every branch of the handler covers. *)
Definition handled (r : response) : bool :=
  match r with
  | Response 200 JsonNotObject => false
  | Response 200 (JsonObject data) =>
      match aggregatedTimeSeries data with
      | SeriesIllShaped => false
      | _ => true
      end
  | _ => true
  end.

(** The outcomes of the specification's client contract. *)
Inductive outcome : Type :=
| Reading (data : json_object)
| Unavailable
| FetchFailed.

(** The outcome the specification assigns to a response: 404, an empty
    series and a malformed payload are [Unavailable]; a timeout, a request
    error and any other status but 200 are [FetchFailed]. *)
Definition spec_outcome (r : response) : outcome :=
  match r with
  | Timeout => FetchFailed
  | RequestError => FetchFailed
  | Response status_code body =>
      if status_code =? 404 then Unavailable
      else if negb (status_code =? 200) then FetchFailed
      else
        match body with
        | JsonObject data =>
            match aggregatedTimeSeries data with
            | SeriesPoints _ _ => Reading data
            | _ => Unavailable
            end
        | _ => Unavailable
        end
  end.

(** The client contract as the specification states it: the caller can
    read the specification's outcome off what the call returns. *)
Definition reports_outcome
    (decode : result (option json_object) -> outcome) : Prop :=
  forall r, decode (handle_response r) = spec_outcome r.

(** A response that carries a reading. *)
Definition is_reading (r : response) : bool :=
  match spec_outcome r with
  | Reading _ => true
  | _ => false
  end.

End Client.

Notation "x <- m ;; k" := (Client.bindM m (fun x => k))
  (at level 61, m at next level, right associativity).

(* ================================================================== *)
(** ** The orchestrator: [fetch_all_data] *)

Module Orchestrator.

Import Period Catalog Client.

Section WithApi.

Variable W : Type.
Variable http_get : request -> W -> response * W.

(** The body of the inner loop: one call, one row. *)
Definition fetch_row (calc_year calc_month : Z) (start_date end_date : string)
    (entity_type name meter_id : string) (obis_info : obis_info) : M W Row :=
  let obis_code := info_code obis_info in
  let obis_category := info_category obis_info in
  let obis_description := info_description obis_info in
  data <- fetch_metering_data W http_get meter_id obis_code start_date end_date ;;
  let row :=
    mk_Row calc_year calc_month start_date end_date entity_type name meter_id
      obis_code obis_category obis_description
      None None None None None None false in
  ret
    match data with
    | Some data =>
        match aggregatedTimeSeries data with
        | SeriesPoints ts _ =>
            mk_Row calc_year calc_month start_date end_date entity_type name
              meter_id obis_code obis_category obis_description
              (p_value ts) (json_unit data) (p_startedAt ts) (p_endedAt ts)
              (p_calculated ts) (p_type ts) true
        | _ => row
        end
    | None => row
    end.

(** [for obis_info in codes: ...; df_data.append(row)] *)
Fixpoint fetch_codes (calc_year calc_month : Z) (start_date end_date : string)
    (entity_type name meter_id : string) (codes : list obis_info)
    (df_data : list Row) : M W (list Row) :=
  match codes with
  | [] => ret df_data
  | obis_info :: rest =>
      row <- fetch_row calc_year calc_month start_date end_date
               entity_type name meter_id obis_info ;;
      fetch_codes calc_year calc_month start_date end_date
        entity_type name meter_id rest (df_data ++ [row])
  end.

(** [for name, meter_id in zip(names, meters): ...] *)
Fixpoint fetch_entities (calc_year calc_month : Z) (start_date end_date : string)
    (entity_type : string) (roster : list (string * string))
    (codes : list obis_info) (df_data : list Row) : M W (list Row) :=
  match roster with
  | [] => ret df_data
  | (name, meter_id) :: rest =>
      df_data <- fetch_codes calc_year calc_month start_date end_date
                   entity_type name meter_id codes df_data ;;
      fetch_entities calc_year calc_month start_date end_date
        entity_type rest codes df_data
  end.

(** [fetch_all_data(year, month)]: the DataFrame of the returned pair. *)
Definition fetch_all_data (self : fetcher) (today : datetime)
    (year month : option Z) : M W DataFrame :=
  p <- lift (calculate_month_dates today year month) ;;
  let '(start_date, end_date, calc_year, calc_month) := p in
  let cfg := fetcher_config self in
  let df_data := [] in
  df_data <- fetch_entities calc_year calc_month start_date end_date "consumer"
               (combine (consumers_names cfg) (consumers_smartmeters cfg))
               (consumption_codes self) df_data ;;
  df_data <- fetch_entities calc_year calc_month start_date end_date "producer"
               (combine (producers_names cfg) (producers_smartmeters cfg))
               (production_codes self) df_data ;;
  ret df_data.

End WithApi.

(** The (entity type, name, meter, code) pairs a roster and a code list
    span, in the order of the two nested loops. *)
Definition pairs_of (entity_type : string) (roster : list (string * string))
    (codes : list obis_info) : list (string * string * string * string) :=
  flat_map (fun nm =>
    map (fun c => (entity_type, fst nm, snd nm, info_code c)) codes) roster.

Definition pair_of_row (r : Row) : string * string * string * string :=
  (entity_type r, entity_name r, meter_id r, obis_code r).

(** A record is present, or it is marked unavailable and carries no value. *)
Definition present_or_unavailable (r : Row) : Prop :=
  data_available r = true \/ (data_available r = false /\ value r = None).

(** The category of the codes an entity type is queried with. *)
Definition category_of_entity (entity_type : string) : option category :=
  if String.eqb entity_type "consumer" then Some Consumption
  else if String.eqb entity_type "producer" then Some Production
  else None.

(** The roster: [zip(names, smartmeters)] of each side of the configuration. *)
Definition consumers (cfg : config) : list (string * string) :=
  combine (consumers_names cfg) (consumers_smartmeters cfg).

Definition producers (cfg : config) : list (string * string) :=
  combine (producers_names cfg) (producers_smartmeters cfg).

End Orchestrator.

(* ================================================================== *)
(** ** The persistence store: [save_to_database] *)

Module Store.

Import Frame.

(** A row of table [metering_data]. *)
Record DetailRow : Type := mk_DetailRow {
  m_year : Z;
  m_month : Z;
  m_entity_type : string;
  m_entity_name : string;
  m_meter_id : string;
  m_obis_code : string;
  m_obis_category : string;
  m_obis_description : string;
  m_value : Q;                     (* REAL NOT NULL *)
  m_unit : option string;
  m_started_at : option string;
  m_ended_at : option string;
  m_calculated : option bool;
  m_type : option string
}.

(** A row of table [monthly_summaries]. *)
Record SummaryRow : Type := mk_SummaryRow {
  s_year : Z;
  s_month : Z;
  s_obis_code : string;
  s_obis_category : string;
  s_obis_description : string;
  s_total_value : Q;
  s_num_meters : Z;
  s_unit : option string
}.

Record db : Type := mk_db {
  metering_data : list DetailRow;
  monthly_summaries : list SummaryRow
}.

Definition in_period_m (y m : Z) (r : DetailRow) : bool :=
  (m_year r =? y) && (m_month r =? m).

Definition in_period_s (y m : Z) (r : SummaryRow) : bool :=
  (s_year r =? y) && (s_month r =? m).

(** [DELETE FROM metering_data WHERE year = ? AND month = ?] *)
Definition delete_metering (y m : Z) (t : list DetailRow) : list DetailRow :=
  filter (fun r => negb (in_period_m y m r)) t.

(** [DELETE FROM monthly_summaries WHERE year = ? AND month = ?] *)
Definition delete_summaries (y m : Z) (t : list SummaryRow) : list SummaryRow :=
  filter (fun r => negb (in_period_s y m r)) t.

(** [UNIQUE(year, month, meter_id, obis_code)] *)
Definition same_key_m (a b : DetailRow) : bool :=
  (m_year a =? m_year b) && (m_month a =? m_month b) &&
  String.eqb (m_meter_id a) (m_meter_id b) &&
  String.eqb (m_obis_code a) (m_obis_code b).

(** [UNIQUE(year, month, obis_code)] *)
Definition same_key_s (a b : SummaryRow) : bool :=
  (s_year a =? s_year b) && (s_month a =? s_month b) &&
  String.eqb (s_obis_code a) (s_obis_code b).

(** The tuple an INSERT into [metering_data] binds for a DataFrame row
    whose value is [v]. *)
Definition detail_row (row : Row) (v : Q) : DetailRow :=
  mk_DetailRow (year row) (month row) (entity_type row) (entity_name row)
    (meter_id row) (obis_code row) (obis_category row)
    (obis_description row) v (unit_ row) (started_at row) (ended_at row)
    (calculated row) (type_ row).

(** [INSERT INTO metering_data (...) VALUES (...)] with the values of one
    DataFrame row; a missing value is bound as NULL and violates NOT NULL. *)
Definition insert_metering (t : list DetailRow) (row : Row)
  : result (list DetailRow) :=
  match value row with
  | None => Raise IntegrityError
  | Some v =>
      let new := detail_row row v in
      if existsb (same_key_m new) t then Raise IntegrityError
      else Ok (t ++ [new])%list
  end.

Fixpoint insert_all_metering (t : list DetailRow) (rows : list Row)
  : result (list DetailRow) :=
  match rows with
  | [] => Ok t
  | row :: rest =>
      let* t' := insert_metering t row in
      insert_all_metering t' rest
  end.

(** The aggregation ['unit': 'first']: the first value that is not missing. *)
Fixpoint first_unit (rows : list Row) : option string :=
  match rows with
  | [] => None
  | r :: rest =>
      match unit_ r with
      | Some u => Some u
      | None => first_unit rest
      end
  end.

Definition summary_key (r : Row) : key3 :=
  (obis_code r, obis_category r, obis_description r).

(** One row of the frame [summaries]: the columns [obis_code],
    [obis_category], [obis_description], [total_value], [num_meters], [unit]. *)
Record Summary : Type := mk_Summary {
  sum_key : key3;
  total_value : Q;
  num_meters : Z;
  sum_unit : option string
}.

(** [df_with_data.groupby([...]).agg({'value': 'sum',
    'entity_name': 'count', 'unit': 'first'}).reset_index()] *)
Definition summarise (df_with_data : DataFrame) : list Summary :=
  map (fun g : key3 * list Row =>
         let (k, rows) := g in
         mk_Summary k (sum (map value rows)) (Z.of_nat (List.length rows))
           (first_unit rows))
    (groupby key3_eqb key3_leb summary_key df_with_data).

(** The tuple an INSERT into [monthly_summaries] binds for a row of
    [summaries]. *)
Definition summary_row (y m : Z) (row : Summary) : SummaryRow :=
  let '(code, category, description) := sum_key row in
  mk_SummaryRow y m code category description (round2 (total_value row))
    (num_meters row) (sum_unit row).

(** [INSERT INTO monthly_summaries (...) VALUES (...)] *)
Definition insert_summary (y m : Z) (t : list SummaryRow) (row : Summary)
  : result (list SummaryRow) :=
  let new := summary_row y m row in
  if existsb (same_key_s new) t then Raise IntegrityError
  else Ok (t ++ [new])%list.

Fixpoint insert_all_summaries (y m : Z) (t : list SummaryRow)
    (rows : list Summary) : result (list SummaryRow) :=
  match rows with
  | [] => Ok t
  | row :: rest =>
      let* t' := insert_summary y m t row in
      insert_all_summaries y m t' rest
  end.

(** The statements between the emptiness test and [conn.commit()]. *)
Definition replace_period (df_with_data : DataFrame) (y m : Z) (st : db)
  : result db :=
  let md := delete_metering y m (metering_data st) in
  let ms := delete_summaries y m (monthly_summaries st) in
  let* md := insert_all_metering md df_with_data in
  let summaries := summarise df_with_data in
  let* ms := insert_all_summaries y m ms summaries in
  Ok (mk_db md ms).

(** [save_to_database(df, year, month)]: the outcome of the call and the
    database it leaves.  An exception rolls the transaction back and is
    raised again.  The year and the month are taken to be integers sqlite3
    can bind (64 signed bits); outside this range the first DELETE raises
    OverflowError and the database is left as it was. *)
Definition save_to_database (df : DataFrame) (y m : Z) (st : db)
  : result unit * db :=
  let df_with_data := with_data df in
  match df_with_data with
  | [] => (Ok tt, st)
  | _ :: _ =>
      match replace_period df_with_data y m st with
      | Ok st' => (Ok tt, st')
      | Raise e => (Raise e, st)
      end
  end.

(** [upsert(period, R)] of the specification: the store a call leaves. *)
Definition upsert (y m : Z) (df : DataFrame) (st : db) : db :=
  snd (save_to_database df y m st).

(** The entities (by name) that contribute a row to a group. *)
Definition distinct_entities (rows : list Row) : Z :=
  Z.of_nat (List.length (distinct String.eqb (map entity_name rows))).

Definition group_rows (k : key3) (df_with_data : DataFrame) : list Row :=
  filter (fun r => key3_eqb (summary_key r) k) df_with_data.

Definition key_of_summary_row (s : SummaryRow) : key3 :=
  (s_obis_code s, s_obis_category s, s_obis_description s).

(** The count as the specification states it: [num_meters] of every
    summary row stored for the period is the number of distinct entities
    that contribute to the row's group. *)
Definition num_meters_counts_entities (df : DataFrame) (y m : Z) (st : db)
  : Prop :=
  forall s, In s (monthly_summaries (upsert y m df st)) ->
    s_year s = y -> s_month s = m ->
    s_num_meters s =
      distinct_entities (group_rows (key_of_summary_row s) (with_data df)).

End Store.

(* ================================================================== *)
(** ** The ratio report: [calculate_ratios] of [analyse_monthly_data.py] *)

Module Ratios.

Import Frame Store.

(** [load_metering_data(year, month)]: the test [if year and month] is the
    truth value of two integers. *)
Definition load_metering_data (st : db) (year month : Z) : list DetailRow :=
  if negb (year =? 0) && negb (month =? 0)
  then filter (in_period_m year month) (metering_data st)
  else metering_data st.

Definition set_category (r : DetailRow) (c : string) : DetailRow :=
  mk_DetailRow (m_year r) (m_month r) (m_entity_type r) (m_entity_name r)
    (m_meter_id r) (m_obis_code r) c (m_obis_description r) (m_value r)
    (m_unit r) (m_started_at r) (m_ended_at r) (m_calculated r) (m_type r).

(** [category_map.get(x, x)] *)
Definition category_map (x : string) : string :=
  if String.eqb x "C" then "Consumption"
  else if String.eqb x "P" then "Production"
  else x.

Definition has_category (c : string) (df : list DetailRow) : bool :=
  existsb (fun r => String.eqb (m_obis_category r) c) df.

(** The frame after the abbreviated categories are mapped to full names. *)
Definition map_categories (df : list DetailRow) : list DetailRow :=
  if has_category "C" df || has_category "P" df
  then map (fun r => set_category r (category_map (m_obis_category r))) df
  else df.

(** [df[mask]['value'].sum()] *)
Definition sum_where (mask : DetailRow -> bool) (df : list DetailRow) : Q :=
  fold_left Qplus (map m_value (filter mask df)) 0%Q.

Definition code_is (c : string) (r : DetailRow) : bool :=
  String.eqb (m_obis_code r) c.

Definition code_in (cs : list string) (r : DetailRow) : bool :=
  existsb (String.eqb (m_obis_code r)) cs.

Definition category_is (c : string) (r : DetailRow) : bool :=
  String.eqb (m_obis_category r) c.

Definition total_consumption (df : list DetailRow) : Q :=
  sum_where (category_is "Consumption") (map_categories df).

Definition total_production (df : list DetailRow) : Q :=
  sum_where (category_is "Production") (map_categories df).

Definition measured_consumption (df : list DetailRow) : Q :=
  sum_where (code_is "1-1:1.29.0") df.

Definition energy_bought (df : list DetailRow) : Q :=
  sum_where (code_is "1-65:1.29.9") df.

Definition shared_codes : list string :=
  ["1-65:1.29.1"; "1-65:1.29.2"; "1-65:1.29.3"; "1-65:1.29.4"].

Definition energy_shared_consumption (df : list DetailRow) : Q :=
  sum_where (code_in shared_codes) df.

Definition measured_production (df : list DetailRow) : Q :=
  sum_where (code_is "1-1:2.29.0") df.

Definition shared_prod_codes : list string :=
  ["1-65:2.29.1"; "1-65:2.29.2"; "1-65:2.29.3"; "1-65:2.29.4"].

Definition energy_shared_production (df : list DetailRow) : Q :=
  sum_where (code_in shared_prod_codes) df.

Definition energy_sold (df : list DetailRow) : Q :=
  sum_where (code_is "1-65:2.29.9") df.

Definition Qltb (a b : Q) : bool := negb (Qle_bool b a).

(** [round(num / den * 100, 2) if den > 0 else 0] *)
Definition percent (num den : Q) : Q :=
  if Qltb 0 den then round2 (num / den * 100) else 0%Q.

(** A Python dict with string keys, in insertion order. *)
Definition dict (V : Type) : Type := list (string * V).

Fixpoint get {V} (k : string) (d : dict V) : option V :=
  match d with
  | [] => None
  | (k', v) :: rest => if String.eqb k' k then Some v else get k rest
  end.

(** [calculate_ratios] on the frame that was loaded *)
Definition ratios_of (df : list DetailRow) : dict Q :=
  match df with
  | [] => []
  | _ :: _ =>
      [ ("total_consumption", round2 (total_consumption df));
        ("total_production", round2 (total_production df));
        ("measured_consumption", round2 (measured_consumption df));
        ("measured_production", round2 (measured_production df));
        ("energy_bought", round2 (energy_bought df));
        ("energy_shared_consumption", round2 (energy_shared_consumption df));
        ("energy_shared_production", round2 (energy_shared_production df));
        ("energy_sold", round2 (energy_sold df));
        ("production_to_consumption_ratio",
           percent (total_production df) (total_consumption df));
        ("self_consumption_ratio",
           percent (energy_shared_consumption df) (measured_consumption df));
        ("self_sufficiency_ratio",
           percent (measured_consumption df - energy_bought df)
                   (measured_consumption df));
        ("energy_bought_ratio",
           percent (energy_bought df) (measured_consumption df));
        ("energy_sold_ratio",
           percent (energy_sold df) (measured_production df)) ]%Q
  end.

(** [calculate_ratios(year, month)] *)
Definition calculate_ratios (st : db) (year month : Z) : dict Q :=
  ratios_of (load_metering_data st year month).



End Ratios.

(* ================================================================== *)
(** ** The wide-format table: [create_wide_format_dataframe] *)

Module Wide.

Import Catalog Frame.

(** A cell of the wide table. *)
Inductive cell : Type :=
| NaN
| Num (q : Q)
| Int (z : Z)
| Str (s : string).

(** A Python dict with string keys, in insertion order. *)
Definition dict (V : Type) : Type := list (string * V).

Fixpoint dict_get {V} (k : string) (d : dict V) : option V :=
  match d with
  | [] => None
  | (k', v) :: rest => if String.eqb k' k then Some v else dict_get k rest
  end.

(** [d[k] = v] *)
Fixpoint dict_set {V} (k : string) (v : V) (d : dict V) : dict V :=
  match d with
  | [] => [(k, v)]
  | (k', v') :: rest =>
      if String.eqb k' k then (k', v) :: rest else (k', v') :: dict_set k v rest
  end.

Definition dict_has {V} (k : string) (d : dict V) : bool :=
  match dict_get k d with Some _ => true | None => false end.

(** A DataFrame whose rows hold a cell for each of its columns. *)
Record table : Type := mk_table {
  columns : list string;
  rows : list (dict cell)
}.

Definition empty_table : table := mk_table [] [].

Definition cell_or_nan (k : string) (d : dict cell) : cell :=
  match dict_get k d with
  | Some c => c
  | None => NaN
  end.

(** [pd.DataFrame(records)] for a list of dicts: the columns are the keys in
    order of first appearance, a key a record lacks gives NaN. *)
Definition from_records (records : list (dict cell)) : table :=
  let cols := distinct String.eqb (flat_map (map fst) records) in
  mk_table cols
    (map (fun d => map (fun c => (c, cell_or_nan c d)) cols) records).

(** [t.reindex(columns=cols, fill_value=0)]: a column of [cols] that [t] has
    keeps its cells; only a column [t] lacks is created, filled with 0. *)
Definition reindex (t : table) (cols : list string) : table :=
  mk_table cols
    (map (fun d =>
            map (fun c =>
                   (c, if existsb (String.eqb c) (columns t)
                       then cell_or_nan c d
                       else Int 0))
              cols)
       (rows t)).

(** [pd.concat([t, pd.DataFrame([record])], ignore_index=True)], for a
    table whose column labels are distinct; on a table with a repeated
    label [pd.concat] raises InvalidIndexError, which is not represented. *)
Definition concat_record (t : table) (record : dict cell) : table :=
  let cols := distinct String.eqb (columns t ++ map fst record) in
  mk_table cols
    (map (fun d => map (fun c => (c, cell_or_nan c d)) cols)
       (rows t ++ [record])).

(** [t[col].sum()]: NaN is skipped. *)
Definition column_sum (t : table) (col : string) : Q :=
  fold_left (fun acc d =>
               match cell_or_nan col d with
               | Num q => acc + q
               | Int z => acc + inject_Z z
               | _ => acc
               end)%Q
    (rows t) 0%Q.

Definition cell_of_value (v : option Q) : cell :=
  match v with
  | Some q => Num q
  | None => NaN
  end.

(** [s1 in s2] *)
Definition contains (s1 s2 : string) : bool :=
  match String.index 0 s1 s2 with
  | Some _ => true
  | None => false
  end.

Definition is_consumption_col (col : string) : bool :=
  String.prefix "1-" col && contains ":1." col.

Definition is_production_col (col : string) : bool :=
  String.prefix "1-" col && contains ":2." col.

Definition point_key (r : Row) : key3 :=
  (entity_type r, entity_name r, meter_id r).

(** The record built for one group of [groupby(['entity_type',
    'entity_name', 'meter_id'])]. *)
Definition pivot_record (g : key3 * list Row) : dict cell :=
  let '((entity_type, entity_name, meter_id), group) := g in
  let row :=
    [ ("entity_type", Str entity_type);
      ("name", Str entity_name);
      ("metering_point", Str meter_id);
      ("year", match group with r :: _ => Int (year r) | [] => NaN end);
      ("month", match group with r :: _ => Int (month r) | [] => NaN end) ] in
  fold_left (fun row record =>
               dict_set (obis_code record) (cell_of_value (value record)) row)
    group row.

Definition base_cols : list string :=
  ["year"; "month"; "entity_type"; "name"; "metering_point"].

Definition trailer (label : string) : dict cell :=
  [ ("year", Str label); ("month", Str ""); ("entity_type", Str "");
    ("name", Str ""); ("metering_point", Str "") ].

(** [obis_descriptions]: the description of each configured code. *)
Definition obis_descriptions (cfg : config) : dict string :=
  fold_left (fun d obis_info =>
               dict_set (info_code obis_info) (info_description obis_info) d)
    (obiscode cfg) [].

(** [create_wide_format_dataframe(df)], on the frames for which it returns:
    a code that has both [:1.] and [:2.] is named twice in [ordered_cols]
    and makes the source raise in [pd.concat]. *)
Definition create_wide_format_dataframe (cfg : config) (df : DataFrame)
  : table :=
  if negb (existsb data_available df) then empty_table
  else
    let df_filtered := with_data df in
    let pivot_data :=
      map pivot_record (groupby key3_eqb key3_leb point_key df_filtered) in
    let wide_df := from_records pivot_data in
    let consumption_cols :=
      sort String.leb (filter is_consumption_col (columns wide_df)) in
    let production_cols :=
      sort String.leb (filter is_production_col (columns wide_df)) in
    let ordered_cols := (base_cols ++ consumption_cols ++ production_cols)%list in
    let wide_df := reindex wide_df ordered_cols in
    let totals_row :=
      fold_left (fun row col =>
                   if existsb (String.eqb col) (columns wide_df)
                   then dict_set col (Num (round2 (column_sum wide_df col))) row
                   else row)
        (consumption_cols ++ production_cols)%list (trailer "TOTAL") in
    let wide_df := concat_record wide_df totals_row in
    let description_row :=
      fold_left (fun row col =>
                   dict_set col
                     (match dict_get col (obis_descriptions cfg) with
                      | Some description => Str description
                      | None => Str ""
                      end) row)
        (consumption_cols ++ production_cols)%list (trailer "DESCRIPTION") in
    concat_record wide_df description_row.

(** The rows of the table before the two trailer rows. *)
Definition data_rows (t : table) : list (dict cell) :=
  firstn (List.length (rows t) - 2) (rows t).

(** The code columns: those after the five identity columns. *)
Definition code_columns (t : table) : list string :=
  skipn 5 (columns t).

(** A cell that holds a number. *)
Definition is_number (c : cell) : bool :=
  match c with
  | Num _ | Int _ => true
  | _ => false
  end.

(** Completeness as the specification states it: every data row holds a
    number in every code column. *)
Definition complete (t : table) : Prop :=
  forall d col, In d (data_rows t) -> In col (code_columns t) ->
    exists c, dict_get col d = Some c /\ is_number c = true.

End Wide.

(* ================================================================== *)
(** ** Concrete inputs *)

Module Examples.

Import Period Catalog Client Orchestrator Frame Store Ratios Wide.

(** A configuration with two consumption codes and one production code, a
    consumer entity with two meters and one producer. *)
Definition example_config : config :=
  mk_config
    [ mk_obis_info "1-1:1.29.0" "Consumption" "Measured active consumption";
      mk_obis_info "1-1:2.29.0" "Production" "Measured active production";
      mk_obis_info "1-65:1.29.9" "Consumption" "Remaining consumption" ]
    ["House"; "House"] ["LU-METER-1"; "LU-METER-2"]
    ["Roof"] ["LU-METER-3"].

Definition example_fetcher : fetcher :=
  mk_fetcher example_config
    [ mk_obis_info "1-1:1.29.0" "Consumption" "Measured active consumption";
      mk_obis_info "1-65:1.29.9" "Consumption" "Remaining consumption" ]
    [ mk_obis_info "1-1:2.29.0" "Production" "Measured active production" ].

(** A service that never answers in time. *)
Definition always_timeout (rq : request) (w : unit) : response * unit :=
  (Timeout, w).

(** A service that answers 200 with a JSON document that is not an object. *)
Definition always_array (rq : request) (w : unit) : response * unit :=
  (Response 200 JsonNotObject, w).

(** A service that counts the calls it receives and never answers in time,
    except that its fourth answer is a 200 with a JSON document that is not
    an object. *)
Definition fourth_call_array (rq : request) (calls : nat) : response * nat :=
  ((if Nat.eqb calls 3 then Response 200 JsonNotObject else Timeout), S calls).

(** The same service with a fourth answer that is a 200 whose body is not
    JSON at all. *)
Definition fourth_call_not_json (rq : request) (calls : nat) : response * nat :=
  ((if Nat.eqb calls 3 then Response 200 NotJson else Timeout), S calls).


(** An available record of March 2024. *)
Definition reading (entity_type name meter code category : string) (v : Q)
  : Row :=
  mk_Row 2024 3 "2024-03-01" "2024-03-31" entity_type name meter code category
    "" (Some v) (Some "kWh") None None None None true.

(** A record of March 2024 whose call returned nothing. *)
Definition missing (entity_type name meter code category : string) : Row :=
  mk_Row 2024 3 "2024-03-01" "2024-03-31" entity_type name meter code category
    "" None None None None None None false.

Definition empty_db : db := mk_db [] [].

(** One entity that consumes through two meters. *)
Definition two_meters_one_entity : DataFrame :=
  [ reading "consumer" "House" "LU-METER-1" "1-1:1.29.0" "Consumption" 50;
    reading "consumer" "House" "LU-METER-2" "1-1:1.29.0" "Consumption" 20 ].

(** Two meters, each with a reading for one of two consumption codes. *)
Definition two_meters_two_codes : DataFrame :=
  [ reading "consumer" "A" "LU-METER-1" "1-1:1.29.0" "Consumption" 50;
    missing "consumer" "A" "LU-METER-1" "1-65:1.29.9" "Consumption";
    missing "consumer" "B" "LU-METER-2" "1-1:1.29.0" "Consumption";
    reading "consumer" "B" "LU-METER-2" "1-65:1.29.9" "Consumption" 20 ].

(** A month for which only the bought energy was stored. *)
Definition bought_only_db : db :=
  upsert 2024 3
    [ reading "consumer" "A" "LU-METER-1" "1-65:1.29.9" "Consumption" 30 ]
    empty_db.

End Examples.

(* ================================================================== *)
(** ** The keys and the contents of the two tables *)

Module Tables.

Import Frame Store.

(** The columns of [UNIQUE(year, month, meter_id, obis_code)]. *)
Definition key_m (d : DetailRow) : Z * Z * string * string :=
  (m_year d, m_month d, m_meter_id d, m_obis_code d).

(** The columns of [UNIQUE(year, month, obis_code)]. *)
Definition key_s (s : SummaryRow) : Z * Z * string :=
  (s_year s, s_month s, s_obis_code s).

(** Both UNIQUE constraints hold. *)
Definition unique_keys (st : db) : Prop :=
  NoDup (map key_m (metering_data st)) /\
  NoDup (map key_s (monthly_summaries st)).

(** The key an INSERT of a DataFrame row competes with. *)
Definition row_key (r : Row) : Z * Z * string * string :=
  (year r, month r, meter_id r, obis_code r).

(** The detail rows a list of DataFrame rows with values is stored as. *)
Definition detail_rows (rows : DataFrame) : list DetailRow :=
  flat_map (fun r => match value r with
                     | Some v => [detail_row r v]
                     | None => []
                     end) rows.

(** The sum of the column [num_meters]. *)
Definition count_meters (ss : list SummaryRow) : Z :=
  fold_right (fun s acc => s_num_meters s + acc) 0 ss.

(** The conditions under which an upsert is sure to commit: some record is
    available, the available records carry the period of the call and a
    value, no two of them share meter and code, and a code has one category
    and one description. *)
Definition committable (df : DataFrame) (y m : Z) : Prop :=
  filter data_available df <> [] /\
  (forall r, In r df -> data_available r = true ->
     year r = y /\ month r = m /\ value r <> None) /\
  NoDup (map (fun r => (meter_id r, obis_code r)) (filter data_available df)) /\
  (forall r1 r2, In r1 df -> In r2 df ->
     data_available r1 = true -> data_available r2 = true ->
     obis_code r1 = obis_code r2 ->
     obis_category r1 = obis_category r2 /\
     obis_description r1 = obis_description r2).

(** The integers [sqlite3] binds to a parameter are those of 64 signed
    bits: for a Python int outside this range [execute] raises
    OverflowError, which the statements of [save_to_database] never do on
    a year and a month inside it. *)
Definition sqlite_integer (z : Z) : Prop := - 2 ^ 63 <= z < 2 ^ 63.

(** A value written in hundredths: rounding to two decimals leaves the
    number as it is. *)
Definition in_hundredths (v : option Q) : Prop :=
  exists z, v = Some (z # 100).

(** The columns of a stored summary, and of a row of [summaries], that do
    not depend on the values: the group, its count and its unit. *)
Definition summary_group (s : SummaryRow) : key3 * Z * option string :=
  (key_of_summary_row s, s_num_meters s, s_unit s).

Definition group_of (x : Summary) : key3 * Z * option string :=
  (sum_key x, num_meters x, sum_unit x).

End Tables.

(* ================================================================== *)
(** ** The conversation of a run with the service *)

Module Conversation.

Import Client.

Section WithApi.

Variable W : Type.
Variable http_get : request -> W -> response * W.

(** [conversation w log w']: from the state [w] the service answers the
    requests of [log], one after the other, with the responses of [log],
    and is left in the state [w']. *)
Inductive conversation : W -> list (request * response) -> W -> Prop :=
| conversation_nil (w : W) : conversation w [] w
| conversation_cons (w w1 w2 : W) (rq : request) (resp : response)
    (log : list (request * response)) :
    http_get rq w = (resp, w1) ->
    conversation w1 log w2 ->
    conversation w ((rq, resp) :: log) w2.

End WithApi.

(** The fields a record takes from the first point of a reading. *)
Definition filled_from (r : Row) (data : json_object) (ts : point) : Prop :=
  value r = p_value ts /\ unit_ r = json_unit data /\
  started_at r = p_startedAt ts /\ ended_at r = p_endedAt ts /\
  calculated r = p_calculated ts /\ type_ r = p_type ts.

(** A record with no field of a reading. *)
Definition blank (r : Row) : Prop :=
  value r = None /\ unit_ r = None /\ started_at r = None /\
  ended_at r = None /\ calculated r = None /\ type_ r = None.

(** The reading a response carries: the payload and the first point of its
    series, for a 200 with a JSON object and a non-empty series. *)
Definition reading_of (resp : response) : option (json_object * point) :=
  match resp with
  | Response status_code (JsonObject data) =>
      if status_code =? 200 then
        match aggregatedTimeSeries data with
        | SeriesPoints ts _ => Some (data, ts)
        | _ => None
        end
      else None
  | _ => None
  end.

(** The record [r] is the record of the exchange [x]: the request asks for
    the meter, the code and the dates of the record; the record is available
    exactly when the response carries a reading, and then it is filled from
    the first point. *)
Definition records (r : Row) (x : request * response) : Prop :=
  fst x = mk_request (meter_id r) (obis_code r) (start_date r) (end_date r) /\
  match reading_of (snd x) with
  | Some (data, ts) => data_available r = true /\ filled_from r data ts
  | None => data_available r = false /\ blank r
  end.

(** The period a record carries. *)
Definition in_period (p : string * string * Z * Z) (r : Row) : Prop :=
  let '(start, stop, y, m) := p in
  start_date r = start /\ end_date r = stop /\ year r = y /\ month r = m.

(** Every response of the conversation is one the handler covers. *)
Definition all_covered (log : list (request * response)) : Prop :=
  Forall (fun x => handled (snd x) = true) log.

(** The conversation ends with the first response the handler does not
    cover. *)
Definition stops_at_uncovered (log : list (request * response)) : Prop :=
  exists before x,
    log = (before ++ [x])%list /\ all_covered before /\ handled (snd x) = false.

Section Outcome.

Variable W : Type.
Variable http_get : request -> W -> response * W.

(** What a loop of the run that started in state [w] with the rows
    [df_data] has done when it ends with [result]: a conversation took
    place; either all its responses were covered and the loop returned
    [df_data] extended by one record per exchange, each of the period [p],
    or the conversation stopped at an uncovered response and the loop
    raised. *)
Definition run_outcome (p : string * string * Z * Z) (w : W)
    (df_data : list Row) (result : result (list Row) * W) : Prop :=
  exists log,
    conversation W http_get w log (snd result) /\
    ((all_covered log /\
      exists rows,
        fst result = Ok (df_data ++ rows)%list /\
        Forall2 records rows log /\ Forall (in_period p) rows) \/
     (stops_at_uncovered log /\ fst result = Raise ShapeError)).

End Outcome.

End Conversation.

(* ================================================================== *)
(** ** The catalogue as a pair of sublists *)

Module Sublists.

Import Catalog.

Definition category_eqb (a b : category) : bool :=
  match a, b with
  | Consumption, Consumption => true
  | Production, Production => true
  | _, _ => false
  end.

(** The entry's code is classified as [c]. *)
Definition has_class (c : category) (obis_info : obis_info) : bool :=
  match classify (info_code obis_info) with
  | Some c' => category_eqb c c'
  | None => false
  end.

(** The code has no character after its first colon that the loading loop
    can read: no colon, nothing after it, or a second colon right after. *)
Definition unreadable (obis_code : string) : Prop :=
  char_after_first_colon obis_code = None \/
  char_after_first_colon obis_code = Some ":"%char.

End Sublists.

(* ================================================================== *)
(** ** The parts of the wide table *)

Module WideParts.

Import Frame Wide.

(** A record laid out on a list of columns, NaN where it has no value. *)
Definition align (cols : list string) (d : dict cell) : dict cell :=
  map (fun c => (c, cell_or_nan c d)) cols.

(** The metering points of a frame, each with its available records. *)
Definition metering_points (df : DataFrame) : list (key3 * list Row) :=
  groupby key3_eqb key3_leb point_key (with_data df).

(** The cell of a metering point in the column of a code: the value of the
    point's last record of that code, NaN when it has none. *)
Definition group_cell (col : string) (group : list Row) : cell :=
  fold_left (fun c r => if String.eqb (obis_code r) col
                        then cell_of_value (value r) else c)
    group NaN.

(** A column name that is taken for a code. *)
Definition is_code_col (col : string) : bool :=
  is_consumption_col col || is_production_col col.

(** The sum of a column over a list of rows, NaN skipped. *)
Definition sum_of_column (col : string) (data : list (dict cell)) : Q :=
  column_sum (mk_table [] data) col.

(** The frames on which the table is built without an exception: every
    available record has a value (the column [value] is numeric), and no
    available code is taken for a consumption and for a production code at
    once.  Such a code would be named twice in [ordered_cols]; [reindex]
    then gives two columns of one label and [pd.concat] raises
    InvalidIndexError. *)
Definition pivotable (df : DataFrame) : Prop :=
  forall r, In r df -> data_available r = true ->
    value r <> None /\
    is_consumption_col (obis_code r) && is_production_col (obis_code r) = false.

(** The codes of the available records that a block of columns takes. *)
Definition block_codes (block : string -> bool) (df : DataFrame) (col : string)
  : Prop :=
  block col = true /\
  exists r, In r df /\ data_available r = true /\ obis_code r = col.

End WideParts.

(* ================================================================== *)
(** ** The shape of a date *)

Module DateShape.

Definition is_digit (c : ascii) : bool :=
  (48 <=? nat_of_ascii c)%nat && (nat_of_ascii c <=? 57)%nat.

Fixpoint all_digits (s : string) : bool :=
  match s with
  | EmptyString => true
  | String c s' => is_digit c && all_digits s'
  end.

(** [n] decimal digits *)
Definition digits (n : nat) (s : string) : bool :=
  (String.length s =? n)%nat && all_digits s.

(** Four digits, a hyphen, two digits, a hyphen, two digits. *)
Definition iso_shaped (s : string) : bool :=
  (String.length s =? 10)%nat &&
  digits 4 (String.substring 0 4 s) &&
  (match String.get 4 s with Some c => Ascii.eqb c "-" | None => false end) &&
  digits 2 (String.substring 5 2 s) &&
  (match String.get 7 s with Some c => Ascii.eqb c "-" | None => false end) &&
  digits 2 (String.substring 8 2 s).

End DateShape.

(* ================================================================== *)
(** ** The files of [save_results] *)

Module Files.

Import Period.

(** [s.rpartition(sep)] without the separator: the parts before and after
    the last [sep], [None] when [sep] does not occur. *)
Fixpoint rpartition (sep : ascii) (s : string) : option (string * string) :=
  match s with
  | EmptyString => None
  | String c s' =>
      match rpartition sep s' with
      | Some (head, tail) => Some (String c head, tail)
      | None => if Ascii.eqb c sep then Some (EmptyString, s') else None
      end
  end.

(** [os.path.basename(p)] of [posixpath] *)
Definition basename (p : string) : string :=
  match rpartition "/" p with
  | Some (_, tail) => tail
  | None => p
  end.

(** [s.rsplit('.', 1)[0]] *)
Definition rsplit_dot_head (s : string) : string :=
  match rpartition "." s with
  | Some (head, _) => head
  | None => s
  end.

Fixpoint ends_with_slash (s : string) : bool :=
  match s with
  | EmptyString => false
  | String c EmptyString => Ascii.eqb c "/"
  | String _ s' => ends_with_slash s'
  end.

(** [os.path.join(a, b)] of [posixpath] *)
Definition join (a b : string) : string :=
  if String.prefix "/" b then b
  else if (String.length a =? 0)%nat || ends_with_slash a then (a ++ b)%string
  else (a ++ "/" ++ b)%string.

(** [str(z)] of an integer *)
Definition str (z : Z) : string := format_0d 0 z.

Definition data_folder : string := "data".

(** The paths [json_file], [csv_file] and [excel_file] of [save_results];
    [year] and [month] are those of [results['period']]. *)
Definition output_files (year month : Z) (output_file : option string)
  : string * string * string :=
  match output_file with
  | None =>
      let stem := ("energy_data_" ++ str year ++ "_" ++ format_0d 2 month)%string in
      (join data_folder (stem ++ ".json"),
       join data_folder (stem ++ ".csv"),
       join data_folder (stem ++ ".xlsx"))
  | Some output_file =>
      let base_name := rsplit_dot_head (basename output_file) in
      (join data_folder (base_name ++ ".json"),
       join data_folder (base_name ++ ".csv"),
       join data_folder (base_name ++ ".xlsx"))
  end%string.

(** The character [c] occurs in [s]. *)
Fixpoint occurs (c : ascii) (s : string) : bool :=
  match s with
  | EmptyString => false
  | String c' s' => Ascii.eqb c' c || occurs c s'
  end.

End Files.

(* ================================================================== *)
(** ** The entry point: [main] *)

Module Main.

Import Period Catalog Client Orchestrator Store.

(** The parsed command line; [--config] and [--db-path] select the
    configuration and the database the run is given. *)
Record args : Type := mk_args {
  arg_year : option Z;
  arg_month : option Z;
  arg_output : option string;
  arg_no_save : bool
}.

(** How [main] ends: it returns the frame, or the process exits. *)
Inductive ending : Type :=
| Returned (df : DataFrame)
| SystemExit (code : Z).

Section WithEffects.

Variable W : Type.
Variable http_get : request -> W -> response * W.

(** [print_summary] writes to the terminal and [save_results] writes the
    JSON, CSV and Excel files; neither touches the service or the database.
    What [main] depends on is whether they raise. *)
Variable print_summary : DataFrame -> result unit.
Variable save_results : Z -> Z -> DataFrame -> option string -> result unit.

(** [main()], from the parsed arguments on.  [cfg] is the configuration
    file as loaded, [None] when the file does not exist; [st] is the
    database with its tables created.  The year and month of
    [results['period']] are those [fetch_all_data] resolved. *)
Definition main (cfg : option config) (a : args) (today : datetime)
    (w : W) (st : db) : ending * W * db :=
  match parse_month_argument (arg_month a) with
  | Raise _ => (SystemExit 2, w, st)
  | Ok month =>
      match cfg with
      | None => (SystemExit 1, w, st)
      | Some cfg =>
          match init cfg with
          | Raise _ => (SystemExit 1, w, st)
          | Ok fetcher =>
              match fetch_all_data W http_get fetcher today (arg_year a) month w with
              | (Raise _, w') => (SystemExit 1, w', st)
              | (Ok df, w') =>
                  match calculate_month_dates today (arg_year a) month with
                  | Raise _ => (SystemExit 1, w', st)
                  | Ok (_, _, calc_year, calc_month) =>
                      match print_summary df with
                      | Raise _ => (SystemExit 1, w', st)
                      | Ok _ =>
                          match save_to_database df calc_year calc_month st with
                          | (Raise _, st') => (SystemExit 1, w', st')
                          | (Ok _, st') =>
                              if arg_no_save a then (Returned df, w', st')
                              else
                                match save_results calc_year calc_month df
                                        (arg_output a) with
                                | Raise _ => (SystemExit 1, w', st')
                                | Ok _ => (Returned df, w', st')
                                end
                          end
                      end
                  end
              end
          end
      end
  end.

End WithEffects.

End Main.

(* ================================================================== *)
(** ** Further concrete inputs *)

Module Scenarios.

Import Period Catalog Client Orchestrator Frame Store Main Examples.

(** A service that answers every request with one point of 12.345 kWh. *)
Definition always_reading (rq : request) (w : unit) : response * unit :=
  (Response 200
     (JsonObject
        (mk_json_object
           (SeriesPoints
              (mk_point (Some (12345 # 1000)%Q) (Some "2024-03-01T00:00:00Z")
                 (Some "2024-04-01T00:00:00Z") (Some false) (Some "Actual"))
              [])
           (Some "kWh"))),
   w).

(** An available record whose point had no value. *)
Definition reading_without_value : Row :=
  mk_Row 2024 3 "2024-03-01" "2024-03-31" "consumer" "A" "LU-METER-1"
    "1-1:1.29.0" "Consumption" "" None (Some "kWh") None None None None true.

(** The command line [--year 2024 --month 3] and the same with
    [--no-save --output out/march.txt]. *)
Definition march_args : args := mk_args (Some 2024) (Some 3) None false.

Definition march_args_no_save : args :=
  mk_args (Some 2024) (Some 3) (Some "out/march.txt") true.

Definition prints (df : DataFrame) : result unit := Ok tt.

Definition writes (y m : Z) (df : DataFrame) (output : option string)
  : result unit := Ok tt.

Definition cannot_write (y m : Z) (df : DataFrame) (output : option string)
  : result unit := Raise IndexError.

(** The records of March 2024 of a consumer and a producer, with values of
    two decimals, and one call that returned nothing. *)
Definition march_readings : DataFrame :=
  [ reading "consumer" "A" "LU-METER-1" "1-1:1.29.0" "Consumption"
      (5025 # 100)%Q;
    missing "consumer" "A" "LU-METER-1" "1-65:1.29.9" "Consumption";
    reading "producer" "Roof" "LU-METER-3" "1-1:2.29.0" "Production"
      (1210 # 100)%Q ].

End Scenarios.

(* ================================================================== *)
(** * Properties *)

(** ** Period resolution *)

Section PeriodFacts.

Import Period.

Lemma monthrange_valid (y m : Z) :
  1 <= m <= 12 -> monthrange y m = Ok (days_in_month y m).
Proof.
  intros Hm. unfold monthrange.
  assert (H : (1 <=? m) && (m <=? 12) = true).
  { apply andb_true_iff. split; apply Z.leb_le; lia. }
  rewrite H. reflexivity.
Qed.

Lemma monthrange_invalid (y m : Z) :
  m < 1 \/ 12 < m -> monthrange y m = Raise (IllegalMonthError m).
Proof.
  intros Hm. unfold monthrange.
  assert (H : (1 <=? m) && (m <=? 12) = false).
  { apply andb_false_iff. destruct Hm; [left; apply Z.leb_gt | right; apply Z.leb_gt]; lia. }
  rewrite H. reflexivity.
Qed.

(** The day before the first of the month lies in the preceding month,
    of the preceding year when the month is January. *)
Lemma last_day_previous_month (today : datetime) :
  1 <= dt_month today <= 12 ->
  MINYEAR < dt_year today \/ 1 < dt_month today ->
  exists d,
    minus_one_day (replace_day today 1) = Ok d /\
    dt_month d = previous_month (dt_month today) /\
    dt_year d = (if dt_month today =? 1 then dt_year today - 1 else dt_year today).
Proof.
  intros Hm Hlow. unfold minus_one_day, replace_day, previous_month. simpl.
  destruct (Z.eqb_spec (dt_month today) 1) as [E | E].
  - rewrite E. simpl.
    destruct (Z.ltb_spec MINYEAR (dt_year today)) as [Hy | Hy].
    + eexists. split; [reflexivity | split; reflexivity].
    + exfalso. lia.
  - destruct (Z.ltb_spec 1 (dt_month today)) as [H1 | H1]; [| lia].
    eexists. split; [reflexivity | split; reflexivity].
Qed.

(** C6: with the month omitted the period is the month before the current
    one; the year, when omitted too, is the current year minus one exactly
    when that month is December, and the current year in every other case,
    also when the month is supplied. *)
Theorem calculate_month_dates_defaults (today : datetime) :
  valid_datetime today ->
  MINYEAR < dt_year today \/ 1 < dt_month today ->
  let m := previous_month (dt_month today) in
  (forall y, calculate_month_dates today (Some y) None = Ok (period_of y m)) /\
  calculate_month_dates today None None =
    Ok (period_of (if m =? 12 then dt_year today - 1 else dt_year today) m) /\
  (forall m', 1 <= m' <= 12 ->
     calculate_month_dates today None (Some m') = Ok (period_of (dt_year today) m')).
Proof.
  intros (_ & Hm & _) Hlow m.
  destruct (last_day_previous_month today Hm Hlow) as (d & Hd & Hdm & _).
  assert (Hrange : 1 <= m <= 12).
  { subst m. unfold previous_month. destruct (Z.eqb_spec (dt_month today) 1); lia. }
  split; [| split].
  - intros y. unfold calculate_month_dates. rewrite Hd. cbn [bind].
    rewrite Hdm. fold m. rewrite andb_false_r. cbn [bind].
    rewrite (monthrange_valid y m Hrange). reflexivity.
  - unfold calculate_month_dates. rewrite Hd. cbn [bind].
    rewrite Hdm. fold m. cbn [is_none]. rewrite andb_true_r.
    destruct (m =? 12); cbn [bind]; rewrite monthrange_valid by assumption;
      reflexivity.
  - intros m' Hm'. unfold calculate_month_dates. cbn [bind].
    rewrite monthrange_valid by assumption. reflexivity.
Qed.

Lemma calculate_month_dates_defaults_witness :
  calculate_month_dates (mk_datetime 2026 1 15) None None =
    Ok ("2025-12-01", "2025-12-31", 2025, 12).
Proof.
  apply (calculate_month_dates_defaults (mk_datetime 2026 1 15)).
  - unfold valid_datetime. vm_compute. intuition discriminate.
  - left. reflexivity.
Defined.

(** C9: a supplied month outside 1..12 makes the resolution raise the
    calendar's illegal-month error, whatever the year and the clock; the
    command line refuses such a month beforehand. *)
Theorem calculate_month_dates_invalid_month
    (today : datetime) (y : option Z) (m : Z) :
  m < 1 \/ 12 < m ->
  calculate_month_dates today y (Some m) = Raise (IllegalMonthError m) /\
  parse_month_argument (Some m) = Raise ArgumentError.
Proof.
  intros Hm. split.
  - unfold calculate_month_dates. cbn [bind].
    rewrite monthrange_invalid by assumption. reflexivity.
  - unfold parse_month_argument.
    assert (H : (1 <=? m) && (m <? 13) = false).
    { apply andb_false_iff.
      destruct Hm; [left; apply Z.leb_gt | right; apply Z.ltb_ge]; lia. }
    rewrite H. reflexivity.
Qed.

Lemma calculate_month_dates_invalid_month_witness :
  calculate_month_dates (mk_datetime 2026 11 4) (Some 2026) (Some 13) =
    Raise (IllegalMonthError 13) /\
  parse_month_argument (Some 13) = Raise ArgumentError.
Proof.
  apply (calculate_month_dates_invalid_month (mk_datetime 2026 11 4) (Some 2026) 13).
  right. lia.
Defined.

End PeriodFacts.

(** ** The catalogue *)

Section CatalogFacts.

Import Catalog.

Lemma split_head (s : string) :
  exists h t, split ":" s = h :: t /\
    String.get 0 h =
      match s with
      | String d _ => if Ascii.eqb d ":" then None else Some d
      | EmptyString => None
      end.
Proof.
  destruct s as [| c s'].
  - exists EmptyString, []. split; reflexivity.
  - simpl. destruct (Ascii.eqb c ":") eqn:E.
    + exists EmptyString, (split ":" s'). split; reflexivity.
    + destruct (split ":" s') as [| h t].
      * exists (String c EmptyString), []. split; reflexivity.
      * exists (String c h), t. split; reflexivity.
Qed.

(** The source's [split(':')[1][0]] reads the character after the first
    colon, and fails exactly when there is none or when it is a colon. *)
Lemma first_digit_char (s : string) (d : ascii) :
  first_digit s = Ok d <->
  char_after_first_colon s = Some d /\ Ascii.eqb d ":" = false.
Proof.
  unfold first_digit. induction s as [| c s' IH].
  - simpl. split; [discriminate | intros [H _]; discriminate].
  - simpl split. simpl char_after_first_colon.
    destruct (Ascii.eqb c ":") eqn:E.
    + destruct (split_head s') as (h & t & Hs & Hg). rewrite Hs.
      unfold list_index, string_index. simpl. rewrite Hg.
      destruct s' as [| d' s'']; [split; [discriminate | intros [H _]; discriminate] |].
      destruct (Ascii.eqb d' ":") eqn:E'.
      * split; [discriminate |]. intros [H1 H2]. inversion H1; subst. congruence.
      * split.
        -- intros H. inversion H; subst. split; [reflexivity | assumption].
        -- intros [H1 _]. inversion H1; subst. reflexivity.
    + destruct (split ":" s') as [| h t] eqn:Hs.
      * destruct (split_head s') as (h & t & Hs' & _). congruence.
      * unfold list_index in *. simpl in *. exact IH.
Qed.

Lemma first_digit_classify (s : string) (d : ascii) :
  first_digit s = Ok d -> classify s = category_of_digit d.
Proof.
  intros H. apply first_digit_char in H as [H _].
  unfold classify. rewrite H. reflexivity.
Qed.

(** What the loading loop accumulates. *)
Lemma load_codes_members (entries : list obis_info) :
  forall consumption production consumption' production',
    load_codes entries consumption production = Ok (consumption', production') ->
    forall obis_info,
      (In obis_info consumption' <->
         In obis_info consumption \/
         (In obis_info entries /\ classify (info_code obis_info) = Some Consumption)) /\
      (In obis_info production' <->
         In obis_info production \/
         (In obis_info entries /\ classify (info_code obis_info) = Some Production)).
Proof.
  induction entries as [| e rest IH]; intros c p c' p' H x.
  - simpl in H. inversion H; subst. simpl. tauto.
  - simpl in H. destruct (first_digit (info_code e)) as [d |] eqn:Hd;
      simpl in H; [| discriminate].
    pose proof (first_digit_classify _ _ Hd) as Hc.
    unfold category_of_digit in Hc.
    destruct (Ascii.eqb d "1") eqn:E1; [| destruct (Ascii.eqb d "2") eqn:E2].
    + specialize (IH _ _ _ _ H x). destruct IH as [IH1 IH2].
      rewrite IH1, IH2, in_app_iff. simpl.
      split; split; intros; intuition (subst; try congruence; auto).
    + specialize (IH _ _ _ _ H x). destruct IH as [IH1 IH2].
      rewrite IH1, IH2, in_app_iff. simpl.
      split; split; intros; intuition (subst; try congruence; auto).
    + specialize (IH _ _ _ _ H x). destruct IH as [IH1 IH2].
      rewrite IH1, IH2. simpl.
      split; split; intros; intuition (subst; try congruence; auto).
Qed.


(** Membership in the lists of a loaded catalogue. *)
Lemma init_members (cfg : config) (f : fetcher) :
  init cfg = Ok f ->
  fetcher_config f = cfg /\
  forall obis_info c,
    In obis_info (codes_for f c) <->
    In obis_info (obiscode cfg) /\ classify (info_code obis_info) = Some c.
Proof.
  intros H0. unfold init in H0.
  destruct (load_codes (obiscode cfg) [] []) as [[c' p'] |] eqn:Hl;
    simpl in H0; [| discriminate].
  inversion H0; subst f. split; [reflexivity |]. intros x c.
  destruct (load_codes_members _ _ _ _ _ Hl x) as [H1 H2].
  destruct c; simpl; [rewrite H1 | rewrite H2]; simpl; tauto.
Qed.


End CatalogFacts.

(** ** The client and the orchestrator *)

Section FetchFacts.

Import Period Catalog Client Orchestrator.

Variable W : Type.
Variable http_get : request -> W -> response * W.

Lemma handle_response_no_reading (r : response) :
  handled r = true -> is_reading r = false -> handle_response r = Ok None.
Proof.
  unfold handled, is_reading, spec_outcome, handle_response.
  destruct r as [| | status body]; try reflexivity.
  destruct (status =? 404) eqn:E404; [reflexivity |].
  destruct (Z.eqb_spec status 200) as [E200 | E200]; [| reflexivity].
  subst status. simpl.
  destruct body as [| | data]; try reflexivity; try discriminate.
  destruct (aggregatedTimeSeries data); try reflexivity; discriminate.
Qed.

Lemma handle_response_handled (r : response) :
  handled r = true ->
  handle_response r = Ok None \/
  exists data ts rest,
    handle_response r = Ok (Some data) /\
    aggregatedTimeSeries data = SeriesPoints ts rest.
Proof.
  unfold handled, handle_response.
  destruct r as [| | status body]; try (left; reflexivity).
  destruct (status =? 404) eqn:E404; [left; reflexivity |].
  destruct (Z.eqb_spec status 200) as [E200 | E200]; [| left; reflexivity].
  subst status. simpl.
  destruct body as [| | data]; try (left; reflexivity); try discriminate.
  destruct (aggregatedTimeSeries data) as [| ts rest |] eqn:Es;
    try (left; reflexivity); try discriminate.
  intros _. right. exists data, ts, rest. split; [reflexivity | assumption].
Qed.

(** C7, as the code has it: a timeout, a request error, a 404, any other
    status than 200, a body that is not JSON and an empty or absent series
    all make the call return [None], with no exception; the orchestrator
    then builds the record of the pair with [data_available = False] and no
    value. *)
Theorem no_reading_yields_unavailable_row
    (calc_year calc_month : Z) (start_date end_date : string)
    (entity_type name meter_id : string) (obis_info : obis_info) (w : W) :
  let rq := mk_request meter_id (info_code obis_info) start_date end_date in
  handled (fst (http_get rq w)) = true ->
  is_reading (fst (http_get rq w)) = false ->
  fetch_metering_data W http_get meter_id (info_code obis_info)
    start_date end_date w = (Ok None, snd (http_get rq w)) /\
  fetch_row W http_get calc_year calc_month start_date end_date
    entity_type name meter_id obis_info w =
    (Ok (mk_Row calc_year calc_month start_date end_date entity_type name
           meter_id (info_code obis_info) (info_category obis_info)
           (info_description obis_info) None None None None None None false),
     snd (http_get rq w)).
Proof.
  intros rq Hh Hr.
  assert (Hf : fetch_metering_data W http_get meter_id (info_code obis_info)
                 start_date end_date w = (Ok None, snd (http_get rq w))).
  { unfold fetch_metering_data. fold rq.
    destruct (http_get rq w) as [r w'] eqn:E. simpl in *.
    rewrite (handle_response_no_reading r Hh Hr). reflexivity. }
  split; [exact Hf |].
  unfold fetch_row, bindM. rewrite Hf. reflexivity.
Qed.

Hypothesis all_handled : forall rq w, handled (fst (http_get rq w)) = true.

Lemma fetch_row_returns (calc_year calc_month : Z) (start_date end_date : string)
    (entity_type name meter_id : string) (obis_info : obis_info) (w : W) :
  exists row w',
    fetch_row W http_get calc_year calc_month start_date end_date
      entity_type name meter_id obis_info w = (Ok row, w') /\
    pair_of_row row = (entity_type, name, meter_id, info_code obis_info) /\
    present_or_unavailable row.
Proof.
  unfold fetch_row, bindM, fetch_metering_data.
  pose proof (all_handled
    (mk_request meter_id (info_code obis_info) start_date end_date) w) as Hh.
  destruct (http_get _ w) as [r w'] eqn:E. simpl in Hh.
  destruct (handle_response_handled r Hh) as [Hn | (data & ts & rest & Hd & Hs)].
  - rewrite Hn. eexists. eexists. split; [reflexivity | split; [reflexivity |]].
    right. split; reflexivity.
  - rewrite Hd. rewrite Hs. eexists. eexists.
    split; [reflexivity | split; [reflexivity |]]. left. reflexivity.
Qed.

Lemma fetch_codes_returns (calc_year calc_month : Z) (start_date end_date : string)
    (entity_type name meter_id : string) (codes : list obis_info) :
  forall df_data w,
  exists rows w',
    fetch_codes W http_get calc_year calc_month start_date end_date
      entity_type name meter_id codes df_data w = (Ok (df_data ++ rows)%list, w') /\
    map pair_of_row rows =
      map (fun c => (entity_type, name, meter_id, info_code c)) codes /\
    Forall present_or_unavailable rows.
Proof.
  induction codes as [| c rest IH]; intros df_data w.
  - exists [], w. simpl. rewrite app_nil_r. auto.
  - destruct (fetch_row_returns calc_year calc_month start_date end_date
                entity_type name meter_id c w) as (row & w1 & Hrow & Hpair & Hok).
    destruct (IH (df_data ++ [row])%list w1) as (rows & w2 & Hrest & Hpairs & Hoks).
    exists (row :: rows), w2. split; [| split].
    + simpl. unfold bindM at 1. rewrite Hrow. rewrite Hrest.
      rewrite <- app_assoc. reflexivity.
    + simpl. rewrite Hpair, Hpairs. reflexivity.
    + constructor; assumption.
Qed.

Lemma fetch_entities_returns (calc_year calc_month : Z)
    (start_date end_date : string) (entity_type : string)
    (codes : list obis_info) (roster : list (string * string)) :
  forall df_data w,
  exists rows w',
    fetch_entities W http_get calc_year calc_month start_date end_date
      entity_type roster codes df_data w = (Ok (df_data ++ rows)%list, w') /\
    map pair_of_row rows = pairs_of entity_type roster codes /\
    Forall present_or_unavailable rows.
Proof.
  induction roster as [| [name meter_id] rest IH]; intros df_data w.
  - exists [], w. simpl. rewrite app_nil_r. auto.
  - destruct (fetch_codes_returns calc_year calc_month start_date end_date
                entity_type name meter_id codes df_data w)
      as (rows1 & w1 & H1 & Hp1 & Hok1).
    destruct (IH (df_data ++ rows1)%list w1) as (rows2 & w2 & H2 & Hp2 & Hok2).
    exists (rows1 ++ rows2)%list, w2. split; [| split].
    + simpl. unfold bindM at 1. rewrite H1. rewrite H2.
      rewrite <- app_assoc. reflexivity.
    + simpl. rewrite map_app, Hp1, Hp2. reflexivity.
    + apply Forall_app. split; assumption.
Qed.

End FetchFacts.

Lemma length_pairs_of (entity_type : string) (roster : list (string * string))
    (codes : list Catalog.obis_info) :
  List.length (Orchestrator.pairs_of entity_type roster codes) =
  (List.length roster * List.length codes)%nat.
Proof.
  unfold Orchestrator.pairs_of. induction roster as [| nm rest IH]; simpl.
  - reflexivity.
  - rewrite length_app, length_map, IH. reflexivity.
Qed.

Lemma In_pairs_of (entity_type : string) (roster : list (string * string))
    (codes : list Catalog.obis_info) (q : string * string * string * string) :
  In q (Orchestrator.pairs_of entity_type roster codes) ->
  exists c, In c codes /\
    fst (fst (fst q)) = entity_type /\ snd q = Catalog.info_code c.
Proof.
  unfold Orchestrator.pairs_of. intros H.
  apply in_flat_map in H as (nm & _ & H).
  apply in_map_iff in H as (c & <- & Hc). exists c. auto.
Qed.

Section RunFacts.

Import Period Catalog Client Orchestrator.

(** X17: for a loaded catalogue, a period that resolves and a service none
    of whose responses has a shape outside the handler's cases, the run
    returns one record per (entity, applicable code) pair, in loop order:
    each consumer with each consumption code, then each producer with each
    production code.  Their number is C * nc + P * np whatever these
    responses are; every record is present or marked unavailable with no
    value, and its code is of the category of its entity's type. *)
Theorem fetch_all_data_record_count
    (W : Type) (http_get : request -> W -> response * W)
    (cfg : config) (self : fetcher) (today : datetime)
    (year month : option Z) (w : W) (p : string * string * Z * Z) :
  init cfg = Ok self ->
  calculate_month_dates today year month = Ok p ->
  (forall rq w, handled (fst (http_get rq w)) = true) ->
  exists df w',
    fetch_all_data W http_get self today year month w = (Ok df, w') /\
    map pair_of_row df =
      (pairs_of "consumer" (consumers cfg) (consumption_codes self) ++
       pairs_of "producer" (producers cfg) (production_codes self))%list /\
    List.length df =
      (List.length (consumers cfg) * List.length (consumption_codes self) +
       List.length (producers cfg) * List.length (production_codes self))%nat /\
    Forall present_or_unavailable df /\
    Forall (fun r => exists c, category_of_entity (entity_type r) = Some c /\
                               classify (obis_code r) = Some c) df.
Proof.
  intros Hinit Hp Hh.
  destruct (init_members cfg self Hinit) as [Hcfg Hmem].
  destruct p as [[[start_date end_date] calc_year] calc_month].
  destruct (fetch_entities_returns W http_get Hh calc_year calc_month
              start_date end_date "consumer" (consumption_codes self)
              (consumers cfg) [] w) as (rows1 & w1 & H1 & Hp1 & Hok1).
  destruct (fetch_entities_returns W http_get Hh calc_year calc_month
              start_date end_date "producer" (production_codes self)
              (producers cfg) ([] ++ rows1)%list w1)
    as (rows2 & w2 & H2 & Hp2 & Hok2).
  exists (([] ++ rows1) ++ rows2)%list, w2.
  assert (Hmap : map pair_of_row (([] ++ rows1) ++ rows2)%list =
            (pairs_of "consumer" (consumers cfg) (consumption_codes self) ++
             pairs_of "producer" (producers cfg) (production_codes self))%list).
  { simpl. rewrite map_app, Hp1, Hp2. reflexivity. }
  split; [| split; [| split; [| split]]].
  - unfold fetch_all_data. rewrite Hp. unfold bindM at 1. unfold lift.
    rewrite Hcfg. unfold consumers in H1. unfold bindM at 1. rewrite H1.
    unfold producers in H2. unfold bindM at 1. rewrite H2. reflexivity.
  - exact Hmap.
  - rewrite <- (length_map pair_of_row), Hmap, length_app, !length_pairs_of.
    reflexivity.
  - simpl. apply Forall_app. split; assumption.
  - apply Forall_forall. intros r Hr.
    apply (in_map pair_of_row) in Hr. rewrite Hmap in Hr.
    apply in_app_or in Hr as [Hr | Hr];
      apply In_pairs_of in Hr as (c & Hc & Het & Hcode);
      unfold pair_of_row in Het, Hcode; simpl in Het, Hcode.
    + exists Consumption. rewrite Het, Hcode. split; [reflexivity |].
      apply (Hmem c Consumption). exact Hc.
    + exists Production. rewrite Het, Hcode. split; [reflexivity |].
      apply (Hmem c Production). exact Hc.
Qed.

End RunFacts.

(** ** The persistence store *)

Section StoreFacts.

Import Frame Store.

Lemma filter_idem {A} (f : A -> bool) (l : list A) :
  filter f (filter f l) = filter f l.
Proof.
  induction l as [| a l IH]; simpl; [reflexivity |].
  destruct (f a) eqn:E; simpl; [rewrite E, IH |]; auto.
Qed.

Lemma same_key_m_refl (d : DetailRow) : same_key_m d d = true.
Proof.
  unfold same_key_m. rewrite !Z.eqb_refl, !String.eqb_refl. reflexivity.
Qed.

Lemma existsb_same_key_m (d : DetailRow) (t : list DetailRow) :
  In d t -> existsb (same_key_m d) t = true.
Proof.
  intros H. apply existsb_exists. exists d. split; [assumption | apply same_key_m_refl].
Qed.

(** The rows a successful run of the detail inserts adds. *)
Lemma insert_all_metering_adds (rows : list Row) :
  forall t t', insert_all_metering t rows = Ok t' ->
  exists new, t' = (t ++ new)%list /\
    forall d, In d new ->
      exists row v, In row rows /\ value row = Some v /\ d = detail_row row v.
Proof.
  induction rows as [| r rest IH]; intros t t' H.
  - simpl in H. inversion H; subst. exists []. rewrite app_nil_r.
    split; [reflexivity | intros d []].
  - simpl in H. unfold insert_metering in H.
    destruct (value r) as [v |] eqn:Hv; simpl in H; [| discriminate].
    destruct (existsb (same_key_m (detail_row r v)) t); simpl in H; [discriminate |].
    destruct (IH _ _ H) as (new & Ht' & Hnew).
    exists (detail_row r v :: new). split.
    + rewrite Ht', <- app_assoc. reflexivity.
    + intros d [Hd | Hd].
      * exists r, v. simpl. auto.
      * destruct (Hnew d Hd) as (row & v' & Hin & Hval & Heq).
        exists row, v'. simpl. auto.
Qed.

(** A row whose key is already in the table makes the inserts fail. *)
Lemma insert_all_metering_conflict (rows : list Row) :
  forall t row v,
    In row rows -> value row = Some v ->
    existsb (same_key_m (detail_row row v)) t = true ->
    exists e, insert_all_metering t rows = Raise e.
Proof.
  induction rows as [| r rest IH]; intros t row v Hin Hv Hex; [destruct Hin |].
  simpl. destruct (insert_metering t r) as [t1 |] eqn:Hi; simpl; [| eauto].
  destruct Hin as [-> | Hin].
  - unfold insert_metering in Hi. rewrite Hv, Hex in Hi. discriminate.
  - apply (IH t1 row v Hin Hv).
    unfold insert_metering in Hi.
    destruct (value r) as [vr |]; [| discriminate].
    destruct (existsb (same_key_m (detail_row r vr)) t); [discriminate |].
    inversion Hi; subst. rewrite existsb_app, Hex. reflexivity.
Qed.

Lemma insert_all_summaries_adds (y m : Z) (rows : list Summary) :
  forall t t', insert_all_summaries y m t rows = Ok t' ->
    t' = (t ++ map (summary_row y m) rows)%list.
Proof.
  induction rows as [| r rest IH]; intros t t' H.
  - simpl in H. inversion H. rewrite app_nil_r. reflexivity.
  - simpl in H. unfold insert_summary in H.
    destruct (existsb (same_key_s (summary_row y m r)) t); simpl in H;
      [discriminate |].
    rewrite (IH _ _ H), <- app_assoc. reflexivity.
Qed.

Lemma summary_row_period (y m : Z) (r : Summary) :
  in_period_s y m (summary_row y m r) = true.
Proof.
  unfold summary_row, in_period_s. destruct (sum_key r) as [[c k] d]. simpl.
  rewrite !Z.eqb_refl. reflexivity.
Qed.

Lemma delete_summaries_new (y m : Z) (rows : list Summary) :
  delete_summaries y m (map (summary_row y m) rows) = [].
Proof.
  unfold delete_summaries. induction rows as [| r rest IH]; simpl; [reflexivity |].
  rewrite summary_row_period. simpl. exact IH.
Qed.

(** Replacing a period once more with the same rows either rebuilds the
    same database or fails and is rolled back. *)
Lemma replace_period_again (rows : DataFrame) (y m : Z) (st st' : db) :
  replace_period rows y m st = Ok st' ->
  replace_period rows y m st' = Ok st' \/
  exists e, replace_period rows y m st' = Raise e.
Proof.
  unfold replace_period. intros H.
  destruct (insert_all_metering (delete_metering y m (metering_data st)) rows)
    as [md |] eqn:Hmd; simpl in H; [| discriminate].
  destruct (insert_all_summaries y m (delete_summaries y m (monthly_summaries st))
              (summarise rows)) as [ms |] eqn:Hms; simpl in H; [| discriminate].
  inversion H; subst st'. simpl.
  destruct (insert_all_metering_adds _ _ _ Hmd) as (new & Hnew & Horigin).
  pose proof (insert_all_summaries_adds _ _ _ _ _ Hms) as Hsum.
  assert (Hdel : delete_metering y m md =
            (delete_metering y m (metering_data st) ++ delete_metering y m new)%list).
  { rewrite Hnew. unfold delete_metering. rewrite filter_app, filter_idem.
    reflexivity. }
  destruct (delete_metering y m new) as [| d rest] eqn:Hleft.
  - left. rewrite Hdel, app_nil_r, Hmd. simpl.
    assert (Hdels : delete_summaries y m ms =
              delete_summaries y m (monthly_summaries st)).
    { rewrite Hsum. unfold delete_summaries at 1. rewrite filter_app.
      fold (delete_summaries y m (monthly_summaries st)).
      fold (delete_summaries y m (map (summary_row y m) (summarise rows))).
      rewrite delete_summaries_new, app_nil_r.
      unfold delete_summaries. apply filter_idem. }
    rewrite Hdels, Hms. reflexivity.
  - right.
    assert (Hd : In d new).
    { assert (Hin : In d (delete_metering y m new)) by (rewrite Hleft; now left).
      unfold delete_metering in Hin. apply filter_In in Hin. tauto. }
    destruct (Horigin d Hd) as (row & v & Hrow & Hv & Heq).
    destruct (insert_all_metering_conflict rows (delete_metering y m md) row v
                Hrow Hv) as [e He].
    { rewrite <- Heq. apply existsb_same_key_m. rewrite Hdel.
      apply in_or_app. right. now left. }
    exists e. rewrite He. reflexivity.
Qed.

Lemma upsert_twice (df : DataFrame) (y m : Z) (st : db) :
  upsert y m df (upsert y m df st) = upsert y m df st.
Proof.
  unfold upsert, save_to_database.
  destruct (with_data df) as [| r rest] eqn:Hd; [reflexivity |].
  destruct (replace_period (r :: rest) y m st) as [st' | e] eqn:H1; simpl.
  - destruct (replace_period_again _ _ _ _ _ H1) as [H2 | [e H2]];
      rewrite H2; reflexivity.
  - rewrite H1. reflexivity.
Qed.

(** C1: running the upsert a second time with the same period and the same
    records leaves the database exactly as the first run left it, and so
    does any number of further runs. *)
Theorem upsert_idempotent (df : DataFrame) (y m : Z) (st : db) :
  upsert y m df (upsert y m df st) = upsert y m df st /\
  forall n, Nat.iter (S n) (upsert y m df) st = upsert y m df st.
Proof.
  split; [apply upsert_twice |].
  induction n as [| n IH]; [reflexivity |].
  change (Nat.iter (S (S n)) (upsert y m df) st)
    with (upsert y m df (Nat.iter (S n) (upsert y m df) st)).
  rewrite IH. apply upsert_twice.
Qed.

(** C10: when no record of the frame is available the call returns at the
    emptiness test, before any DELETE, and the database is the one it was
    given. *)
Theorem save_without_data_changes_nothing
    (df : DataFrame) (y m : Z) (st : db) :
  (forall r, In r df -> data_available r = false) ->
  save_to_database df y m st = (Ok tt, st).
Proof.
  intros H. unfold save_to_database, with_data.
  assert (Hf : filter data_available df = []).
  { induction df as [| r rest IH]; simpl; [reflexivity |].
    rewrite (H r (or_introl eq_refl)). apply IH.
    intros r' Hr'. apply H. now right. }
  rewrite Hf. reflexivity.
Qed.

End StoreFacts.

(** ** Grouping and the summaries *)

Section SummaryFacts.

Import Frame Store.

Lemma key3_eqb_eq (a b : key3) : key3_eqb a b = true <-> a = b.
Proof.
  destruct a as [[a1 a2] a3], b as [[b1 b2] b3]. unfold key3_eqb.
  rewrite !andb_true_iff, !String.eqb_eq.
  split; [intros [[-> ->] ->]; reflexivity | intros H; inversion H; auto].
Qed.

Lemma In_distinct_acc {K} (eqb : K -> K -> bool)
    (eqb_eq : forall a b, eqb a b = true <-> a = b) (ks : list K) :
  forall acc k,
    In k (fold_left (fun acc k => if existsb (eqb k) acc then acc
                                  else (acc ++ [k])%list) ks acc) <->
    In k acc \/ In k ks.
Proof.
  induction ks as [| x rest IH]; intros acc k; simpl; [tauto |].
  rewrite IH. destruct (existsb (eqb x) acc) eqn:E.
  - apply existsb_exists in E as (x' & Hx' & Heq). apply eqb_eq in Heq. subst x'.
    split; [tauto |]. intros [H | [-> | H]]; auto.
  - rewrite in_app_iff. simpl. tauto.
Qed.

Lemma In_distinct {K} (eqb : K -> K -> bool)
    (eqb_eq : forall a b, eqb a b = true <-> a = b) (ks : list K) (k : K) :
  In k (distinct eqb ks) <-> In k ks.
Proof.
  unfold distinct. rewrite (In_distinct_acc eqb eqb_eq). simpl. tauto.
Qed.

Lemma In_insert_sorted {K} (leb : K -> K -> bool) (x : K) (l : list K) (k : K) :
  In k (insert_sorted leb x l) <-> k = x \/ In k l.
Proof.
  induction l as [| h t IH]; simpl.
  - split; [intros [H | []]; auto | intros [H | []]; auto].
  - destruct (leb x h); simpl; [| rewrite IH]; intuition congruence.
Qed.

Lemma In_sort {K} (leb : K -> K -> bool) (l : list K) (k : K) :
  In k (sort leb l) <-> In k l.
Proof.
  unfold sort. induction l as [| h t IH]; simpl; [tauto |].
  rewrite In_insert_sorted, IH. intuition congruence.
Qed.

(** The rows of [summaries]: one per key that occurs, with the number of
    rows of its group. *)
Lemma In_summarise (rows : DataFrame) (x : Summary) :
  In x (summarise rows) ->
  num_meters x = Z.of_nat (List.length (group_rows (sum_key x) rows)).
Proof.
  unfold summarise, groupby. rewrite map_map. intros H.
  apply in_map_iff in H as (k & Hx & _). subst x. reflexivity.
Qed.

Lemma summarise_covers (rows : DataFrame) (r : Row) :
  In r rows -> exists x, In x (summarise rows) /\ sum_key x = summary_key r.
Proof.
  intros Hr. unfold summarise, groupby. rewrite map_map.
  eexists. split.
  - apply in_map_iff. exists (summary_key r). split; [reflexivity |].
    apply In_sort. apply (In_distinct key3_eqb key3_eqb_eq).
    apply in_map. exact Hr.
  - reflexivity.
Qed.

Lemma key_of_summary_row_eq (y m : Z) (x : Summary) :
  key_of_summary_row (summary_row y m x) = sum_key x /\
  s_num_meters (summary_row y m x) = num_meters x /\
  s_year (summary_row y m x) = y /\ s_month (summary_row y m x) = m.
Proof.
  unfold summary_row, key_of_summary_row. destruct (sum_key x) as [[c k] d].
  simpl. auto.
Qed.

(** C4, as the code has it: after an upsert that had data and committed,
    [num_meters] of every summary row of the period is the number of
    available detail rows of the row's (code, category, description) group,
    and every such group has its summary row. *)
Theorem num_meters_counts_rows (df : DataFrame) (y m : Z) (st st' : db) :
  with_data df <> [] ->
  save_to_database df y m st = (Ok tt, st') ->
  (forall s, In s (monthly_summaries st') -> s_year s = y -> s_month s = m ->
     s_num_meters s =
       Z.of_nat (List.length (group_rows (key_of_summary_row s) (with_data df)))) /\
  (forall r, In r (with_data df) ->
     exists s, In s (monthly_summaries st') /\ s_year s = y /\ s_month s = m /\
       key_of_summary_row s = summary_key r).
Proof.
  intros Hne Hsave. unfold save_to_database in Hsave.
  remember (with_data df) as rows eqn:Hd.
  assert (Hrep : replace_period rows y m st = Ok st').
  { destruct rows as [| r0 rest]; [congruence |].
    destruct (replace_period (r0 :: rest) y m st) as [st1 | e];
      [inversion Hsave; reflexivity | discriminate]. }
  clear Hsave. unfold replace_period in Hrep.
  destruct (insert_all_metering _ _) as [md |]; cbn [bind] in Hrep;
    [| discriminate].
  destruct (insert_all_summaries _ _ _ _) as [ms |] eqn:Hms; cbn [bind] in Hrep;
    [| discriminate].
  inversion Hrep; subst st'. cbn [monthly_summaries].
  rewrite (insert_all_summaries_adds _ _ _ _ _ Hms).
  split.
  - intros s Hs Hy Hm. apply in_app_or in Hs as [Hs | Hs].
    + exfalso. unfold delete_summaries in Hs. apply filter_In in Hs as [_ Hs].
      unfold in_period_s in Hs. rewrite Hy, Hm, !Z.eqb_refl in Hs. discriminate.
    + apply in_map_iff in Hs as (x & <- & Hx).
      destruct (key_of_summary_row_eq y m x) as (-> & -> & _).
      apply In_summarise. exact Hx.
  - intros r Hr. destruct (summarise_covers _ r Hr) as (x & Hx & Hk).
    exists (summary_row y m x).
    destruct (key_of_summary_row_eq y m x) as (Hkey & _ & Hy & Hm).
    repeat split; auto.
    + apply in_or_app. right. apply in_map. exact Hx.
    + congruence.
Qed.

End SummaryFacts.

(** ** The ratio report *)

Section RatioFacts.

Import Frame Store Ratios.




End RatioFacts.

(** ** The wide-format table *)

Section WideFacts.

Import Frame Wide Examples.

(** C5 at the input of two meters that each have one of two consumption
    codes: the table has both code columns, the data row of either meter
    holds NaN, not 0, in the column of the code it lacks, so the table is
    not complete; the TOTAL row holds each column's sum over the data rows. *)
Theorem missing_code_stays_nan :
  let t := create_wide_format_dataframe example_config two_meters_two_codes in
  code_columns t = ["1-1:1.29.0"; "1-65:1.29.9"] /\
  map (fun d => (dict_get "name" d, dict_get "1-1:1.29.0" d,
                 dict_get "1-65:1.29.9" d)) (data_rows t) =
    [ (Some (Str "A"), Some (Num (round2 50)), Some NaN);
      (Some (Str "B"), Some NaN, Some (Num (round2 20))) ] /\
  map (fun d => (dict_get "year" d, dict_get "1-1:1.29.0" d,
                 dict_get "1-65:1.29.9" d)) (skipn 2 (rows t)) =
    [ (Some (Str "TOTAL"), Some (Num (round2 50)), Some (Num (round2 20)));
      (Some (Str "DESCRIPTION"), Some (Str "Measured active consumption"),
       Some (Str "Remaining consumption")) ] /\
  ~ complete t.
Proof.
  intros t. split; [| split; [| split]]; try (vm_compute; reflexivity).
  intros H.
  destruct (H [ ("year", Int 2024); ("month", Int 3);
                ("entity_type", Str "consumer"); ("name", Str "A");
                ("metering_point", Str "LU-METER-1");
                ("1-1:1.29.0", Num (round2 50)); ("1-65:1.29.9", NaN) ]
              "1-65:1.29.9") as (c & Hc & Hn).
  - vm_compute. left. reflexivity.
  - vm_compute. right. left. reflexivity.
  - vm_compute in Hc. inversion Hc; subst. discriminate Hn.
Qed.

End WideFacts.

(** ** The claims at concrete inputs *)

Section Instances.

Import Period Catalog Client Orchestrator Frame Store Ratios Wide Examples.

Lemma fetch_all_data_record_count_witness :
  exists df w',
    fetch_all_data unit always_timeout example_fetcher
      (mk_datetime 2026 11 4) (Some 2024) (Some 3) tt = (Ok df, w') /\
    map pair_of_row df =
      (pairs_of "consumer" (consumers example_config)
         (consumption_codes example_fetcher) ++
       pairs_of "producer" (producers example_config)
         (production_codes example_fetcher))%list /\
    List.length df = (2 * 2 + 1 * 1)%nat /\
    Forall present_or_unavailable df /\
    Forall (fun r => exists c, category_of_entity (entity_type r) = Some c /\
                               classify (obis_code r) = Some c) df.
Proof.
  apply (fetch_all_data_record_count unit always_timeout example_config
           example_fetcher (mk_datetime 2026 11 4) (Some 2024) (Some 3) tt
           ("2024-03-01", "2024-03-31", 2024, 3)).
  - reflexivity.
  - reflexivity.
  - intros rq w. reflexivity.
Defined.



(** C4 as stated fails when one entity has two meters: the summary of the
    code counts 2, the rows, where one entity contributes. *)
Lemma num_meters_is_not_entity_count :
  ~ num_meters_counts_entities two_meters_one_entity 2024 3 empty_db.
Proof.
  intros H.
  specialize (H (mk_SummaryRow 2024 3 "1-1:1.29.0" "Consumption" ""
                   (round2 (0 + round2 50 + round2 20)) 2 (Some "kWh"))).
  assert (Hin : In (mk_SummaryRow 2024 3 "1-1:1.29.0" "Consumption" ""
                      (round2 (0 + round2 50 + round2 20)) 2 (Some "kWh"))
                  (monthly_summaries
                     (upsert 2024 3 two_meters_one_entity empty_db))).
  { vm_compute. left. reflexivity. }
  specialize (H Hin eq_refl eq_refl). vm_compute in H. discriminate H.
Qed.

Lemma num_meters_counts_rows_witness :
  with_data two_meters_one_entity <> [] /\
  forall s,
    In s (monthly_summaries (upsert 2024 3 two_meters_one_entity empty_db)) ->
    s_year s = 2024 -> s_month s = 3 ->
    s_num_meters s =
      Z.of_nat (List.length (group_rows (key_of_summary_row s)
                               (with_data two_meters_one_entity))).
Proof.
  assert (Hne : with_data two_meters_one_entity <> []).
  { vm_compute. discriminate. }
  split; [exact Hne |].
  apply (num_meters_counts_rows two_meters_one_entity 2024 3 empty_db
           (upsert 2024 3 two_meters_one_entity empty_db) Hne).
  vm_compute. reflexivity.
Defined.

(** C7 as stated fails: a timeout and a 404 make the call return the same
    value, so no caller can tell the failure from the absence of data. *)
Lemma fetch_failed_not_distinct : ~ exists decode, reports_outcome decode.
Proof.
  intros [decode H].
  pose proof (H Timeout) as H1.
  pose proof (H (Response 404 NotJson)) as H2.
  simpl in H1, H2. congruence.
Qed.

Lemma no_reading_yields_unavailable_row_witness :
  fetch_row unit always_timeout 2024 3 "2024-03-01" "2024-03-31"
    "consumer" "House" "LU-METER-1"
    (mk_obis_info "1-1:1.29.0" "Consumption" "Measured active consumption") tt =
  (Ok (mk_Row 2024 3 "2024-03-01" "2024-03-31" "consumer" "House" "LU-METER-1"
         "1-1:1.29.0" "Consumption" "Measured active consumption"
         None None None None None None false), tt).
Proof.
  apply (no_reading_yields_unavailable_row unit always_timeout 2024 3
           "2024-03-01" "2024-03-31" "consumer" "House" "LU-METER-1"
           (mk_obis_info "1-1:1.29.0" "Consumption"
              "Measured active consumption") tt);
    reflexivity.
Defined.

(** A 200 response whose JSON document is not an object is outside the
    [except] clauses: the exception leaves the run. *)
Example ill_shaped_payload_aborts :
  fst (fetch_all_data unit always_array example_fetcher
         (mk_datetime 2026 11 4) (Some 2024) (Some 3) tt) = Raise ShapeError.
Proof. reflexivity. Qed.

(** C2 at a run one of whose calls fails in a way the handler misses: the
    catalogue and the roster of the example span 2 * 2 + 1 * 1 = 5 pairs.
    When the fourth answer is a 200 whose body is not JSON, the call
    returns [None] and the run returns its five records, the fourth marked
    unavailable.  When the fourth answer is a 200 whose JSON document is
    not an object, the exception passes the [except] clauses and leaves
    [fetch_all_data] after four calls: no frame is returned and no record
    is emitted, not even those of the three calls before. *)
Theorem ill_shaped_payload_emits_no_record :
  init example_config = Ok example_fetcher /\
  (List.length (consumers example_config) *
     List.length (consumption_codes example_fetcher) +
   List.length (producers example_config) *
     List.length (production_codes example_fetcher) = 5)%nat /\
  (exists df,
     fetch_all_data nat fourth_call_not_json example_fetcher
       (mk_datetime 2026 11 4) (Some 2024) (Some 3) 0%nat = (Ok df, 5%nat) /\
     List.length df = 5%nat /\
     map data_available df = [false; false; false; false; false]) /\
  fetch_all_data nat fourth_call_array example_fetcher
    (mk_datetime 2026 11 4) (Some 2024) (Some 3) 0%nat =
    (Raise ShapeError, 4%nat) /\
  (forall df w',
     fetch_all_data nat fourth_call_array example_fetcher
       (mk_datetime 2026 11 4) (Some 2024) (Some 3) 0%nat <> (Ok df, w')).
Proof.
  split; [reflexivity | split; [reflexivity | split; [| split]]].
  - eexists. split; [vm_compute; reflexivity | split; reflexivity].
  - vm_compute. reflexivity.
  - intros df w' H. vm_compute in H. discriminate H.
Qed.



Lemma save_without_data_changes_nothing_witness :
  save_to_database
    [ missing "consumer" "A" "LU-METER-1" "1-1:1.29.0" "Consumption" ]
    2024 3 bought_only_db = (Ok tt, bought_only_db).
Proof.
  apply (save_without_data_changes_nothing
           [ missing "consumer" "A" "LU-METER-1" "1-1:1.29.0" "Consumption" ]
           2024 3 bought_only_db).
  intros r [<- | []]. reflexivity.
Defined.

End Instances.

(* ================================================================== *)
(** * Further properties of the pipeline *)

(** ** The tables under [save_to_database] *)

Section TableFacts.

Import Frame Store Tables.

Lemma same_key_m_iff (a b : DetailRow) :
  same_key_m a b = true <-> key_m a = key_m b.
Proof.
  unfold same_key_m, key_m.
  rewrite !andb_true_iff, !Z.eqb_eq, !String.eqb_eq.
  split; [intros [[[-> ->] ->] ->]; reflexivity | intros H; inversion H; auto].
Qed.

Lemma same_key_s_iff (a b : SummaryRow) :
  same_key_s a b = true <-> key_s a = key_s b.
Proof.
  unfold same_key_s, key_s.
  rewrite !andb_true_iff, !Z.eqb_eq, !String.eqb_eq.
  split; [intros [[-> ->] ->]; reflexivity | intros H; inversion H; auto].
Qed.

Lemma existsb_key_false {A K} (same : A -> A -> bool) (key : A -> K)
    (same_iff : forall a b, same a b = true <-> key a = key b)
    (x : A) (t : list A) :
  existsb (same x) t = false <-> ~ In (key x) (map key t).
Proof.
  split.
  - intros H Hin. apply in_map_iff in Hin as (y & Hy & Hin).
    assert (E : existsb (same x) t = true).
    { apply existsb_exists. exists y. split; [assumption |].
      apply same_iff. congruence. }
    congruence.
  - intros H. destruct (existsb (same x) t) eqn:E; [| reflexivity].
    exfalso. apply H. apply existsb_exists in E as (y & Hin & Hs).
    apply same_iff in Hs. rewrite Hs. apply in_map. assumption.
Qed.

Lemma NoDup_map_filter {A K} (key : A -> K) (p : A -> bool) (l : list A) :
  NoDup (map key l) -> NoDup (map key (filter p l)).
Proof.
  induction l as [| a l IH]; simpl; intros H; [constructor |].
  inversion H as [| ? ? Hnot Hrest]; subst.
  destruct (p a); simpl; [| auto].
  constructor; [| auto].
  intros Hin. apply Hnot. apply in_map_iff in Hin as (y & Hy & Hin).
  apply filter_In in Hin as [Hin _]. rewrite <- Hy. apply in_map. assumption.
Qed.

Lemma NoDup_map_snoc {A K} (key : A -> K) (t : list A) (x : A) :
  NoDup (map key t) -> ~ In (key x) (map key t) ->
  NoDup (map key (t ++ [x])).
Proof.
  intros Ht Hx. rewrite map_app. apply NoDup_app.
  - assumption.
  - simpl. constructor; [intros [] | constructor].
  - intros k Hk [<- | []]. contradiction.
Qed.

Lemma insert_all_metering_unique (rows : list Row) :
  forall t t', NoDup (map key_m t) -> insert_all_metering t rows = Ok t' ->
    NoDup (map key_m t').
Proof.
  induction rows as [| r rest IH]; intros t t' Ht H; simpl in H.
  - inversion H; subst. assumption.
  - unfold insert_metering in H.
    destruct (value r) as [v |]; simpl in H; [| discriminate].
    destruct (existsb (same_key_m (detail_row r v)) t) eqn:E; simpl in H;
      [discriminate |].
    apply (IH _ _ (NoDup_map_snoc key_m t _ Ht
                     (proj1 (existsb_key_false same_key_m key_m same_key_m_iff _ _) E)) H).
Qed.

Lemma insert_all_summaries_unique (y m : Z) (rows : list Summary) :
  forall t t', NoDup (map key_s t) -> insert_all_summaries y m t rows = Ok t' ->
    NoDup (map key_s t').
Proof.
  induction rows as [| r rest IH]; intros t t' Ht H; simpl in H.
  - inversion H; subst. assumption.
  - unfold insert_summary in H.
    destruct (existsb (same_key_s (summary_row y m r)) t) eqn:E; simpl in H;
      [discriminate |].
    apply (IH _ _ (NoDup_map_snoc key_s t _ Ht
                     (proj1 (existsb_key_false same_key_s key_s same_key_s_iff _ _) E)) H).
Qed.

(** What a call leaves: the database it was given, or the one
    [replace_period] built from the rows with data. *)
Lemma upsert_cases (df : DataFrame) (y m : Z) (st : db) :
  upsert y m df st = st \/
  (with_data df <> [] /\ replace_period (with_data df) y m st = Ok (upsert y m df st)).
Proof.
  unfold upsert, save_to_database.
  destruct (with_data df) as [| r rest] eqn:Hd; [left; reflexivity |].
  destruct (replace_period (r :: rest) y m st) as [st' | e] eqn:H;
    [right; split; [discriminate | reflexivity] | left; reflexivity].
Qed.

(** The shape of a database [replace_period] builds. *)
Lemma replace_period_tables (rows : DataFrame) (y m : Z) (st st' : db) :
  replace_period rows y m st = Ok st' ->
  insert_all_metering (delete_metering y m (metering_data st)) rows =
    Ok (metering_data st') /\
  monthly_summaries st' =
    (delete_summaries y m (monthly_summaries st) ++
     map (summary_row y m) (summarise rows))%list.
Proof.
  unfold replace_period. intros H.
  destruct (insert_all_metering _ _) as [md |]; cbn [bind] in H; [| discriminate].
  destruct (insert_all_summaries _ _ _ _) as [ms |] eqn:Hms; cbn [bind] in H;
    [| discriminate].
  inversion H; subst st'. cbn [metering_data monthly_summaries].
  split; [reflexivity | exact (insert_all_summaries_adds _ _ _ _ _ Hms)].
Qed.

(** X1: the two UNIQUE constraints are an invariant of the upsert. *)
Theorem upsert_keeps_keys_unique (df : DataFrame) (y m : Z) (st : db) :
  unique_keys st -> unique_keys (upsert y m df st).
Proof.
  intros [Hm Hs].
  destruct (upsert_cases df y m st) as [-> | [_ H]]; [split; assumption |].
  unfold replace_period in H.
  destruct (insert_all_metering _ _) as [md |] eqn:Hmd; cbn [bind] in H;
    [| discriminate].
  destruct (insert_all_summaries _ _ _ _) as [ms |] eqn:Hms; cbn [bind] in H;
    [| discriminate].
  injection H as H'. rewrite <- H'. split; cbn [metering_data monthly_summaries].
  - apply (insert_all_metering_unique _ _ _ (NoDup_map_filter key_m _ _ Hm) Hmd).
  - apply (insert_all_summaries_unique _ _ _ _ _
             (NoDup_map_filter key_s _ _ Hs) Hms).
Qed.


Lemma filter_other {A} (p q : A -> bool) (l : list A) :
  (forall a, q a = true -> p a = false) ->
  filter q (filter (fun a => negb (p a)) l) = filter q l.
Proof.
  intros H. induction l as [| a l IH]; simpl; [reflexivity |].
  destruct (p a) eqn:Ep; simpl.
  - destruct (q a) eqn:Eq; [rewrite (H a Eq) in Ep; discriminate | exact IH].
  - destruct (q a); [f_equal |]; exact IH.
Qed.

Lemma filter_nothing {A} (q : A -> bool) (l : list A) :
  (forall a, In a l -> q a = false) -> filter q l = [].
Proof.
  induction l as [| a l IH]; simpl; intros H; [reflexivity |].
  rewrite (H a (or_introl eq_refl)). apply IH. intros b Hb. apply H. now right.
Qed.

Lemma filter_everything {A} (q : A -> bool) (l : list A) :
  (forall a, In a l -> q a = true) -> filter q l = l.
Proof.
  induction l as [| a l IH]; simpl; intros H; [reflexivity |].
  rewrite (H a (or_introl eq_refl)). f_equal. apply IH.
  intros b Hb. apply H. now right.
Qed.

Lemma other_period_m (y m y' m' : Z) (d : DetailRow) :
  y' <> y \/ m' <> m -> in_period_m y' m' d = true -> in_period_m y m d = false.
Proof.
  unfold in_period_m. intros Hne H.
  apply andb_true_iff in H as [Hy Hm]. apply Z.eqb_eq in Hy, Hm.
  apply andb_false_iff.
  destruct Hne; [left | right]; apply Z.eqb_neq; congruence.
Qed.

Lemma other_period_s (y m y' m' : Z) (s : SummaryRow) :
  y' <> y \/ m' <> m -> in_period_s y' m' s = true -> in_period_s y m s = false.
Proof.
  unfold in_period_s. intros Hne H.
  apply andb_true_iff in H as [Hy Hm]. apply Z.eqb_eq in Hy, Hm.
  apply andb_false_iff.
  destruct Hne; [left | right]; apply Z.eqb_neq; congruence.
Qed.

(** The rows with data are the available rows, with only the value changed. *)
Lemma In_with_data (df : DataFrame) (r : Row) :
  In r (with_data df) ->
  exists r0, In r0 df /\ data_available r0 = true /\
    r = set_value r0 (round2_opt (value r0)).
Proof.
  unfold with_data. intros H. apply in_map_iff in H as (r0 & <- & H).
  apply filter_In in H as [Hin Ha]. exists r0. auto.
Qed.

(** X2: an upsert of one period leaves the summaries of every other period
    as they were and removes no detail row of another period; when the
    available records carry the period of the call, the detail rows of every
    other period are as they were, too. *)
Theorem upsert_leaves_other_periods
    (df : DataFrame) (y m : Z) (st : db) (y' m' : Z) :
  y' <> y \/ m' <> m ->
  filter (in_period_s y' m') (monthly_summaries (upsert y m df st)) =
    filter (in_period_s y' m') (monthly_summaries st) /\
  (forall d, In d (metering_data st) -> in_period_m y' m' d = true ->
     In d (metering_data (upsert y m df st))) /\
  ((forall r, In r df -> data_available r = true -> year r = y /\ month r = m) ->
   filter (in_period_m y' m') (metering_data (upsert y m df st)) =
     filter (in_period_m y' m') (metering_data st)).
Proof.
  intros Hne.
  destruct (upsert_cases df y m st) as [-> | [_ H]]; [auto |].
  destruct (replace_period_tables _ _ _ _ _ H) as [Hmd Hms].
  destruct (insert_all_metering_adds _ _ _ Hmd) as (new & Hnew & Horigin).
  split; [| split].
  - rewrite Hms, filter_app. unfold delete_summaries.
    rewrite (filter_other (in_period_s y m) (in_period_s y' m'))
      by (intros s; apply other_period_s; exact Hne).
    rewrite (filter_nothing _ (map _ _)); [apply app_nil_r |].
    intros s Hs. apply in_map_iff in Hs as (x & <- & _).
    destruct (in_period_s y' m' (summary_row y m x)) eqn:E; [| reflexivity].
    apply (other_period_s y m y' m' _ Hne) in E.
    rewrite summary_row_period in E. discriminate.
  - intros d Hd Hp. rewrite Hnew. apply in_or_app. left.
    unfold delete_metering. apply filter_In. split; [assumption |].
    rewrite (other_period_m y m y' m' d Hne Hp). reflexivity.
  - intros Hper. rewrite Hnew, filter_app. unfold delete_metering.
    rewrite (filter_other (in_period_m y m) (in_period_m y' m'))
      by (intros d; apply other_period_m; exact Hne).
    rewrite (filter_nothing _ new); [apply app_nil_r |].
    intros d Hd. destruct (Horigin d Hd) as (r & v & Hr & _ & ->).
    apply In_with_data in Hr as (r0 & Hr0 & Ha & ->).
    destruct (Hper r0 Hr0 Ha) as [Hy Hm].
    destruct (in_period_m y' m' _) eqn:E; [| reflexivity].
    apply (other_period_m y m y' m' _ Hne) in E.
    unfold in_period_m, detail_row, set_value in E. simpl in E.
    rewrite Hy, Hm, !Z.eqb_refl in E. discriminate.
Qed.

End TableFacts.

(** ** When the upsert commits, when it fails, and what it stores *)

Section CommitFacts.

Import Frame Store Tables Ratios.

Lemma key_m_detail_row (r : Row) (v : Q) : key_m (detail_row r v) = row_key r.
Proof. reflexivity. Qed.

Lemma insert_all_metering_ok (rows : list Row) :
  forall t,
    (forall r, In r rows -> value r <> None) ->
    NoDup (map row_key rows) ->
    (forall r d, In r rows -> In d t -> key_m d <> row_key r) ->
    insert_all_metering t rows = Ok (t ++ detail_rows rows)%list.
Proof.
  induction rows as [| r rest IH]; intros t Hv Hnd Hfree.
  - simpl. rewrite app_nil_r. reflexivity.
  - simpl. unfold insert_metering, detail_rows. simpl.
    destruct (value r) as [v |] eqn:Ev;
      [| exfalso; apply (Hv r (or_introl eq_refl)); assumption].
    assert (E : existsb (same_key_m (detail_row r v)) t = false).
    { apply (existsb_key_false same_key_m key_m same_key_m_iff).
      intros Hin. apply in_map_iff in Hin as (d & Hd & Hin).
      apply (Hfree r d (or_introl eq_refl) Hin). rewrite Hd. reflexivity. }
    rewrite E. cbn [bind]. inversion Hnd as [| ? ? Hnot Hrest]; subst.
    rewrite IH.
    + rewrite <- app_assoc. reflexivity.
    + intros r' Hr'. apply Hv. now right.
    + assumption.
    + intros r' d Hr' Hd. apply in_app_or in Hd as [Hd | [<- | []]].
      * apply Hfree; [now right | assumption].
      * rewrite key_m_detail_row. intros Heq. apply Hnot. rewrite Heq.
        apply in_map. assumption.
Qed.

Lemma insert_all_summaries_ok (y m : Z) (rows : list Summary) :
  forall t,
    NoDup (map (fun x => key_s (summary_row y m x)) rows) ->
    (forall x s, In x rows -> In s t -> key_s s <> key_s (summary_row y m x)) ->
    insert_all_summaries y m t rows = Ok (t ++ map (summary_row y m) rows)%list.
Proof.
  induction rows as [| x rest IH]; intros t Hnd Hfree.
  - simpl. rewrite app_nil_r. reflexivity.
  - simpl. unfold insert_summary.
    assert (E : existsb (same_key_s (summary_row y m x)) t = false).
    { apply (existsb_key_false same_key_s key_s same_key_s_iff).
      intros Hin. apply in_map_iff in Hin as (s & Hs & Hin).
      apply (Hfree x s (or_introl eq_refl) Hin). assumption. }
    rewrite E. cbn [bind]. inversion Hnd as [| ? ? Hnot Hrest]; subst.
    rewrite IH.
    + rewrite <- app_assoc. reflexivity.
    + assumption.
    + intros x' s Hx' Hs. apply in_app_or in Hs as [Hs | [<- | []]].
      * apply Hfree; [now right | assumption].
      * intros Heq. apply Hnot. rewrite Heq.
        apply (in_map (fun x => key_s (summary_row y m x))). assumption.
Qed.

Lemma NoDup_distinct {K} (eqb : K -> K -> bool)
    (eqb_eq : forall a b, eqb a b = true <-> a = b) (ks : list K) :
  NoDup (distinct eqb ks).
Proof.
  unfold distinct.
  assert (H : forall acc, NoDup acc ->
            NoDup (fold_left (fun acc k => if existsb (eqb k) acc then acc
                                           else (acc ++ [k])%list) ks acc)).
  { induction ks as [| k rest IH]; intros acc Hacc; simpl; [assumption |].
    apply IH. destruct (existsb (eqb k) acc) eqn:E; [assumption |].
    apply NoDup_app; [assumption | constructor; [intros [] | constructor] |].
    intros a Ha [Hk | []]. subst a.
    assert (E' : existsb (eqb k) acc = true).
    { apply existsb_exists. exists k. split; [assumption | now apply eqb_eq]. }
    congruence. }
  apply H. constructor.
Qed.

Lemma NoDup_sort {K} (leb : K -> K -> bool) (l : list K) :
  NoDup l -> NoDup (sort leb l).
Proof.
  unfold sort. induction l as [| x l IH]; simpl; intros H; [constructor |].
  inversion H as [| ? ? Hnot Hrest]; subst. specialize (IH Hrest).
  assert (Hx : ~ In x (fold_right (insert_sorted leb) [] l)).
  { intros Hin. apply Hnot. apply (In_sort leb l x). exact Hin. }
  revert IH Hx. generalize (fold_right (insert_sorted leb) [] l) as s.
  induction s as [| h t IHs]; simpl; intros Hs Hx.
  - constructor; [intros [] | constructor].
  - destruct (leb x h).
    + constructor; assumption.
    + inversion Hs as [| ? ? Hh Ht]; subst. constructor.
      * rewrite In_insert_sorted. intros [-> | Hin]; [apply Hx; now left | auto].
      * apply IHs; [assumption | intros Hin; apply Hx; now right].
Qed.

(** The keys [summarise] groups by: each once, each the key of a row. *)
Lemma summarise_keys (rows : DataFrame) :
  map sum_key (summarise rows) =
    sort key3_leb (distinct key3_eqb (map summary_key rows)) /\
  NoDup (map sum_key (summarise rows)) /\
  forall k, In k (map sum_key (summarise rows)) ->
    exists r, In r rows /\ summary_key r = k.
Proof.
  assert (E : map sum_key (summarise rows) =
              sort key3_leb (distinct key3_eqb (map summary_key rows))).
  { unfold summarise, groupby. rewrite !map_map. simpl. apply map_id. }
  split; [exact E | split].
  - rewrite E. apply NoDup_sort. apply NoDup_distinct. exact key3_eqb_eq.
  - intros k Hk. rewrite E in Hk. apply (proj1 (In_sort _ _ _)) in Hk.
    apply (proj1 (In_distinct key3_eqb key3_eqb_eq _ _)) in Hk.
    apply in_map_iff in Hk as (r & Hr & Hin). exists r. auto.
Qed.

Lemma key_s_summary_row (y m : Z) (x : Summary) :
  key_s (summary_row y m x) = (y, m, fst (fst (sum_key x))).
Proof.
  unfold summary_row, key_s. destruct (sum_key x) as [[c k] d]. reflexivity.
Qed.

Lemma not_in_period_key_s (y m : Z) (s : SummaryRow) (x : Summary) :
  in_period_s y m s = false -> key_s s <> key_s (summary_row y m x).
Proof.
  intros Hp Heq. rewrite key_s_summary_row in Heq. unfold key_s in Heq.
  inversion Heq as [[Hy Hm Hc]]. unfold in_period_s in Hp.
  rewrite Hy, Hm, !Z.eqb_refl in Hp. discriminate.
Qed.

Lemma In_delete_summaries (y m : Z) (t : list SummaryRow) (s : SummaryRow) :
  In s (delete_summaries y m t) -> in_period_s y m s = false.
Proof.
  unfold delete_summaries. intros H. apply filter_In in H as [_ H].
  destruct (in_period_s y m s); [discriminate | reflexivity].
Qed.

Lemma In_delete_metering (y m : Z) (t : list DetailRow) (d : DetailRow) :
  In d (delete_metering y m t) -> in_period_m y m d = false.
Proof.
  unfold delete_metering. intros H. apply filter_In in H as [_ H].
  destruct (in_period_m y m d); [discriminate | reflexivity].
Qed.

Lemma with_data_fields (df : DataFrame) :
  map row_key (with_data df) = map row_key (filter data_available df) /\
  map summary_key (with_data df) = map summary_key (filter data_available df) /\
  List.length (with_data df) = List.length (filter data_available df).
Proof.
  unfold with_data. rewrite !map_map, length_map. auto.
Qed.

(** Rounding to two decimals leaves a value written in hundredths as it
    is. *)
Lemma round2_hundredths (z : Z) : round2 (z # 100) = z # 100.
Proof.
  unfold round2, round_half_even.
  assert (Hf : Qfloor ((z # 100) * 100) = z).
  { unfold Qfloor, Qmult. cbn [Qnum Qden Pos.mul].
    change (Z.pos (100 * 1)) with 100. apply Z.div_mul. discriminate. }
  rewrite Hf.
  assert (Hc : ((z # 100) * 100 - inject_Z z ?= 1 # 2)%Q = Lt).
  { rewrite <- Qlt_alt. unfold Qlt, Qminus, Qplus, Qmult, Qopp, inject_Z.
    cbn [Qnum Qden]. change (Z.pos (100 * 1 * 1)) with 100. lia. }
  rewrite Hc. reflexivity.
Qed.

(** What the rounding of [with_data] leaves of a list of records: every
    column but the value. *)
Lemma detail_rows_rounded (l : list Row) :
  (forall r, In r l -> value r <> None) ->
  Forall2 (fun r d => exists v, d = detail_row r v) l
    (detail_rows (map (fun r => set_value r (round2_opt (value r))) l)).
Proof.
  induction l as [| r rest IH]; intros Hv; [constructor |].
  unfold detail_rows. cbn [map flat_map]. fold (detail_rows
    (map (fun r => set_value r (round2_opt (value r))) rest)).
  destruct (value r) as [q |] eqn:Eq;
    [| exfalso; apply (Hv r (or_introl eq_refl)); exact Eq].
  cbn [set_value value round2_opt app]. constructor.
  - exists (round2 q). reflexivity.
  - apply IH. intros r' Hr'. apply Hv. now right.
Qed.

Lemma detail_rows_hundredths (l : list Row) :
  (forall r, In r l -> in_hundredths (value r)) ->
  detail_rows (map (fun r => set_value r (round2_opt (value r))) l) =
  detail_rows l.
Proof.
  induction l as [| r rest IH]; intros Hv; [reflexivity |].
  unfold detail_rows. cbn [map flat_map].
  fold (detail_rows (map (fun r => set_value r (round2_opt (value r))) rest)).
  fold (detail_rows rest).
  rewrite IH by (intros r' Hr'; apply Hv; now right).
  destruct (Hv r (or_introl eq_refl)) as [z Hz]. rewrite Hz.
  cbn [set_value value round2_opt]. rewrite round2_hundredths. reflexivity.
Qed.

Lemma filter_map_commute {A B} (p : B -> bool) (f : A -> B) (l : list A) :
  filter p (map f l) = map f (filter (fun a => p (f a)) l).
Proof.
  induction l as [| a rest IH]; simpl; [reflexivity |].
  destruct (p (f a)); simpl; rewrite IH; reflexivity.
Qed.

Lemma first_unit_map (f : Row -> Row) (l : list Row) :
  (forall r, unit_ (f r) = unit_ r) -> first_unit (map f l) = first_unit l.
Proof.
  intros Hf. induction l as [| r rest IH]; simpl; [reflexivity |].
  rewrite Hf, IH. reflexivity.
Qed.

(** The groups, their counts and their units do not depend on the values. *)
Lemma summarise_groups (l : list Row) :
  map group_of (summarise (map (fun r => set_value r (round2_opt (value r))) l)) =
  map group_of (summarise l).
Proof.
  unfold summarise, groupby.
  assert (Hk : map summary_key
                 (map (fun r => set_value r (round2_opt (value r))) l) =
               map summary_key l).
  { rewrite map_map. reflexivity. }
  rewrite Hk, !map_map. apply map_ext. intros k. unfold group_of. cbn [sum_key num_meters sum_unit].
  rewrite filter_map_commute.
  rewrite length_map, first_unit_map by reflexivity. reflexivity.
Qed.

Lemma summary_group_row (y m : Z) (x : Summary) :
  summary_group (summary_row y m x) = group_of x.
Proof.
  unfold summary_group, group_of, summary_row, key_of_summary_row.
  destruct (sum_key x) as [[c k] d]. reflexivity.
Qed.

(** X3: for a year and a month that sqlite3 binds, a frame that is
    committable for the period is committed whatever the database held.
    Reading the period back gives the available records in order, each
    with every column but the value as it was; when the values are written
    in hundredths the rounding changes nothing and the records are read
    back exactly.  The period's summaries have the groups, counts and units
    of the available records, and the ratio report of the period does not
    depend on what the database held before. *)
Theorem upsert_then_load (df : DataFrame) (y m : Z) (st : db) :
  sqlite_integer y -> sqlite_integer m -> y <> 0 -> m <> 0 ->
  committable df y m ->
  fst (save_to_database df y m st) = Ok tt /\
  Forall2 (fun r d => exists v, d = detail_row r v)
    (filter data_available df) (load_metering_data (upsert y m df st) y m) /\
  ((forall r, In r df -> data_available r = true -> in_hundredths (value r)) ->
   load_metering_data (upsert y m df st) y m =
     detail_rows (filter data_available df)) /\
  map summary_group
    (filter (in_period_s y m) (monthly_summaries (upsert y m df st))) =
    map group_of (summarise (filter data_available df)) /\
  (forall st',
     calculate_ratios (upsert y m df st) y m =
     calculate_ratios (upsert y m df st') y m).
Proof.
  intros _ _ Hy0 Hm0 (Hne & Hper & Hnd & Hfun).
  destruct (with_data_fields df) as (Hkeys & Hskeys & Hlen).
  assert (Hrows : forall r, In r (with_data df) ->
            year r = y /\ month r = m /\ value r <> None).
  { intros r Hr. apply In_with_data in Hr as (r0 & Hr0 & Ha & ->).
    destruct (Hper r0 Hr0 Ha) as (H1 & H2 & H3). simpl.
    repeat split; auto. destruct (value r0); [discriminate | congruence]. }
  assert (Hmd : forall st0,
            insert_all_metering (delete_metering y m (metering_data st0))
              (with_data df) =
            Ok (delete_metering y m (metering_data st0) ++
                detail_rows (with_data df))%list).
  { intros st0. apply insert_all_metering_ok.
    - intros r Hr. apply (Hrows r Hr).
    - rewrite Hkeys.
      apply (NoDup_map_inv (fun k : Z * Z * string * string =>
                              (snd (fst k), snd k))).
      rewrite map_map. exact Hnd.
    - intros r d Hr Hd Heq. apply In_delete_metering in Hd.
      destruct (Hrows r Hr) as (H1 & H2 & _).
      unfold key_m, row_key in Heq. inversion Heq as [[E1 E2 E3 E4]].
      unfold in_period_m in Hd. rewrite E1, E2, H1, H2, !Z.eqb_refl in Hd.
      discriminate. }
  destruct (summarise_keys (with_data df)) as (_ & Hsnd & Hsrc).
  assert (Hms : forall st0,
            insert_all_summaries y m
              (delete_summaries y m (monthly_summaries st0))
              (summarise (with_data df)) =
            Ok (delete_summaries y m (monthly_summaries st0) ++
                map (summary_row y m) (summarise (with_data df)))%list).
  { intros st0. apply insert_all_summaries_ok.
    - assert (Hmap : map (fun x => key_s (summary_row y m x))
                       (summarise (with_data df)) =
                     map (fun k : key3 => (y, m, fst (fst k)))
                       (map sum_key (summarise (with_data df)))).
      { rewrite map_map. apply map_ext. intros x. apply key_s_summary_row. }
      rewrite Hmap. clear Hmap.
      apply NoDup_map_NoDup_ForallPairs; [| exact Hsnd].
      intros k1 k2 Hk1 Hk2 Heq.
      destruct (Hsrc k1 Hk1) as (r1 & Hr1 & <-).
      destruct (Hsrc k2 Hk2) as (r2 & Hr2 & <-).
      apply In_with_data in Hr1 as (a1 & Ha1 & Hav1 & ->).
      apply In_with_data in Hr2 as (a2 & Ha2 & Hav2 & ->).
      unfold summary_key in *. simpl in *.
      inversion Heq as [Hc].
      destruct (Hfun a1 a2 Ha1 Ha2 Hav1 Hav2 Hc) as [-> ->].
      rewrite Hc. reflexivity.
    - intros x s _ Hs. apply not_in_period_key_s.
      apply (In_delete_summaries _ _ _ _ Hs). }
  assert (Hsave : forall st0,
            save_to_database df y m st0 =
            (Ok tt, mk_db (delete_metering y m (metering_data st0) ++
                           detail_rows (with_data df))
                          (delete_summaries y m (monthly_summaries st0) ++
                           map (summary_row y m) (summarise (with_data df))))).
  { intros st0. unfold save_to_database, replace_period.
    rewrite Hmd. cbn [bind]. rewrite Hms. cbn [bind].
    destruct (with_data df) as [| r rest] eqn:Hd; [| reflexivity].
    exfalso. apply Hne. apply length_zero_iff_nil. rewrite <- Hlen.
    reflexivity. }
  assert (Hload : forall st0,
            load_metering_data (upsert y m df st0) y m =
            detail_rows (with_data df)).
  { intros st0. unfold upsert. rewrite Hsave. cbn [snd].
    unfold load_metering_data.
    assert (Hb : negb (y =? 0) && negb (m =? 0) = true).
    { apply andb_true_iff.
      split; apply negb_true_iff; apply Z.eqb_neq; assumption. }
    rewrite Hb. cbn [metering_data]. rewrite filter_app.
    rewrite (filter_nothing _ (delete_metering _ _ _))
      by (intros d Hd; apply (In_delete_metering _ _ _ _ Hd)).
    apply filter_everything. intros d Hd. unfold detail_rows in Hd.
    apply in_flat_map in Hd as (r & Hr & Hd).
    destruct (Hrows r Hr) as (H1 & H2 & _).
    destruct (value r); [| destruct Hd].
    destruct Hd as [<- | []]. unfold in_period_m, detail_row. simpl.
    rewrite H1, H2, !Z.eqb_refl. reflexivity. }
  split; [rewrite Hsave; reflexivity |].
  split; [| split; [| split]].
  - rewrite Hload. unfold with_data. apply detail_rows_rounded.
    intros r Hr. apply filter_In in Hr as [Hr Ha]. apply (Hper r Hr Ha).
  - intros Hh. rewrite Hload. unfold with_data. apply detail_rows_hundredths.
    intros r Hr. apply filter_In in Hr as [Hr Ha]. apply (Hh r Hr Ha).
  - unfold upsert. rewrite Hsave. cbn [snd monthly_summaries].
    rewrite filter_app.
    rewrite (filter_nothing _ (delete_summaries _ _ _))
      by (intros s Hs; apply (In_delete_summaries _ _ _ _ Hs)).
    rewrite (filter_everything (in_period_s y m)
               (map (summary_row y m) (summarise (with_data df))))
      by (intros s Hs; apply in_map_iff in Hs as (x & <- & _);
          apply summary_row_period).
    cbn [app]. rewrite map_map.
    rewrite (map_ext _ group_of (summary_group_row y m)).
    unfold with_data. apply summarise_groups.
  - intros st'. unfold calculate_ratios. rewrite !Hload. reflexivity.
Qed.


Lemma insert_all_metering_missing_value (rows : list Row) (r : Row) :
  In r rows -> value r = None ->
  forall t, exists e, insert_all_metering t rows = Raise e.
Proof.
  induction rows as [| r0 rest IH]; intros Hin Hv t; [destruct Hin |].
  simpl. destruct (insert_metering t r0) as [t1 |] eqn:Hi; cbn [bind]; [| eauto].
  destruct Hin as [-> | Hin].
  - unfold insert_metering in Hi. rewrite Hv in Hi. discriminate.
  - apply (IH Hin Hv).
Qed.

Lemma insert_all_metering_app (l1 l2 : list Row) :
  forall t,
    insert_all_metering t (l1 ++ l2) =
    bind (insert_all_metering t l1) (fun t' => insert_all_metering t' l2).
Proof.
  induction l1 as [| r rest IH]; intros t; simpl; [reflexivity |].
  destruct (insert_metering t r) as [t1 |]; cbn [bind]; [apply IH | reflexivity].
Qed.

Lemma insert_all_metering_duplicate (l1 l2 l3 : list Row) (r1 r2 : Row) :
  row_key r1 = row_key r2 ->
  forall t, exists e,
    insert_all_metering t (l1 ++ r1 :: l2 ++ r2 :: l3) = Raise e.
Proof.
  intros Hk t. rewrite insert_all_metering_app.
  destruct (insert_all_metering t l1) as [t1 |]; cbn [bind]; [| eauto].
  simpl. destruct (insert_metering t1 r1) as [t2 |] eqn:Hi; cbn [bind]; [| eauto].
  unfold insert_metering in Hi.
  destruct (value r1) as [v1 |]; [| discriminate].
  destruct (existsb (same_key_m (detail_row r1 v1)) t1); [discriminate |].
  inversion Hi; subst t2.
  destruct (value r2) as [v2 |] eqn:Hv2.
  - apply (insert_all_metering_conflict _ _ r2 v2).
    + apply in_or_app. right. now left.
    + assumption.
    + rewrite existsb_app. simpl.
      assert (E : same_key_m (detail_row r2 v2) (detail_row r1 v1) = true).
      { apply same_key_m_iff. rewrite !key_m_detail_row. congruence. }
      rewrite E. apply orb_true_iff. right. reflexivity.
  - apply (insert_all_metering_missing_value _ r2).
    + apply in_or_app. right. now left.
    + assumption.
Qed.

(** X4: an available record without a value, or two available records
    with the same year, month, meter and code, make the upsert raise; the
    database is rolled back to what it was. *)
Theorem upsert_rejects_bad_records (df : DataFrame) (y m : Z) (st : db) :
  (exists r, In r df /\ data_available r = true /\ value r = None) \/
  (exists l1 r1 l2 r2 l3,
     filter data_available df = (l1 ++ r1 :: l2 ++ r2 :: l3)%list /\
     row_key r1 = row_key r2) ->
  exists e, save_to_database df y m st = (Raise e, st).
Proof.
  intros H.
  assert (Hins : with_data df <> [] /\
            forall t, exists e, insert_all_metering t (with_data df) = Raise e).
  { destruct H as [(r & Hr & Ha & Hv) | (l1 & r1 & l2 & r2 & l3 & Hd & Hk)].
    - assert (Hin : In (set_value r (round2_opt (value r))) (with_data df)).
      { unfold with_data.
        apply (in_map (fun r => set_value r (round2_opt (value r)))).
        apply filter_In. auto. }
      split; [intros E; rewrite E in Hin; destruct Hin |].
      apply (insert_all_metering_missing_value _ _ Hin).
      simpl. rewrite Hv. reflexivity.
    - unfold with_data. rewrite Hd, map_app. simpl. rewrite map_app. simpl.
      split; [intros E; apply app_eq_nil in E as [_ E]; discriminate |].
      apply insert_all_metering_duplicate. exact Hk. }
  destruct Hins as [Hne Hins].
  destruct (Hins (delete_metering y m (metering_data st))) as [e He].
  exists e. unfold save_to_database, replace_period. rewrite He. cbn [bind].
  destruct (with_data df); [congruence | reflexivity].
Qed.

Lemma list_sum_add {K} (a b : K -> nat) (ks : list K) :
  list_sum (map (fun k => a k + b k)%nat ks) =
  (list_sum (map a ks) + list_sum (map b ks))%nat.
Proof.
  induction ks as [| k rest IH]; simpl; [reflexivity |]. rewrite IH. lia.
Qed.

Lemma count_one {K} (eqb : K -> K -> bool)
    (eqb_eq : forall a b, eqb a b = true <-> a = b) (x : K) (ks : list K) :
  NoDup ks -> In x ks ->
  list_sum (map (fun k => if eqb x k then 1 else 0)%nat ks) = 1%nat.
Proof.
  induction ks as [| k rest IH]; intros Hnd Hin; [destruct Hin |].
  inversion Hnd as [| ? ? Hnot Hrest]; subst. simpl.
  destruct (eqb x k) eqn:E.
  - apply eqb_eq in E. subst k.
    assert (Hz : list_sum (map (fun k => if eqb x k then 1 else 0)%nat rest) = 0%nat).
    { clear IH Hnd Hrest Hin. induction rest as [| k' rest' IH']; [reflexivity |].
      simpl. destruct (eqb x k') eqn:E'.
      - apply eqb_eq in E'. subst k'. exfalso. apply Hnot. now left.
      - apply IH'. intros Hin. apply Hnot. now right. }
    rewrite Hz. reflexivity.
  - destruct Hin as [-> | Hin].
    + assert (E' : eqb x x = true) by now apply eqb_eq. congruence.
    + apply (IH Hrest Hin).
Qed.

(** The groups of a set of keys that covers the rows partition the rows. *)
Lemma groups_partition {K} (eqb : K -> K -> bool)
    (eqb_eq : forall a b, eqb a b = true <-> a = b)
    (key : Row -> K) (ks : list K) (rows : list Row) :
  NoDup ks -> (forall r, In r rows -> In (key r) ks) ->
  list_sum (map (fun k => List.length (filter (fun r => eqb (key r) k) rows)) ks)
  = List.length rows.
Proof.
  intros Hnd. induction rows as [| r rest IH]; intros Hcov.
  - simpl.
    assert (Hz : forall l : list K, list_sum (map (fun _ => 0%nat) l) = 0%nat)
      by (induction l as [| k l IHl]; simpl; auto).
    apply Hz.
  - assert (E : forall k,
              List.length (filter (fun r0 => eqb (key r0) k) (r :: rest)) =
              ((if eqb (key r) k then 1 else 0) +
               List.length (filter (fun r0 => eqb (key r0) k) rest))%nat).
    { intros k. simpl. destruct (eqb (key r) k); reflexivity. }
    rewrite (map_ext _ _ E), list_sum_add.
    rewrite (count_one eqb eqb_eq (key r) ks Hnd (Hcov r (or_introl eq_refl))).
    rewrite IH; [reflexivity |]. intros r' Hr'. apply Hcov. now right.
Qed.

Lemma count_meters_summaries (y m : Z) (xs : list Summary) :
  count_meters (map (summary_row y m) xs) =
  fold_right (fun x acc => num_meters x + acc) 0 xs.
Proof.
  induction xs as [| x rest IH]; simpl; [reflexivity |].
  destruct (key_of_summary_row_eq y m x) as (_ & -> & _). rewrite IH.
  reflexivity.
Qed.

Lemma sum_num_meters (rows : DataFrame) (xs : list Summary) :
  (forall x, In x xs ->
     num_meters x = Z.of_nat (List.length (group_rows (sum_key x) rows))) ->
  fold_right (fun x acc => num_meters x + acc) 0 xs =
  Z.of_nat (list_sum (map (fun k => List.length
                             (filter (fun r => key3_eqb (summary_key r) k) rows))
                        (map sum_key xs))).
Proof.
  induction xs as [| x rest IH]; intros H; [reflexivity |].
  cbn [fold_right map list_sum].
  rewrite IH by (intros x' Hx'; apply H; now right).
  rewrite (H x (or_introl eq_refl)), <- Nat2Z.inj_add. reflexivity.
Qed.

Lemma summarise_counts (rows : DataFrame) :
  fold_right (fun x acc => num_meters x + acc) 0 (summarise rows) =
  Z.of_nat (List.length rows).
Proof.
  destruct (summarise_keys rows) as (_ & Hnd & _).
  rewrite (sum_num_meters rows) by (intros x Hx; apply In_summarise; exact Hx).
  rewrite (groups_partition key3_eqb key3_eqb_eq summary_key _ rows Hnd);
    [reflexivity |].
  intros r Hr. destruct (summarise_covers rows r Hr) as (x & Hx & <-).
  apply in_map. exact Hx.
Qed.

(** X5: after a committed upsert the summaries of the period count every
    stored record of the frame once: their [num_meters] add up to the number
    of available records. *)
Theorem summaries_count_every_record
    (df : DataFrame) (y m : Z) (st st' : db) :
  with_data df <> [] ->
  save_to_database df y m st = (Ok tt, st') ->
  count_meters (filter (in_period_s y m) (monthly_summaries st')) =
  Z.of_nat (List.length (filter data_available df)).
Proof.
  intros Hne Hsave.
  assert (Hrep : replace_period (with_data df) y m st = Ok st').
  { unfold save_to_database in Hsave.
    destruct (with_data df) as [| r0 rest]; [congruence |].
    destruct (replace_period (r0 :: rest) y m st) as [st1 | e];
      [inversion Hsave; reflexivity | discriminate]. }
  destruct (replace_period_tables _ _ _ _ _ Hrep) as [_ Hms].
  rewrite Hms, filter_app.
  rewrite (filter_nothing _ (delete_summaries _ _ _))
    by (intros s Hs; apply (In_delete_summaries _ _ _ _ Hs)).
  rewrite (filter_everything _ (map _ _))
    by (intros s Hs; apply in_map_iff in Hs as (x & <- & _);
        apply summary_row_period).
  simpl. rewrite count_meters_summaries, summarise_counts.
  destruct (with_data_fields df) as (_ & _ & ->). reflexivity.
Qed.

End CommitFacts.

(** ** The totals of the ratio report *)

Section TotalsFacts.

Import Store Ratios.

Lemma category_map_is (full abbreviation : string) (c : string) :
  (full = "Consumption" /\ abbreviation = "C") \/
  (full = "Production" /\ abbreviation = "P") ->
  String.eqb (category_map c) full =
  String.eqb c full || String.eqb c abbreviation.
Proof.
  unfold category_map. intros [[-> ->] | [-> ->]].
  - destruct (String.eqb_spec c "C") as [-> | HC]; [reflexivity |].
    destruct (String.eqb_spec c "P") as [-> | HP]; [reflexivity |].
    rewrite orb_false_r. reflexivity.
  - destruct (String.eqb_spec c "C") as [-> | HC]; [reflexivity |].
    destruct (String.eqb_spec c "P") as [-> | HP]; [reflexivity |].
    rewrite orb_false_r. reflexivity.
Qed.

Lemma sum_where_categories (full abbreviation : string) (df : list DetailRow) :
  (full = "Consumption" /\ abbreviation = "C") \/
  (full = "Production" /\ abbreviation = "P") ->
  sum_where (category_is full) (map_categories df) =
  sum_where (fun r => category_is full r || category_is abbreviation r) df.
Proof.
  intros Hnames. unfold sum_where, map_categories. f_equal.
  destruct (has_category "C" df || has_category "P" df) eqn:Habbr.
  - clear Habbr. induction df as [| r rest IH]; [reflexivity |].
    cbn [map filter].
    assert (E : category_is full
                  (set_category r (category_map (m_obis_category r))) =
                category_is full r || category_is abbreviation r).
    { unfold category_is, set_category. cbn [m_obis_category].
      apply category_map_is. assumption. }
    rewrite E.
    destruct (category_is full r || category_is abbreviation r);
      cbn [map]; rewrite IH; reflexivity.
  - apply orb_false_iff in Habbr as [HC HP]. f_equal.
    apply filter_ext_in. intros r Hr.
    assert (Hno : category_is abbreviation r = false).
    { unfold has_category in HC, HP. unfold category_is.
      destruct (String.eqb (m_obis_category r) abbreviation) eqn:E;
        [| reflexivity].
      exfalso.
      destruct Hnames as [[_ ->] | [_ ->]].
      - assert (T : existsb (fun r => String.eqb (m_obis_category r) "C") df = true)
          by (apply existsb_exists; eauto).
        congruence.
      - assert (T : existsb (fun r => String.eqb (m_obis_category r) "P") df = true)
          by (apply existsb_exists; eauto).
        congruence. }
    rewrite Hno, orb_false_r. reflexivity.
Qed.

(** X6: the two totals of the report count a record under its category
    whether the category is stored in full or abbreviated: the total
    consumption is the sum of the records of category "Consumption" or "C",
    the total production the sum of those of category "Production" or "P",
    in every mix of the two spellings. *)
Theorem totals_accept_both_spellings (df : list DetailRow) :
  total_consumption df =
    sum_where (fun r => category_is "Consumption" r || category_is "C" r) df /\
  total_production df =
    sum_where (fun r => category_is "Production" r || category_is "P" r) df.
Proof.
  split; apply sum_where_categories; auto.
Qed.

End TotalsFacts.

(** ** The frame of a run and the conversation behind it *)

Section ConversationFacts.

Import Period Catalog Client Orchestrator Conversation.

Variable W : Type.
Variable http_get : request -> W -> response * W.

Lemma conversation_app (w w1 w2 : W) (l1 l2 : list (request * response)) :
  conversation W http_get w l1 w1 -> conversation W http_get w1 l2 w2 ->
  conversation W http_get w (l1 ++ l2) w2.
Proof.
  intros H1 H2. induction H1 as [| ? ? ? ? ? ? Hget Hrest IH]; simpl.
  - exact H2.
  - econstructor; [exact Hget | apply IH; exact H2].
Qed.

Lemma handled_reading_of (resp : response) :
  handled resp = true ->
  match reading_of resp with
  | Some (data, ts) =>
      handle_response resp = Ok (Some data) /\
      exists rest, aggregatedTimeSeries data = SeriesPoints ts rest
  | None => handle_response resp = Ok None
  end.
Proof.
  unfold handled, reading_of, handle_response.
  destruct resp as [| | status body]; try reflexivity.
  destruct (Z.eqb_spec status 200) as [-> | H200].
  - simpl. destruct body as [| | data]; try reflexivity; try discriminate.
    destruct (aggregatedTimeSeries data) as [| ts rest |] eqn:Es;
      try reflexivity; try discriminate.
    intros _. split; [reflexivity | eauto].
  - intros _.
    assert (E : match body with
                | JsonObject _ => @None (json_object * point)
                | _ => None
                end = None) by (destruct body; reflexivity).
    rewrite E. destruct (status =? 404); reflexivity.
Qed.

Lemma handled_other_status (status : Z) (body : payload) :
  status <> 200 -> handled (Response status body) = true.
Proof.
  intros H. unfold handled.
  destruct status as [| p | p]; try reflexivity.
  do 8 (destruct p as [p | p |]; try reflexivity).
  all: try (exfalso; apply H; reflexivity).
Qed.

Lemma unhandled_raises (resp : response) :
  handled resp = false -> handle_response resp = Raise ShapeError.
Proof.
  destruct resp as [| | status body]; try discriminate.
  destruct (Z.eqb_spec status 200) as [-> | H200].
  - unfold handled, handle_response. simpl.
    destruct body as [| | data]; try discriminate; [reflexivity |].
    destruct (aggregatedTimeSeries data); try discriminate. reflexivity.
  - rewrite (handled_other_status status body H200). discriminate.
Qed.

Lemma all_covered_app (l1 l2 : list (request * response)) :
  all_covered l1 -> all_covered l2 -> all_covered (l1 ++ l2).
Proof. intros H1 H2. apply Forall_app. split; assumption. Qed.

Lemma stops_after_covered (l1 l2 : list (request * response)) :
  all_covered l1 -> stops_at_uncovered l2 -> stops_at_uncovered (l1 ++ l2).
Proof.
  intros H1 (before & x & -> & Hb & Hx).
  exists (l1 ++ before)%list, x. rewrite app_assoc.
  split; [reflexivity | split; [apply all_covered_app; assumption | exact Hx]].
Qed.

(** One call of the inner loop. *)
Lemma fetch_row_any (p : string * string * Z * Z)
    (entity_type name meter_id : string) (obis_info : obis_info) (w : W) :
  let '(start, stop, y, m) := p in
  let rq := mk_request meter_id (info_code obis_info) start stop in
  exists resp w',
    http_get rq w = (resp, w') /\
    ((handled resp = true /\
      exists row,
        fetch_row W http_get y m start stop entity_type name meter_id
          obis_info w = (Ok row, w') /\
        records row (rq, resp) /\ in_period p row) \/
     (handled resp = false /\
      fetch_row W http_get y m start stop entity_type name meter_id
        obis_info w = (Raise ShapeError, w'))).
Proof.
  destruct p as [[[start stop] y] m]. cbv zeta.
  unfold fetch_row, bindM, fetch_metering_data.
  destruct (http_get _ w) as [resp w'] eqn:E. exists resp, w'.
  split; [reflexivity |].
  destruct (handled resp) eqn:Hh.
  - left. split; [reflexivity |].
    pose proof (handled_reading_of resp Hh) as Hr.
    unfold records. cbn [fst snd].
    destruct (reading_of resp) as [[data ts] |] eqn:Er.
    + destruct Hr as [Hd [rest Hs]]. rewrite Hd, Hs.
      eexists. repeat split; reflexivity.
    + rewrite Hr. eexists. repeat split; reflexivity.
  - right. split; [reflexivity |].
    rewrite (unhandled_raises resp Hh). reflexivity.
Qed.

(** Two loops in sequence. *)
Lemma run_outcome_seq (p : string * string * Z * Z)
    (m : M W (list Row)) (k : list Row -> M W (list Row))
    (df_data : list Row) (w : W) :
  run_outcome W http_get p w df_data (m w) ->
  (forall d w1, run_outcome W http_get p w1 d (k d w1)) ->
  run_outcome W http_get p w df_data (bindM m k w).
Proof.
  intros (log1 & Hc1 & H1) Hk. unfold bindM.
  destruct (m w) as [[d1 | e] w1]; cbn [fst snd] in *.
  - destruct H1 as [(Hcov1 & rows1 & Hd1 & Hr1 & Hp1) | (_ & Habs)];
      [| discriminate].
    inversion Hd1; subst d1.
    destruct (Hk (df_data ++ rows1)%list w1) as (log2 & Hc2 & H2).
    exists (log1 ++ log2)%list.
    split; [eapply conversation_app; eassumption |].
    destruct H2 as [(Hcov2 & rows2 & Hd2 & Hr2 & Hp2) | (Hstop & Hraise)].
    + left. split; [apply all_covered_app; assumption |].
      exists (rows1 ++ rows2)%list. rewrite app_assoc.
      split; [exact Hd2 | split].
      * apply Forall2_app; assumption.
      * apply Forall_app. split; assumption.
    + right. split; [apply stops_after_covered; assumption | exact Hraise].
  - exists log1. split; [exact Hc1 |].
    destruct H1 as [(_ & rows1 & Habs & _) | H1]; [discriminate | right; exact H1].
Qed.

Lemma fetch_codes_any (p : string * string * Z * Z)
    (entity_type name meter_id : string) (codes : list obis_info) :
  let '(start, stop, y, m) := p in
  forall df_data w,
    run_outcome W http_get p w df_data
      (fetch_codes W http_get y m start stop entity_type name meter_id codes
         df_data w).
Proof.
  destruct p as [[[start stop] y] m].
  induction codes as [| c rest IH]; intros df_data w.
  - exists []. simpl. split; [constructor |]. left.
    split; [constructor |]. exists []. rewrite app_nil_r.
    repeat split; constructor.
  - pose proof (fetch_row_any (start, stop, y, m) entity_type name meter_id
                  c w) as Hrow. cbv beta iota zeta in Hrow.
    destruct Hrow as (resp & w1 & Hget & [(Hh & row & Hrow & Hrec & Hper) |
                                          (Hh & Hrow)]).
    + destruct (IH (df_data ++ [row])%list w1) as (log & Hconv & Hout).
      simpl. unfold bindM at 1. rewrite Hrow.
      exists ((mk_request meter_id (info_code c) start stop, resp) :: log).
      split; [econstructor; eassumption |].
      destruct Hout as [(Hcov & rows & Hd & Hr & Hp) | (Hstop & Hraise)].
      * left. split; [constructor; assumption |].
        exists (row :: rows). rewrite <- app_assoc in Hd.
        split; [exact Hd | split; constructor; assumption].
      * right. split; [| exact Hraise].
        apply (stops_after_covered [_] log); [| exact Hstop].
        constructor; [exact Hh | constructor].
    + simpl. unfold bindM at 1. rewrite Hrow.
      exists [(mk_request meter_id (info_code c) start stop, resp)].
      split; [econstructor; [exact Hget | constructor] |].
      right. split; [| reflexivity].
      exists [], (mk_request meter_id (info_code c) start stop, resp).
      split; [reflexivity | split; [constructor | exact Hh]].
Qed.

Lemma fetch_entities_any (p : string * string * Z * Z)
    (entity_type : string) (codes : list obis_info)
    (roster : list (string * string)) :
  let '(start, stop, y, m) := p in
  forall df_data w,
    run_outcome W http_get p w df_data
      (fetch_entities W http_get y m start stop entity_type roster codes
         df_data w).
Proof.
  destruct p as [[[start stop] y] m].
  induction roster as [| [name meter_id] rest IH]; intros df_data w.
  - exists []. simpl. split; [constructor |]. left.
    split; [constructor |]. exists []. rewrite app_nil_r.
    repeat split; constructor.
  - simpl. apply run_outcome_seq.
    + apply (fetch_codes_any (start, stop, y, m)).
    + intros d w1. apply IH.
Qed.

(** X7: what a run of [fetch_all_data] does on any service.  When the
    period does not resolve it raises at once, with no request.  Otherwise
    it holds a conversation with the service, and either every response is
    one the handler covers and the frame mirrors the conversation, record by
    record and in order (each request asks for its record's meter and
    code over the resolved dates; a record is available exactly when its
    response is a 200 whose JSON object has a non-empty series, takes its
    fields from the first point, and is blank otherwise; every record
    carries the resolved period), or the conversation stops at the first
    response the handler does not cover and the run raises, with no frame. *)
Theorem fetch_all_data_on_any_service
    (self : fetcher) (today : datetime) (year month : option Z) (w : W) :
  match calculate_month_dates today year month with
  | Raise e =>
      fetch_all_data W http_get self today year month w = (Raise e, w)
  | Ok p =>
      exists log w',
        conversation W http_get w log w' /\
        ((all_covered log /\
          exists df,
            fetch_all_data W http_get self today year month w = (Ok df, w') /\
            Forall2 records df log /\ Forall (in_period p) df) \/
         (stops_at_uncovered log /\
          fetch_all_data W http_get self today year month w =
            (Raise ShapeError, w')))
  end.
Proof.
  unfold fetch_all_data.
  destruct (calculate_month_dates today year month) as [p | e] eqn:Hp;
    [| reflexivity].
  unfold bindM at 1. unfold lift.
  pose proof (fetch_entities_any p "consumer" (consumption_codes self)
                (combine (consumers_names (fetcher_config self))
                         (consumers_smartmeters (fetcher_config self)))) as H1.
  pose proof (fetch_entities_any p "producer" (production_codes self)
                (combine (producers_names (fetcher_config self))
                         (producers_smartmeters (fetcher_config self)))) as H2.
  destruct p as [[[start stop] y] m].
  match goal with
  | |- exists log w', _ /\ (_ \/ (_ /\ ?run = _)) =>
      assert (Hout : run_outcome W http_get (start, stop, y, m) w [] run)
  end.
  { apply run_outcome_seq; [apply H1 |]. intros d w1.
    apply run_outcome_seq; [apply H2 |]. intros d2 w2.
    exists []. split; [constructor |]. left. split; [constructor |].
    exists []. rewrite app_nil_r. repeat split; constructor. }
  destruct Hout as (log & Hconv & Hout).
  match type of Hconv with
  | conversation _ _ _ _ (snd ?run) => destruct run as [res w'] eqn:Erun
  end.
  cbn [fst snd] in *. exists log, w'. split; [exact Hconv |].
  destruct Hout as [(Hcov & rows & -> & Hr & Hper) | (Hstop & ->)].
  - left. split; [exact Hcov |]. exists rows. auto.
  - right. auto.
Qed.

End ConversationFacts.

(** ** The catalogue as loaded *)

Section SublistFacts.

Import Catalog Sublists.

Lemma first_digit_outcome (s : string) :
  (exists d, first_digit s = Ok d /\ char_after_first_colon s = Some d /\
             Ascii.eqb d ":" = false) \/
  (first_digit s = Raise IndexError /\ unreadable s).
Proof.
  destruct (first_digit s) as [d | e] eqn:E.
  - left. exists d. apply first_digit_char in E. tauto.
  - right.
    assert (He : e = IndexError).
    { unfold first_digit, list_index, string_index in E.
      destruct (nth_error (split ":" s) 1) as [seg |]; simpl in E;
        [| congruence].
      destruct (String.get 0 seg); congruence. }
    subst e. split; [reflexivity |]. unfold unreadable.
    destruct (char_after_first_colon s) as [d |] eqn:Ec; [| now left].
    destruct (Ascii.eqb d ":") eqn:Ed.
    + apply Ascii.eqb_eq in Ed. subst d. now right.
    + assert (Hok : first_digit s = Ok d) by (apply first_digit_char; auto).
      congruence.
Qed.

Lemma readable_not_unreadable (s : string) (d : ascii) :
  first_digit s = Ok d -> ~ unreadable s.
Proof.
  intros H. apply first_digit_char in H as [Hc Hd].
  intros [Hn | Hn]; rewrite Hc in Hn; [discriminate |].
  inversion Hn; subst. discriminate.
Qed.

Lemma load_codes_sublists (entries : list obis_info) :
  forall consumption production consumption' production',
    load_codes entries consumption production = Ok (consumption', production') ->
    consumption' = (consumption ++ filter (has_class Consumption) entries)%list /\
    production' = (production ++ filter (has_class Production) entries)%list.
Proof.
  induction entries as [| e rest IH]; intros c p c' p' H.
  - simpl in H. inversion H; subst. rewrite !app_nil_r. auto.
  - simpl in H. destruct (first_digit (info_code e)) as [d |] eqn:Hd;
      simpl in H; [| discriminate].
    pose proof (first_digit_classify _ _ Hd) as Hc.
    unfold category_of_digit in Hc. cbn [filter].
    assert (E : forall k, has_class k e =
                match classify (info_code e) with
                | Some k' => category_eqb k k'
                | None => false
                end) by reflexivity.
    rewrite !E, Hc.
    destruct (Ascii.eqb d "1"); [| destruct (Ascii.eqb d "2")];
      destruct (IH _ _ _ _ H) as [-> ->]; cbn [category_eqb];
      rewrite <- ?app_assoc; auto.
Qed.

(** X8: the two code lists of a loaded catalogue are the entries of the
    configuration whose code is classified as consumption, respectively
    production, in the order and with the multiplicity of the
    configuration; an entry whose digit is neither 1 nor 2 is in neither
    list. *)
Theorem init_keeps_configuration_order (cfg : config) (f : fetcher) :
  init cfg = Ok f ->
  consumption_codes f = filter (has_class Consumption) (obiscode cfg) /\
  production_codes f = filter (has_class Production) (obiscode cfg) /\
  forall obis_info,
    classify (info_code obis_info) = None ->
    ~ In obis_info (consumption_codes f) /\ ~ In obis_info (production_codes f).
Proof.
  intros H. unfold init in H.
  destruct (load_codes (obiscode cfg) [] []) as [[c p] |] eqn:Hl;
    simpl in H; [| discriminate].
  inversion H; subst f. cbn [consumption_codes production_codes].
  destruct (load_codes_sublists _ _ _ _ _ Hl) as [-> ->]. simpl.
  split; [reflexivity | split; [reflexivity |]].
  intros x Hx. split; intros Hin; apply filter_In in Hin as [_ Hin];
    unfold has_class in Hin; rewrite Hx in Hin; discriminate.
Qed.

(** X9: building the fetcher fails, with an index error, exactly when some
    configured code has no readable character after its first colon: no
    colon at all, nothing after the colon, or another colon right after it. *)
Theorem init_fails_on_unreadable_code (cfg : config) :
  init cfg = Raise IndexError <->
  Exists (fun obis_info => unreadable (info_code obis_info)) (obiscode cfg).
Proof.
  unfold init.
  assert (H : forall entries c p,
            (load_codes entries c p = Raise IndexError <->
             Exists (fun i => unreadable (info_code i)) entries) /\
            (forall e, load_codes entries c p = Raise e -> e = IndexError)).
  { induction entries as [| x rest IH]; intros c p.
    - simpl. split; [split; [discriminate | intros H; inversion H] | discriminate].
    - simpl.
      destruct (first_digit_outcome (info_code x))
        as [(d & Hd & Hc & Hcolon) | [Hd Hu]]; rewrite Hd; cbn [bind].
      + assert (Hnot : ~ unreadable (info_code x))
          by (apply (readable_not_unreadable _ d Hd)).
        destruct (Ascii.eqb d "1"); [| destruct (Ascii.eqb d "2")];
          (split; [rewrite (proj1 (IH _ _)); split;
                     [intros H; now right
                     | intros H; inversion H; [contradiction | assumption]]
                  | apply (proj2 (IH _ _))]).
      + split; [split; [intros _; now left | reflexivity] | congruence]. }
  destruct (load_codes (obiscode cfg) [] []) as [[c p] |] eqn:Hl; cbn [bind].
  - split; [discriminate |]. intros Hex.
    apply (proj1 (H (obiscode cfg) [] [])) in Hex. congruence.
  - destruct (H (obiscode cfg) [] []) as [Hiff Herr].
    rewrite <- Hiff, Hl. rewrite (Herr e Hl). tauto.
Qed.

End SublistFacts.

(** ** Every resolved period *)

Section PeriodPostcondition.

Import Period.

Lemma days_in_month_bounds (y m : Z) :
  1 <= m <= 12 -> 28 <= days_in_month y m <= 31.
Proof.
  intros Hm. unfold days_in_month.
  assert (Hcases : m = 1 \/ m = 2 \/ m = 3 \/ m = 4 \/ m = 5 \/ m = 6 \/
                   m = 7 \/ m = 8 \/ m = 9 \/ m = 10 \/ m = 11 \/ m = 12) by lia.
  destruct Hcases as [-> | [-> | [-> | [-> | [-> | [-> | [-> | [-> | [-> | [-> |
                     [-> | ->]]]]]]]]]]]; simpl; try lia.
  destruct (isleap y); lia.
Qed.

Lemma monthrange_ok (y m d : Z) :
  monthrange y m = Ok d -> 1 <= m <= 12 /\ d = days_in_month y m.
Proof.
  unfold monthrange.
  destruct ((1 <=? m) && (m <=? 12)) eqn:E; simpl; [| discriminate].
  intros H. inversion H. apply andb_true_iff in E as [E1 E2].
  apply Z.leb_le in E1, E2. auto.
Qed.

(** The dates of a returned period. *)
Lemma calculate_month_dates_dates
    (today : datetime) (year month : option Z) (s e : string) (y m : Z) :
  calculate_month_dates today year month = Ok (s, e, y, m) ->
  1 <= m <= 12 /\
  s = iso_date y m 1 /\ e = iso_date y m (days_in_month y m).
Proof.
  unfold calculate_month_dates. intros H.
  assert (Hlast : forall y1 m1,
            bind (monthrange y1 m1)
              (fun last_day =>
                 Ok (iso_date y1 m1 1, iso_date y1 m1 last_day, y1, m1)) =
            Ok (s, e, y, m) ->
            1 <= m <= 12 /\
            s = iso_date y m 1 /\ e = iso_date y m (days_in_month y m)).
  { intros y1 m1 H1.
    destruct (monthrange y1 m1) as [d |] eqn:Hd; cbn [bind] in H1;
      [| discriminate].
    apply monthrange_ok in Hd as [Hm ->]. inversion H1; subst. auto. }
  destruct month as [m0 |]; cbn [bind] in H; [apply (Hlast _ _ H) |].
  destruct (minus_one_day (replace_day today 1)) as [d |]; cbn [bind] in H;
    [| discriminate].
  destruct ((dt_month d =? 12) && is_none year); cbn [bind] in H;
    apply (Hlast _ _ H).
Qed.

(** X10: whatever the clock and the arguments, a period that is returned is
    a month of the calendar with its first and its last day: the month is
    between 1 and 12, the end date is day 28 to 31 of it, a year that was
    supplied is returned as it is (also when the month defaults to
    December) and so is a month that was supplied. *)
Theorem calculate_month_dates_postcondition
    (today : datetime) (year month : option Z) (s e : string) (y m : Z) :
  calculate_month_dates today year month = Ok (s, e, y, m) ->
  1 <= m <= 12 /\
  (s, e, y, m) = period_of y m /\
  28 <= days_in_month y m <= 31 /\
  (forall y0, year = Some y0 -> y = y0) /\
  (forall m0, month = Some m0 -> m = m0).
Proof.
  unfold calculate_month_dates. intros H.
  assert (Hcore : exists y1 : option Z,
            bind (monthrange (match y1 with None => dt_year today | Some v => v end) m)
              (fun last_day =>
                 Ok (iso_date (match y1 with None => dt_year today | Some v => v end) m 1,
                     iso_date (match y1 with None => dt_year today | Some v => v end) m last_day,
                     match y1 with None => dt_year today | Some v => v end, m))
            = Ok (s, e, y, m) /\
            (forall y0, year = Some y0 -> y1 = Some y0) /\
            (forall m0, month = Some m0 -> m = m0)).
  { destruct month as [m0 |]; cbn [bind] in H.
    - exists year.
      destruct (monthrange _ m0) as [d |] eqn:Hd; cbn [bind] in H;
        [| discriminate].
      inversion H; subst. rewrite Hd. cbn [bind].
      split; [reflexivity | split; [auto | intros ? E; inversion E; auto]].
    - destruct (minus_one_day (replace_day today 1)) as [d |]; cbn [bind] in H;
        [| discriminate].
      destruct ((dt_month d =? 12) && is_none year) eqn:Eb; cbn [bind] in H.
      + exists (Some (dt_year today - 1)).
        destruct (monthrange _ (dt_month d)) as [ld |] eqn:Hd; cbn [bind] in H;
          [| discriminate].
        inversion H; subst. rewrite Hd. cbn [bind].
        split; [reflexivity | split; [| discriminate]].
        intros y0 Hy0. subst year. rewrite andb_false_r in Eb. discriminate.
      + exists year.
        destruct (monthrange _ (dt_month d)) as [ld |] eqn:Hd; cbn [bind] in H;
          [| discriminate].
        inversion H; subst. rewrite Hd. cbn [bind].
        split; [reflexivity | split; [auto | discriminate]]. }
  destruct Hcore as (y1 & Hres & Hyear & Hmonth).
  destruct (monthrange _ m) as [d |] eqn:Hd; cbn [bind] in Hres; [| discriminate].
  apply monthrange_ok in Hd as [Hm Hdays].
  inversion Hres as [[Hs He Hy]]. subst d.
  split; [assumption | split; [| split; [| split]]].
  - unfold period_of. rewrite Hy. reflexivity.
  - apply days_in_month_bounds. assumption.
  - intros y0 Hy0. rewrite (Hyear y0 Hy0) in Hy. congruence.
  - assumption.
Qed.

End PeriodPostcondition.

(** ** The dates sent to the service *)

Section DateShapeFacts.

Import Period DateShape.

Lemma forallb_range (P : Z -> bool) (n : Z) :
  forallb (fun k => P (Z.of_nat k)) (seq 0 (Z.to_nat n)) = true ->
  forall z, 0 <= z < n -> P z = true.
Proof.
  intros H z Hz. rewrite forallb_forall in H.
  specialize (H (Z.to_nat z)). rewrite Z2Nat.id in H by lia. apply H.
  apply in_seq. lia.
Qed.

Lemma four_digit_year (y : Z) :
  0 <= y <= 9999 -> digits 4 (format_0d 4 y) = true.
Proof.
  intros Hy. apply (forallb_range (fun z => digits 4 (format_0d 4 z)) 10000).
  - vm_compute. reflexivity.
  - lia.
Qed.

Lemma two_digit_field (d : Z) :
  0 <= d <= 99 -> digits 2 (format_0d 2 d) = true.
Proof.
  intros Hd. apply (forallb_range (fun z => digits 2 (format_0d 2 z)) 100).
  - vm_compute. reflexivity.
  - lia.
Qed.

Lemma iso_shaped_parts (a b c : string) :
  digits 4 a = true -> digits 2 b = true -> digits 2 c = true ->
  iso_shaped (a ++ "-" ++ b ++ "-" ++ c)%string = true.
Proof.
  unfold digits. intros Ha Hb Hc.
  apply andb_true_iff in Ha as [La Da], Hb as [Lb Db], Hc as [Lc Dc].
  apply Nat.eqb_eq in La, Lb, Lc.
  destruct a as [| a1 [| a2 [| a3 [| a4 [| a5 ar]]]]]; try discriminate La.
  destruct b as [| b1 [| b2 [| b3 br]]]; try discriminate Lb.
  destruct c as [| c1 [| c2 [| c3 cr]]]; try discriminate Lc.
  unfold iso_shaped, digits.
  cbn [String.append String.length String.substring String.get Nat.eqb andb].
  rewrite Ascii.eqb_refl. cbn [andb].
  rewrite Da, Db, Dc. reflexivity.
Qed.

(** X11: for a year from 0 to 9999 the two dates of a resolved period, as
    they are sent to the service, have the shape YYYY-MM-DD: four digits, a
    hyphen, two digits, a hyphen, two digits. *)
Theorem resolved_dates_are_iso
    (today : datetime) (year month : option Z) (s e : string) (y m : Z) :
  calculate_month_dates today year month = Ok (s, e, y, m) ->
  0 <= y <= 9999 ->
  iso_shaped s = true /\ iso_shaped e = true.
Proof.
  intros H Hy.
  destruct (calculate_month_dates_dates _ _ _ _ _ _ _ H) as (Hm & -> & ->).
  pose proof (days_in_month_bounds y m Hm) as Hd.
  unfold iso_date. split; apply iso_shaped_parts;
    try (apply four_digit_year; lia); apply two_digit_field; lia.
Qed.

End DateShapeFacts.

(** ** The wide table *)

Section WideTableFacts.

Import Catalog Frame Wide WideParts.

Lemma dict_get_map (f : string -> cell) (cols : list string) (col : string) :
  In col cols -> dict_get col (map (fun c => (c, f c)) cols) = Some (f col).
Proof.
  induction cols as [| c rest IH]; intros Hin; [destruct Hin |].
  simpl. destruct (String.eqb_spec c col) as [-> | Hne]; [reflexivity |].
  destruct Hin as [-> | Hin]; [congruence | auto].
Qed.

Lemma cell_or_nan_align (cols : list string) (d : dict cell) (col : string) :
  In col cols -> cell_or_nan col (align cols d) = cell_or_nan col d.
Proof.
  intros Hin. unfold align. unfold cell_or_nan at 1.
  rewrite (dict_get_map (fun c => cell_or_nan c d) cols col Hin). reflexivity.
Qed.

Lemma dict_get_set_same {V} (k : string) (v : V) (d : dict V) :
  dict_get k (dict_set k v d) = Some v.
Proof.
  induction d as [| [k' v'] rest IH]; simpl.
  - rewrite String.eqb_refl. reflexivity.
  - destruct (String.eqb k' k) eqn:E; simpl; rewrite E; [reflexivity | exact IH].
Qed.

Lemma dict_get_set_other {V} (k k' : string) (v : V) (d : dict V) :
  k <> k' -> dict_get k (dict_set k' v d) = dict_get k d.
Proof.
  intros Hne. induction d as [| [k0 v0] rest IH]; simpl.
  - destruct (String.eqb_spec k' k); [congruence | reflexivity].
  - destruct (String.eqb_spec k0 k') as [-> | H0]; simpl.
    + destruct (String.eqb_spec k' k); [congruence | reflexivity].
    + destruct (String.eqb k0 k); [reflexivity | exact IH].
Qed.

Lemma keys_dict_set {V} (k k' : string) (v : V) (d : dict V) :
  In k (map fst (dict_set k' v d)) <-> k = k' \/ In k (map fst d).
Proof.
  induction d as [| [k0 v0] rest IH]; simpl.
  - intuition congruence.
  - destruct (String.eqb_spec k0 k') as [-> | H0]; simpl.
    + intuition congruence.
    + rewrite IH. intuition congruence.
Qed.

(** A fold of guarded assignments, as it builds the two trailer rows. *)
Lemma fold_set_keys (cond : string -> bool) (g : string -> cell)
    (cs : list string) :
  forall init k,
    In k (map fst (fold_left (fun row col =>
                      if cond col then dict_set col (g col) row else row)
                     cs init)) ->
    In k cs \/ In k (map fst init).
Proof.
  induction cs as [| c rest IH]; intros init k H; simpl in H; [now right |].
  apply IH in H as [H | H]; [left; now right |].
  destruct (cond c); [| now right].
  apply keys_dict_set in H as [-> | H]; [left; now left | now right].
Qed.

Lemma fold_set_other (cond : string -> bool) (g : string -> cell)
    (cs : list string) (col : string) :
  ~ In col cs ->
  forall init,
    dict_get col (fold_left (fun row c =>
                    if cond c then dict_set c (g c) row else row) cs init) =
    dict_get col init.
Proof.
  induction cs as [| c rest IH]; intros Hnot init; simpl; [reflexivity |].
  rewrite IH by (intros H; apply Hnot; now right).
  destruct (cond c); [| reflexivity].
  apply dict_get_set_other. intros ->. apply Hnot. now left.
Qed.

Lemma fold_set_same (cond : string -> bool) (g : string -> cell)
    (cs : list string) (col : string) :
  In col cs -> cond col = true ->
  forall init,
    dict_get col (fold_left (fun row c =>
                    if cond c then dict_set c (g c) row else row) cs init) =
    Some (g col).
Proof.
  induction cs as [| c rest IH]; intros Hin Hcond init; [destruct Hin |].
  simpl. destruct (in_dec string_dec col rest) as [Hrest | Hrest].
  - apply IH; assumption.
  - rewrite fold_set_other by assumption.
    destruct Hin as [-> | Hin]; [| contradiction].
    rewrite Hcond. apply dict_get_set_same.
Qed.


Lemma cell_or_nan_set (k col : string) (v : cell) (d : dict cell) :
  cell_or_nan col (dict_set k v d) =
  if String.eqb k col then v else cell_or_nan col d.
Proof.
  unfold cell_or_nan. destruct (String.eqb_spec k col) as [-> | Hne].
  - rewrite dict_get_set_same. reflexivity.
  - rewrite dict_get_set_other by congruence. reflexivity.
Qed.

Lemma pivot_fold_cell (col : string) (group : list Row) :
  forall d0,
    cell_or_nan col
      (fold_left (fun row record =>
                    dict_set (obis_code record) (cell_of_value (value record)) row)
         group d0) =
    fold_left (fun c r => if String.eqb (obis_code r) col
                          then cell_of_value (value r) else c)
      group (cell_or_nan col d0).
Proof.
  induction group as [| r rest IH]; intros d0; simpl; [reflexivity |].
  rewrite IH, cell_or_nan_set. reflexivity.
Qed.

Lemma pivot_fold_keys (k : string) (group : list Row) :
  forall d0,
    In k (map fst (fold_left (fun row record =>
                     dict_set (obis_code record) (cell_of_value (value record)) row)
                    group d0)) <->
    In k (map fst d0) \/ exists r, In r group /\ obis_code r = k.
Proof.
  induction group as [| r rest IH]; intros d0; simpl.
  - split; [auto | intros [H | (r & [] & _)]; assumption].
  - rewrite IH, keys_dict_set. split.
    + intros [[-> | H] | (r' & Hr' & Hk)]; eauto.
    + intros [H | (r' & [-> | Hr'] & Hk)]; eauto.
Qed.

Lemma not_base_col (col : string) :
  ~ In col base_cols ->
  col <> "entity_type" /\ col <> "name" /\ col <> "metering_point" /\
  col <> "year" /\ col <> "month".
Proof.
  unfold base_cols. simpl. intros H. repeat split; intros ->; apply H; auto 6.
Qed.

Lemma pivot_record_cell (g : key3 * list Row) (col : string) :
  ~ In col base_cols ->
  cell_or_nan col (pivot_record g) = group_cell col (snd g).
Proof.
  intros Hb. apply not_base_col in Hb as (H1 & H2 & H3 & H4 & H5).
  destruct g as [[[et name] meter] group]. unfold pivot_record, group_cell.
  rewrite pivot_fold_cell. cbn [snd]. f_equal.
  unfold cell_or_nan. cbn [dict_get].
  destruct (String.eqb_spec "entity_type" col); [congruence |].
  destruct (String.eqb_spec "name" col); [congruence |].
  destruct (String.eqb_spec "metering_point" col); [congruence |].
  destruct (String.eqb_spec "year" col); [congruence |].
  destruct (String.eqb_spec "month" col); [congruence |].
  reflexivity.
Qed.

Lemma pivot_record_keys (g : key3 * list Row) (k : string) :
  In k (map fst (pivot_record g)) <->
  In k base_cols \/ exists r, In r (snd g) /\ obis_code r = k.
Proof.
  destruct g as [[[et name] meter] group]. unfold pivot_record.
  rewrite pivot_fold_keys. unfold base_cols. simpl. intuition.
Qed.

Lemma In_groupby {K} (eqb leb : K -> K -> bool)
    (eqb_eq : forall a b, eqb a b = true <-> a = b)
    (key : Row -> K) (df : DataFrame) (g : K * list Row) :
  In g (groupby eqb leb key df) <->
  exists r, In r df /\ g = (key r, filter (fun r' => eqb (key r') (key r)) df).
Proof.
  unfold groupby. rewrite in_map_iff. split.
  - intros (k & <- & Hk). apply (proj1 (In_sort _ _ _)) in Hk.
    apply (proj1 (In_distinct eqb eqb_eq _ _)) in Hk.
    apply in_map_iff in Hk as (r & <- & Hr). eauto.
  - intros (r & Hr & ->). exists (key r). split; [reflexivity |].
    apply In_sort. apply (In_distinct eqb eqb_eq). apply in_map. exact Hr.
Qed.

Lemma string_eqb_eq (a b : string) : String.eqb a b = true <-> a = b.
Proof. apply String.eqb_eq. Qed.

Lemma code_col_not_base (col : string) :
  is_code_col col = true -> ~ In col base_cols.
Proof.
  intros H Hin. unfold base_cols in Hin. simpl in Hin.
  assert (Hp : String.prefix "1-" col = true).
  { unfold is_code_col, is_consumption_col, is_production_col in H.
    destruct (String.prefix "1-" col); [reflexivity | discriminate]. }
  destruct Hin as [<- | [<- | [<- | [<- | [<- | []]]]]]; discriminate.
Qed.


Lemma concat_record_columns (t : table) (record : dict cell) (col : string) :
  In col (columns (concat_record t record)) <->
  In col (columns t) \/ In col (map fst record).
Proof.
  unfold concat_record. cbn [columns].
  rewrite (In_distinct String.eqb string_eqb_eq), in_app_iff. reflexivity.
Qed.

Lemma concat_record_rows (t : table) (record : dict cell) :
  rows (concat_record t record) =
  map (align (columns (concat_record t record))) (rows t ++ [record]).
Proof. reflexivity. Qed.

Lemma from_records_columns (records : list (dict cell)) (col : string) :
  In col (columns (from_records records)) <->
  exists d, In d records /\ In col (map fst d).
Proof.
  unfold from_records. cbn [columns].
  rewrite (In_distinct String.eqb string_eqb_eq), in_flat_map. reflexivity.
Qed.

Lemma existsb_eqb_In (col : string) (l : list string) :
  In col l -> existsb (String.eqb col) l = true.
Proof.
  intros H. apply existsb_exists. exists col. split; [assumption |].
  apply String.eqb_refl.
Qed.

Lemma reindex_cell (old : list string) (cols : list string) (d : dict cell)
    (col : string) :
  In col cols -> In col old ->
  cell_or_nan col
    (map (fun c => (c, if existsb (String.eqb c) old
                       then cell_or_nan c d else Int 0)) cols) =
  cell_or_nan col d.
Proof.
  intros Hc Ho. unfold cell_or_nan at 1.
  rewrite (dict_get_map (fun c => if existsb (String.eqb c) old
                                  then cell_or_nan c d else Int 0) cols col Hc).
  rewrite (existsb_eqb_In col old Ho). reflexivity.
Qed.

Lemma column_sum_cells (cols cols' : list string) (col : string) :
  forall data data' : list (dict cell),
    map (cell_or_nan col) data = map (cell_or_nan col) data' ->
    column_sum (mk_table cols data) col = column_sum (mk_table cols' data') col.
Proof.
  unfold column_sum. cbn [rows]. generalize 0%Q as acc. intros acc data.
  revert acc. induction data as [| d rest IH]; intros acc [| d' rest'] H;
    simpl in H; try discriminate; [reflexivity |].
  inversion H as [[Hd Hrest]]. simpl. rewrite Hd. apply IH. exact Hrest.
Qed.

(** The table as the composition of its construction steps. *)
Lemma wide_table_steps (cfg : config) (df : DataFrame) :
  existsb data_available df = true ->
  let wide1 := from_records (map pivot_record (metering_points df)) in
  let consumption_cols :=
    sort String.leb (filter is_consumption_col (columns wide1)) in
  let production_cols :=
    sort String.leb (filter is_production_col (columns wide1)) in
  let code_cols := (consumption_cols ++ production_cols)%list in
  let wide2 := reindex wide1 (base_cols ++ code_cols)%list in
  let totals_row :=
    fold_left (fun row col =>
                 if existsb (String.eqb col) (columns wide2)
                 then dict_set col (Num (round2 (column_sum wide2 col))) row
                 else row) code_cols (trailer "TOTAL") in
  let description_row :=
    fold_left (fun row col =>
                 dict_set col
                   (match dict_get col (obis_descriptions cfg) with
                    | Some description => Str description
                    | None => Str ""
                    end) row) code_cols (trailer "DESCRIPTION") in
  create_wide_format_dataframe cfg df =
  concat_record (concat_record wide2 totals_row) description_row.
Proof.
  intros H. unfold create_wide_format_dataframe. rewrite H. reflexivity.
Qed.

(** The columns of the first frame: the identity columns and the codes of
    the available records. *)
Lemma wide1_columns (df : DataFrame) (col : string) :
  existsb data_available df = true ->
  (In col (columns (from_records (map pivot_record (metering_points df)))) <->
   In col base_cols \/
   exists r, In r df /\ data_available r = true /\ obis_code r = col).
Proof.
  intros Hav. rewrite from_records_columns. split.
  - intros (d & Hd & Hcol). apply in_map_iff in Hd as (g & <- & Hg).
    apply pivot_record_keys in Hcol as [Hb | (r & Hr & Hc)]; [now left |].
    right. unfold metering_points in Hg.
    apply (In_groupby key3_eqb key3_leb key3_eqb_eq) in Hg as (r0 & _ & ->).
    cbn [snd] in Hr. apply filter_In in Hr as [Hr _].
    apply In_with_data in Hr as (r1 & Hr1 & Ha & ->). exists r1. auto.
  - assert (Hsome : forall r0, In r0 df -> data_available r0 = true ->
              exists g, In g (metering_points df) /\
                In (set_value r0 (round2_opt (value r0))) (snd g)).
    { intros r0 Hr0 Ha.
      assert (Hin : In (set_value r0 (round2_opt (value r0))) (with_data df)).
      { unfold with_data.
        apply (in_map (fun r => set_value r (round2_opt (value r)))).
        apply filter_In. auto. }
      eexists. split.
      - unfold metering_points.
        apply (In_groupby key3_eqb key3_leb key3_eqb_eq). eauto.
      - cbn [snd]. apply filter_In. split; [exact Hin |].
        apply key3_eqb_eq. reflexivity. }
    intros [Hb | (r & Hr & Ha & Hc)].
    + apply existsb_exists in Hav as (r0 & Hr0 & Ha0).
      destruct (Hsome r0 Hr0 Ha0) as (g & Hg & _).
      exists (pivot_record g). split; [apply in_map; exact Hg |].
      apply pivot_record_keys. now left.
    + destruct (Hsome r Hr Ha) as (g & Hg & Hin).
      exists (pivot_record g). split; [apply in_map; exact Hg |].
      apply pivot_record_keys. right. eexists. split; [exact Hin |]. exact Hc.
Qed.


Lemma trailer_keys (label : string) (k : string) :
  In k (map fst (trailer label)) <-> In k base_cols.
Proof. unfold trailer, base_cols. simpl. intuition. Qed.

Lemma Forall2_map_right {A B} (P : A -> B -> Prop) (f : A -> B) (l : list A) :
  (forall a, In a l -> P a (f a)) -> Forall2 P l (map f l).
Proof.
  induction l as [| a rest IH]; intros H; simpl; constructor.
  - apply H. now left.
  - apply IH. intros b Hb. apply H. now right.
Qed.

(** Labels in order of first appearance: a list without repetition is
    kept as it is, and labels it already holds add nothing. *)
Lemma distinct_app_known {K} (eqb : K -> K -> bool)
    (eqb_eq : forall a b, eqb a b = true <-> a = b) (l l' : list K) :
  NoDup l -> (forall k, In k l' -> In k l) ->
  distinct eqb (l ++ l') = l.
Proof.
  intros Hnd Hsub. unfold distinct. rewrite fold_left_app.
  set (step := fun acc k => if existsb (eqb k) acc then acc
                            else (acc ++ [k])%list).
  assert (Hfresh : forall ks acc, NoDup (acc ++ ks) ->
            fold_left step ks acc = (acc ++ ks)%list).
  { induction ks as [| k rest IH]; intros acc H; simpl.
    - rewrite app_nil_r. reflexivity.
    - assert (E : existsb (eqb k) acc = false).
      { destruct (existsb (eqb k) acc) eqn:E; [| reflexivity]. exfalso.
        apply existsb_exists in E as (x & Hx & Hk). apply eqb_eq in Hk.
        subst x. apply NoDup_remove_2 in H. apply H.
        apply in_or_app. now left. }
      unfold step at 2. rewrite E. rewrite IH.
      + rewrite <- app_assoc. reflexivity.
      + rewrite <- app_assoc. exact H. }
  assert (Hknown : forall ks acc, (forall k, In k ks -> In k acc) ->
            fold_left step ks acc = acc).
  { induction ks as [| k rest IH]; intros acc H; simpl; [reflexivity |].
    assert (E : existsb (eqb k) acc = true).
    { apply existsb_exists. exists k.
      split; [apply H; now left | now apply eqb_eq]. }
    unfold step at 2. rewrite E. apply IH. intros k' Hk'. apply H. now right. }
  rewrite (Hfresh l []) by exact Hnd. cbn [app]. apply Hknown. exact Hsub.
Qed.

Lemma NoDup_base_cols : NoDup base_cols.
Proof.
  unfold base_cols.
  repeat (constructor; [simpl; intuition discriminate |]). constructor.
Qed.

(** X12: for a frame with an available record, whose available records
    all have a value and none of whose codes is taken for a consumption and
    for a production code at once, the wide table is one data row per
    metering point followed by the TOTAL and the DESCRIPTION row.  Its
    columns are the five identity columns, then the codes of the available
    records that are taken for consumption codes, then those taken for
    production codes, each label once.  In a code column a data row holds
    the value of the point's last record of that code and NaN when the
    point has no such record; the TOTAL row holds the rounded sum of the
    column over the data rows, NaN skipped; the DESCRIPTION row holds the
    configured description of the code, or the empty string. *)
Theorem wide_table_contents (cfg : config) (df : DataFrame) :
  existsb data_available df = true ->
  pivotable df ->
  let t := create_wide_format_dataframe cfg df in
  (exists consumption production,
     columns t = (base_cols ++ consumption ++ production)%list /\
     NoDup (columns t) /\
     (forall col, In col consumption <->
                  block_codes is_consumption_col df col) /\
     (forall col, In col production <->
                  block_codes is_production_col df col)) /\
  exists data total description,
    rows t = (data ++ [total; description])%list /\
    (forall col,
       In col (columns t) <->
       In col base_cols \/
       (is_code_col col = true /\
        exists r, In r df /\ data_available r = true /\ obis_code r = col)) /\
    Forall2 (fun g d =>
               forall col, In col (columns t) -> ~ In col base_cols ->
                 dict_get col d = Some (group_cell col (snd g)))
      (metering_points df) data /\
    (forall col, In col (columns t) -> ~ In col base_cols ->
       dict_get col total = Some (Num (round2 (sum_of_column col data))) /\
       dict_get col description =
         Some (Str (match dict_get col (obis_descriptions cfg) with
                    | Some s => s
                    | None => ""
                    end))) /\
    dict_get "year" total = Some (Str "TOTAL") /\
    dict_get "year" description = Some (Str "DESCRIPTION").
Proof.
  intros Hav Hpiv t. subst t. rewrite (wide_table_steps cfg df Hav). cbv zeta.
  set (G := metering_points df).
  set (W1 := from_records (map pivot_record G)).
  set (C := sort String.leb (filter is_consumption_col (columns W1))).
  set (Pr := sort String.leb (filter is_production_col (columns W1))).
  set (CP := (C ++ Pr)%list).
  set (O := (base_cols ++ CP)%list).
  set (W2 := reindex W1 O).
  set (totals := fold_left _ CP (trailer "TOTAL")).
  set (desc := fold_left _ CP (trailer "DESCRIPTION")).
  set (W3 := concat_record W2 totals).
  set (t := concat_record W3 desc).
  assert (HCP : forall col, In col CP <->
                  is_code_col col = true /\ In col (columns W1)).
  { intros col. unfold CP, C, Pr, is_code_col.
    rewrite in_app_iff, !In_sort, !filter_In, orb_true_iff. tauto. }
  assert (HO : forall col, In col O <->
                 In col base_cols \/
                 (is_code_col col = true /\ In col (columns W1))).
  { intros col. unfold O. rewrite in_app_iff, HCP. reflexivity. }
  assert (Hktot : forall k, In k (map fst totals) -> In k O).
  { intros k Hk. unfold totals in Hk.
    apply fold_set_keys in Hk as [Hk | Hk]; unfold O; apply in_or_app;
      [now right | left; apply (trailer_keys "TOTAL"); exact Hk]. }
  assert (Hkdesc : forall k, In k (map fst desc) -> In k O).
  { intros k Hk.
    pose proof (fold_set_keys (fun _ => true)
                  (fun col => match dict_get col (obis_descriptions cfg) with
                              | Some description => Str description
                              | None => Str ""
                              end) CP (trailer "DESCRIPTION") k Hk) as [H | H];
      unfold O; apply in_or_app;
      [now right | left; apply (trailer_keys "DESCRIPTION"); exact H]. }
  assert (H3 : forall col, In col (columns W3) <-> In col O).
  { intros col. unfold W3. rewrite concat_record_columns.
    change (columns W2) with O. split; [intros [H | H]; auto | auto]. }
  assert (H4 : forall col, In col (columns t) <-> In col O).
  { intros col. unfold t. rewrite concat_record_columns, H3.
    split; [intros [H | H]; auto | auto]. }
  set (rrow := fun d : dict cell =>
                 map (fun c => (c, if existsb (String.eqb c) (columns W1)
                                   then cell_or_nan c d else Int 0)) O).
  set (F := fun g => align (columns t)
                       (align (columns W3)
                          (rrow (align (columns W1) (pivot_record g))))).
  assert (Hrows : rows t =
            (map F G ++ [align (columns t) (align (columns W3) totals);
                         align (columns t) desc])%list).
  { unfold t at 1. rewrite concat_record_rows. fold t.
    unfold W3 at 1. rewrite concat_record_rows. fold W3.
    change (rows W2) with (map rrow (map (align (columns W1)) (map pivot_record G))).
    rewrite !map_app, !map_map. cbn [map]. rewrite <- app_assoc. reflexivity. }
  assert (Hcell : forall g col, In col (columns t) -> ~ In col base_cols ->
            cell_or_nan col (F g) = group_cell col (snd g) /\
            dict_get col (F g) = Some (group_cell col (snd g))).
  { intros g col Hc Hb.
    assert (HcO : In col O) by (apply H4; exact Hc).
    assert (Hc1 : In col (columns W1)).
    { apply HO in HcO as [H | [_ H]]; [contradiction | exact H]. }
    assert (E : cell_or_nan col (align (columns W3)
                  (rrow (align (columns W1) (pivot_record g)))) =
                group_cell col (snd g)).
    { rewrite cell_or_nan_align by (apply H3; exact HcO).
      unfold rrow. rewrite reindex_cell by assumption.
      rewrite cell_or_nan_align by assumption.
      apply pivot_record_cell. exact Hb. }
    split.
    - unfold F. rewrite cell_or_nan_align by exact Hc. exact E.
    - unfold F, align at 1.
      rewrite (dict_get_map (fun c => cell_or_nan c _) (columns t) col Hc).
      rewrite E. reflexivity. }
  assert (HC : forall col, In col C <-> block_codes is_consumption_col df col).
  { intros col. unfold C, block_codes. rewrite In_sort, filter_In.
    unfold W1, G. rewrite (wide1_columns df col Hav). split.
    - intros [[Hb | Hr] Hc]; [exfalso | auto].
      apply (code_col_not_base col); [| exact Hb].
      unfold is_code_col. rewrite Hc. reflexivity.
    - intros [Hc Hr]. auto. }
  assert (HP : forall col, In col Pr <-> block_codes is_production_col df col).
  { intros col. unfold Pr, block_codes. rewrite In_sort, filter_In.
    unfold W1, G. rewrite (wide1_columns df col Hav). split.
    - intros [[Hb | Hr] Hc]; [exfalso | auto].
      apply (code_col_not_base col); [| exact Hb].
      unfold is_code_col. rewrite Hc. apply orb_true_r.
    - intros [Hc Hr]. auto. }
  assert (Hnd1 : NoDup (columns W1)).
  { unfold W1, from_records. cbn [columns].
    apply NoDup_distinct. exact string_eqb_eq. }
  assert (HndO : NoDup O).
  { unfold O, CP. apply NoDup_app; [exact NoDup_base_cols | |].
    - apply NoDup_app.
      + unfold C. apply NoDup_sort. apply NoDup_filter. exact Hnd1.
      + unfold Pr. apply NoDup_sort. apply NoDup_filter. exact Hnd1.
      + intros col Hc Hp. apply HC in Hc as [Hc (r & Hr & Ha & Hcode)].
        apply HP in Hp as [Hp _].
        destruct (Hpiv r Hr Ha) as [_ Hboth].
        rewrite Hcode, Hc, Hp in Hboth. discriminate Hboth.
    - intros col Hb Hcp. apply HCP in Hcp as [Hcode _].
      apply (code_col_not_base col Hcode Hb). }
  assert (E3 : columns W3 = O).
  { unfold W3, concat_record. cbn [columns]. change (columns W2) with O.
    apply (distinct_app_known String.eqb string_eqb_eq); assumption. }
  assert (E4 : columns t = O).
  { unfold t, concat_record. cbn [columns]. fold W3. rewrite E3.
    apply (distinct_app_known String.eqb string_eqb_eq); assumption. }
  split.
  { exists C, Pr. split; [exact E4 | split; [rewrite E4; exact HndO |]].
    split; assumption. }
  exists (map F G), (align (columns t) (align (columns W3) totals)),
    (align (columns t) desc).
  split; [exact Hrows | split; [| split; [| split; [| split]]]].
  - intros col. rewrite H4, HO. unfold W1, G.
    rewrite (wide1_columns df col Hav). split.
    + intros [H | [Hcode [H | H]]]; auto.
    + intros [H | [Hcode H]]; auto.
  - apply Forall2_map_right. intros g _ col Hc Hb.
    apply (Hcell g col Hc Hb).
  - intros col Hc Hb.
    assert (HcO : In col O) by (apply H4; exact Hc).
    assert (HcCP : In col CP).
    { unfold O in HcO. apply in_app_or in HcO as [H | H]; [contradiction | exact H]. }
    split.
    + unfold align at 1.
      rewrite (dict_get_map (fun c => cell_or_nan c _) (columns t) col Hc).
      rewrite cell_or_nan_align by (apply H3; exact HcO).
      unfold cell_or_nan, totals.
      rewrite (fold_set_same _ _ CP col HcCP)
        by (apply existsb_eqb_In; exact HcO).
      do 3 f_equal. unfold sum_of_column.
      assert (Hsum : map (cell_or_nan col) (rows W2) =
                     map (cell_or_nan col) (map F G)).
      { change (rows W2)
          with (map rrow (map (align (columns W1)) (map pivot_record G))).
        rewrite !map_map. apply map_ext. intros g.
        unfold F. rewrite cell_or_nan_align by exact Hc.
        rewrite cell_or_nan_align by (apply H3; exact HcO). reflexivity. }
      exact (column_sum_cells O [] col (rows W2) (map F G) Hsum).
    + unfold align at 1.
      rewrite (dict_get_map (fun c => cell_or_nan c _) (columns t) col Hc).
      unfold cell_or_nan, desc.
      rewrite (fold_set_same (fun _ => true)
                 (fun col => match dict_get col (obis_descriptions cfg) with
                             | Some description => Str description
                             | None => Str ""
                             end) CP col HcCP eq_refl (trailer "DESCRIPTION")).
      destruct (dict_get col (obis_descriptions cfg)); reflexivity.
  - assert (Hy : In "year" (columns t)).
    { apply H4. unfold O, base_cols. simpl. auto. }
    assert (Hn : ~ In "year" CP).
    { intros H. apply HCP in H as [H _]. apply code_col_not_base in H.
      apply H. unfold base_cols. simpl. auto. }
    unfold align at 1.
    rewrite (dict_get_map (fun c => cell_or_nan c _) (columns t) "year" Hy).
    rewrite cell_or_nan_align by (apply H3, H4; exact Hy).
    unfold cell_or_nan, totals. rewrite fold_set_other by exact Hn. reflexivity.
  - assert (Hy : In "year" (columns t)).
    { apply H4. unfold O, base_cols. simpl. auto. }
    assert (Hn : ~ In "year" CP).
    { intros H. apply HCP in H as [H _]. apply code_col_not_base in H.
      apply H. unfold base_cols. simpl. auto. }
    unfold align at 1.
    rewrite (dict_get_map (fun c => cell_or_nan c _) (columns t) "year" Hy).
    unfold cell_or_nan, desc.
    rewrite (fold_set_other (fun _ => true)
               (fun col => match dict_get col (obis_descriptions cfg) with
                           | Some description => Str description
                           | None => Str ""
                           end) CP "year" Hn (trailer "DESCRIPTION")).
    reflexivity.
Qed.

End WideTableFacts.

(** ** The files of [save_results] *)

Section FileFacts.

Import Period Files.

Lemma occurs_app (c : ascii) (a b : string) :
  occurs c (a ++ b)%string = occurs c a || occurs c b.
Proof.
  induction a as [| x a IH]; simpl; [reflexivity |].
  rewrite IH, orb_assoc. reflexivity.
Qed.

(** The last occurrence of the separator splits the string. *)
Lemma rpartition_some (sep : ascii) (s head tail : string) :
  rpartition sep s = Some (head, tail) ->
  s = (head ++ String sep tail)%string /\ occurs sep tail = false.
Proof.
  revert head tail. induction s as [| c s' IH]; intros head tail H;
    simpl in H; [discriminate |].
  destruct (rpartition sep s') as [[h t] |] eqn:E.
  - inversion H; subst. destruct (IH h tail eq_refl) as [-> Ht].
    split; [reflexivity | assumption].
  - destruct (Ascii.eqb c sep) eqn:Ec; [| discriminate].
    inversion H; subst. apply Ascii.eqb_eq in Ec. subst c.
    split; [reflexivity |].
    clear IH H. induction tail as [| x t IHt]; [reflexivity |].
    simpl in E. destruct (rpartition sep t) as [[h' t'] |]; [discriminate |].
    destruct (Ascii.eqb x sep) eqn:Ex; [discriminate |].
    simpl. rewrite Ex. apply IHt. reflexivity.
Qed.

Lemma rpartition_none (sep : ascii) (s : string) :
  occurs sep s = false -> rpartition sep s = None.
Proof.
  induction s as [| c s' IH]; simpl; [reflexivity |].
  intros H. apply orb_false_iff in H as [Hc Hs].
  rewrite (IH Hs), Hc. reflexivity.
Qed.

Lemma rpartition_last (sep : ascii) (head tail : string) :
  occurs sep tail = false ->
  rpartition sep (head ++ String sep tail) = Some (head, tail).
Proof.
  intros Ht. induction head as [| c h IH]; simpl.
  - rewrite (rpartition_none sep tail Ht), Ascii.eqb_refl. reflexivity.
  - rewrite IH. reflexivity.
Qed.

Lemma basename_no_slash (p : string) : occurs "/" (basename p) = false.
Proof.
  unfold basename. destruct (rpartition "/" p) as [[h t] |] eqn:E.
  - apply (rpartition_some _ _ _ _ E).
  - induction p as [| c p' IH]; [reflexivity |].
    simpl in E. destruct (rpartition "/" p') as [[h t] |]; [discriminate |].
    destruct (Ascii.eqb c "/") eqn:Ec; [discriminate |].
    simpl. rewrite Ec. apply IH. reflexivity.
Qed.

Lemma rsplit_dot_head_no_slash (s : string) :
  occurs "/" s = false -> occurs "/" (rsplit_dot_head s) = false.
Proof.
  intros H. unfold rsplit_dot_head.
  destruct (rpartition "." s) as [[h t] |] eqn:E; [| assumption].
  destruct (rpartition_some _ _ _ _ E) as [-> _].
  rewrite occurs_app in H. apply orb_false_iff in H. tauto.
Qed.

Lemma join_data (name : string) :
  String.prefix "/" name = false ->
  join data_folder name = ("data/" ++ name)%string.
Proof. intros H. unfold join. rewrite H. reflexivity. Qed.

Lemma prefix_slash (stem ext : string) :
  occurs "/" stem = false ->
  String.prefix "/" (stem ++ String "." ext) = false.
Proof.
  destruct stem as [| c s]; [reflexivity |]. simpl.
  intros H. apply orb_false_iff in H as [Hc _].
  destruct c as [b0 b1 b2 b3 b4 b5 b6 b7].
  destruct b0, b1, b2, b3, b4, b5, b6, b7; try reflexivity; discriminate Hc.
Qed.

Lemma output_files_of_stem (stem : string) :
  occurs "/" stem = false ->
  (join data_folder (stem ++ ".json"), join data_folder (stem ++ ".csv"),
   join data_folder (stem ++ ".xlsx"))%string =
  ("data/" ++ stem ++ ".json", "data/" ++ stem ++ ".csv",
   "data/" ++ stem ++ ".xlsx")%string.
Proof.
  intros H.
  rewrite !join_data by (apply prefix_slash; assumption). reflexivity.
Qed.

Lemma digits_no_slash (d : Decimal.uint) :
  occurs "/" (NilEmpty.string_of_uint d) = false.
Proof. induction d; simpl; auto. Qed.

Lemma zeros_no_slash (n : nat) : occurs "/" (zeros n) = false.
Proof. induction n; simpl; auto. Qed.

Lemma format_0d_no_slash (width : nat) (z : Z) :
  occurs "/" (format_0d width z) = false.
Proof.
  unfold format_0d, digits_of. rewrite !occurs_app, zeros_no_slash.
  assert (Hd : occurs "/" (NilZero.string_of_uint (N.to_uint (Z.abs_N z))) = false).
  { unfold NilZero.string_of_uint.
    destruct (N.to_uint (Z.abs_N z)) eqn:E; try reflexivity;
      rewrite <- E; apply digits_no_slash. }
  rewrite Hd. destruct (z <? 0); reflexivity.
Qed.

(** X13: the three files of [save_results] are written directly into the
    folder [data], whatever [--output] names and whatever the period is:
    each path is [data/], a name without a slash, and the extension. *)
Theorem output_files_stay_in_data_folder
    (year month : Z) (output_file : option string) :
  exists stem,
    occurs "/" stem = false /\
    output_files year month output_file =
      ("data/" ++ stem ++ ".json", "data/" ++ stem ++ ".csv",
       "data/" ++ stem ++ ".xlsx")%string.
Proof.
  destruct output_file as [o |]; unfold output_files.
  - exists (rsplit_dot_head (basename o)).
    assert (H : occurs "/" (rsplit_dot_head (basename o)) = false)
      by (apply rsplit_dot_head_no_slash, basename_no_slash).
    split; [exact H | apply output_files_of_stem; exact H].
  - exists ("energy_data_" ++ str year ++ "_" ++ format_0d 2 month)%string.
    assert (H : occurs "/" ("energy_data_" ++ str year ++ "_"
                            ++ format_0d 2 month)%string = false).
    { unfold str. rewrite !occurs_app, !format_0d_no_slash. reflexivity. }
    split; [exact H | apply output_files_of_stem; exact H].
Qed.

(** X14: of the path given as [--output] only the file name without its
    last extension is used: for a name [stem.ext] in any directory the files
    are [data/stem.json], [data/stem.csv] and [data/stem.xlsx]; a name
    without a dot is used whole. *)
Theorem output_files_use_the_stem (year month : Z) (dir stem ext : string) :
  occurs "/" stem = false -> occurs "/" ext = false -> occurs "." ext = false ->
  let files := ("data/" ++ stem ++ ".json", "data/" ++ stem ++ ".csv",
                "data/" ++ stem ++ ".xlsx")%string in
  output_files year month (Some (dir ++ "/" ++ stem ++ "." ++ ext)%string) = files /\
  output_files year month (Some (stem ++ "." ++ ext)%string) = files /\
  (occurs "." stem = false ->
   output_files year month (Some (dir ++ "/" ++ stem)%string) = files).
Proof.
  intros Hs He Hd files.
  assert (Hname : occurs "/" (stem ++ String "." ext) = false).
  { rewrite occurs_app. simpl. rewrite Hs, He. reflexivity. }
  assert (Hhead : rsplit_dot_head (stem ++ String "." ext) = stem).
  { unfold rsplit_dot_head. rewrite (rpartition_last "." stem ext Hd).
    reflexivity. }
  assert (Hfiles : forall o,
            rsplit_dot_head (basename o) = stem ->
            output_files year month (Some o) = files).
  { intros o Ho. unfold output_files. rewrite Ho.
    apply output_files_of_stem. exact Hs. }
  split; [| split].
  - apply Hfiles. unfold basename.
    change (dir ++ "/" ++ stem ++ "." ++ ext)%string
      with (dir ++ String "/" (stem ++ String "." ext))%string.
    rewrite (rpartition_last "/" dir _ Hname). exact Hhead.
  - apply Hfiles. unfold basename.
    change (stem ++ "." ++ ext)%string with (stem ++ String "." ext)%string.
    rewrite (rpartition_none "/" _ Hname). exact Hhead.
  - intros Hdot. apply Hfiles. unfold basename.
    change (dir ++ "/" ++ stem)%string with (dir ++ String "/" stem)%string.
    rewrite (rpartition_last "/" dir stem Hs).
    unfold rsplit_dot_head. rewrite (rpartition_none "." stem Hdot).
    reflexivity.
Qed.

End FileFacts.

(** ** The entry point *)

Section MainFacts.

Import Period Catalog Client Orchestrator Frame Store Main.

Variable W : Type.
Variable http_get : request -> W -> response * W.
Variable print_summary : DataFrame -> result unit.

(** X15: what a run does to the service and to the database does not depend
    on [--no-save], on [--output] or on whether the files can be written:
    with [--no-save] the database is written all the same. *)
Theorem main_effects_ignore_no_save
    (save_results save_results' : Z -> Z -> DataFrame -> option string -> result unit)
    (cfg : option config) (a a' : args) (today : datetime) (w : W) (st : db) :
  arg_year a = arg_year a' -> arg_month a = arg_month a' ->
  let run := main W http_get print_summary save_results cfg a today w st in
  let run' := main W http_get print_summary save_results' cfg a' today w st in
  snd (fst run) = snd (fst run') /\ snd run = snd run'.
Proof.
  intros Hy Hm. unfold main. rewrite <- Hy, <- Hm.
  destruct (parse_month_argument (arg_month a)) as [month |]; [| auto].
  destruct cfg as [cfg0 |]; [| auto].
  destruct (init cfg0) as [f |]; [| auto].
  destruct (fetch_all_data W http_get f today (arg_year a) month w)
    as [[df |] w']; [| auto].
  destruct (calculate_month_dates today (arg_year a) month)
    as [[[[s e] y] m] |]; [| auto].
  destruct (print_summary df); [| auto].
  destruct (save_to_database df y m st) as [[u |] st']; [| auto].
  destruct (arg_no_save a), (arg_no_save a');
    try destruct (save_results y m df (arg_output a));
    try destruct (save_results' y m df (arg_output a')); auto.
Qed.

Lemma save_without_available (df : DataFrame) (y m : Z) (st : db) :
  existsb data_available df = false -> snd (save_to_database df y m st) = st.
Proof.
  intros H. unfold save_to_database, with_data.
  assert (Hf : filter data_available df = []).
  { apply filter_nothing. intros r Hr.
    destruct (data_available r) eqn:E; [| reflexivity].
    assert (T : existsb data_available df = true)
      by (apply existsb_exists; eauto).
    congruence. }
  rewrite Hf. reflexivity.
Qed.

(** X16: a run changes the database only when the month was accepted, the
    catalogue was built, the whole fetch returned a frame with an available
    record and the summary was printed; the database is then the upsert of
    that frame for the resolved period, and nothing else was written. *)
Theorem main_writes_after_complete_fetch
    (save_results : Z -> Z -> DataFrame -> option string -> result unit)
    (cfg : option config) (a : args) (today : datetime) (w : W) (st : db) :
  snd (main W http_get print_summary save_results cfg a today w st) <> st ->
  exists month cfg0 f df w' s e y m,
    parse_month_argument (arg_month a) = Ok month /\
    cfg = Some cfg0 /\ init cfg0 = Ok f /\
    fetch_all_data W http_get f today (arg_year a) month w = (Ok df, w') /\
    calculate_month_dates today (arg_year a) month = Ok (s, e, y, m) /\
    print_summary df = Ok tt /\
    existsb data_available df = true /\
    snd (main W http_get print_summary save_results cfg a today w st) =
      upsert y m df st.
Proof.
  unfold main.
  destruct (parse_month_argument (arg_month a)) as [month |] eqn:Hmonth;
    [| intros H; exfalso; apply H; reflexivity].
  destruct cfg as [cfg0 |]; [| intros H; exfalso; apply H; reflexivity].
  destruct (init cfg0) as [f |] eqn:Hinit;
    [| intros H; exfalso; apply H; reflexivity].
  destruct (fetch_all_data W http_get f today (arg_year a) month w)
    as [[df |] w'] eqn:Hfetch; [| intros H; exfalso; apply H; reflexivity].
  destruct (calculate_month_dates today (arg_year a) month)
    as [[[[s e] y] m] |] eqn:Hdates;
    [| intros H; exfalso; apply H; reflexivity].
  destruct (print_summary df) as [[] |] eqn:Hps;
    [| intros H; exfalso; apply H; reflexivity].
  intros H.
  match type of H with
  | snd ?run <> _ => assert (Hdb : snd run = upsert y m df st)
  end.
  { unfold upsert. destruct (save_to_database df y m st) as [[u |] st'];
      [| reflexivity].
    destruct (arg_no_save a); [reflexivity |].
    destruct (save_results y m df (arg_output a)); reflexivity. }
  exists month, cfg0, f, df, w', s, e, y, m.
  repeat split; try assumption; try reflexivity.
  destruct (existsb data_available df) eqn:E; [reflexivity |].
  exfalso. apply H. rewrite Hdb. unfold upsert.
  apply save_without_available. exact E.
Qed.

End MainFacts.

(** ** The further properties at concrete inputs *)

Section MoreInstances.

Import Period Catalog Client Orchestrator Frame Store Ratios Wide.
Import Tables Conversation Sublists WideParts DateShape Files Main.
Import Examples Scenarios.

Lemma upsert_keeps_keys_unique_witness :
  unique_keys bought_only_db /\
  unique_keys (upsert 2024 3 two_meters_one_entity bought_only_db).
Proof.
  assert (H : unique_keys bought_only_db).
  { unfold unique_keys. vm_compute.
    split; (constructor; [intros [] | constructor]). }
  split; [exact H |].
  apply (upsert_keeps_keys_unique two_meters_one_entity 2024 3 bought_only_db H).
Defined.

Lemma upsert_leaves_other_periods_witness :
  filter (in_period_s 2024 3)
    (monthly_summaries (upsert 2024 4 two_meters_one_entity bought_only_db)) =
  filter (in_period_s 2024 3) (monthly_summaries bought_only_db).
Proof.
  apply (upsert_leaves_other_periods two_meters_one_entity 2024 4
           bought_only_db 2024 3).
  right. discriminate.
Defined.

Lemma march_readings_committable : committable march_readings 2024 3.
Proof.
  unfold committable. split; [vm_compute; discriminate |].
  split; [| split].
  - intros r [<- | [<- | [<- | []]]] Ha; try discriminate Ha;
      repeat split; discriminate.
  - vm_compute. constructor.
    + intros [H | []]. discriminate H.
    + constructor; [intros [] | constructor].
  - intros r1 r2 [<- | [<- | [<- | []]]] [<- | [<- | [<- | []]]]
      H1 H2 Hc; try discriminate H1; try discriminate H2;
      try discriminate Hc; split; reflexivity.
Qed.

Lemma march_readings_in_hundredths :
  forall r, In r march_readings -> data_available r = true ->
    in_hundredths (value r).
Proof.
  intros r [<- | [<- | [<- | []]]] Ha; try discriminate Ha;
    eexists; reflexivity.
Qed.

Lemma upsert_then_load_witness :
  fst (save_to_database march_readings 2024 3 bought_only_db) = Ok tt /\
  load_metering_data (upsert 2024 3 march_readings bought_only_db) 2024 3 =
    detail_rows (filter data_available march_readings).
Proof.
  destruct (upsert_then_load march_readings 2024 3 bought_only_db)
    as (H1 & _ & H3 & _).
  - unfold sqlite_integer. split; [discriminate | reflexivity].
  - unfold sqlite_integer. split; [discriminate | reflexivity].
  - discriminate.
  - discriminate.
  - exact march_readings_committable.
  - split; [exact H1 | exact (H3 march_readings_in_hundredths)].
Defined.

Lemma upsert_rejects_bad_records_witness :
  exists e,
    save_to_database [reading_without_value] 2024 3 bought_only_db =
    (Raise e, bought_only_db).
Proof.
  apply (upsert_rejects_bad_records [reading_without_value] 2024 3
           bought_only_db).
  left. exists reading_without_value.
  split; [left; reflexivity | split; reflexivity].
Defined.

Lemma summaries_count_every_record_witness :
  count_meters
    (filter (in_period_s 2024 3)
       (monthly_summaries (upsert 2024 3 two_meters_one_entity empty_db))) =
  Z.of_nat (List.length (filter data_available two_meters_one_entity)).
Proof.
  apply (summaries_count_every_record two_meters_one_entity 2024 3 empty_db
           (upsert 2024 3 two_meters_one_entity empty_db)).
  - vm_compute. discriminate.
  - vm_compute. reflexivity.
Defined.

Lemma init_keeps_configuration_order_witness :
  consumption_codes example_fetcher =
    filter (has_class Consumption) (obiscode example_config).
Proof.
  apply (init_keeps_configuration_order example_config example_fetcher).
  reflexivity.
Defined.

Lemma calculate_month_dates_postcondition_witness :
  1 <= 12 <= 12 /\
  ("2026-12-01", "2026-12-31", 2026, 12) = period_of 2026 12 /\
  28 <= days_in_month 2026 12 <= 31 /\
  (forall y0, Some 2026 = Some y0 -> 2026 = y0) /\
  (forall m0, @None Z = Some m0 -> 12 = m0).
Proof.
  apply (calculate_month_dates_postcondition (mk_datetime 2026 1 15)
           (Some 2026) None "2026-12-01" "2026-12-31" 2026 12).
  reflexivity.
Defined.

Lemma resolved_dates_are_iso_witness :
  iso_shaped "2024-02-01" = true /\ iso_shaped "2024-02-29" = true.
Proof.
  apply (resolved_dates_are_iso (mk_datetime 2024 3 4) None None
           "2024-02-01" "2024-02-29" 2024 2).
  - reflexivity.
  - lia.
Defined.

Lemma wide_table_contents_witness :
  exists data total description,
    rows (create_wide_format_dataframe example_config two_meters_two_codes) =
      (data ++ [total; description])%list /\
    Forall2 (fun g d =>
               forall col,
                 In col (columns (create_wide_format_dataframe example_config
                                    two_meters_two_codes)) ->
                 ~ In col base_cols ->
                 dict_get col d = Some (group_cell col (snd g)))
      (metering_points two_meters_two_codes) data.
Proof.
  destruct (wide_table_contents example_config two_meters_two_codes)
    as (_ & data & total & description & Hrows & _ & Hcells & _).
  - reflexivity.
  - intros r [<- | [<- | [<- | [<- | []]]]] Ha; try discriminate Ha;
      split; [discriminate | reflexivity | discriminate | reflexivity].
  - exists data, total, description. split; [exact Hrows | exact Hcells].
Defined.

Lemma output_files_use_the_stem_witness :
  output_files 2024 3 (Some "out/march.txt") =
    ("data/march.json", "data/march.csv", "data/march.xlsx").
Proof.
  apply (output_files_use_the_stem 2024 3 "out" "march" "txt");
    reflexivity.
Defined.

Lemma main_effects_ignore_no_save_witness :
  snd (main unit always_reading prints writes (Some example_config)
         march_args (mk_datetime 2026 11 4) tt empty_db) =
  snd (main unit always_reading prints cannot_write (Some example_config)
         march_args_no_save (mk_datetime 2026 11 4) tt empty_db).
Proof.
  apply (main_effects_ignore_no_save unit always_reading prints writes
           cannot_write (Some example_config) march_args march_args_no_save
           (mk_datetime 2026 11 4) tt empty_db);
    reflexivity.
Defined.

Lemma main_writes_after_complete_fetch_witness :
  exists month cfg0 f df w' s e y m,
    parse_month_argument (arg_month march_args) = Ok month /\
    Some example_config = Some cfg0 /\ init cfg0 = Ok f /\
    fetch_all_data unit always_reading f (mk_datetime 2026 11 4)
      (arg_year march_args) month tt = (Ok df, w') /\
    calculate_month_dates (mk_datetime 2026 11 4) (arg_year march_args) month =
      Ok (s, e, y, m) /\
    prints df = Ok tt /\
    existsb data_available df = true /\
    snd (main unit always_reading prints writes (Some example_config)
           march_args (mk_datetime 2026 11 4) tt empty_db) =
      upsert y m df empty_db.
Proof.
  apply (main_writes_after_complete_fetch unit always_reading prints writes
           (Some example_config) march_args (mk_datetime 2026 11 4) tt empty_db).
  vm_compute. discriminate.
Defined.

End MoreInstances.
